(** * RahaSoldi-IMS: a shallow embedding of the sale, cart, report and export logic

    The development follows the TypeScript sources:
    - [App.tsx]: the remote-backed handlers ([fetchData], [handleAddItem],
      [handleUpdateItem], [handleDeleteItem], [handleCompleteSale]);
    - [SalesTerminal.tsx]: the cart ([addToCart], [removeFromCart],
      [handleCheckout]);
    - [InventoryManager]: [handleStockAdjustment];
    - [FinancialReport.tsx]: [chartData] and [metrics];
    - [ExpensesManager.tsx]: [filteredExpenses] and [handleExportCSV].

    Modelling conventions.
    - A JavaScript [number] is an exact rational ([Q]).  Rounding of doubles is
      outside the model; a non-finite value is represented only where the
      source tests for it ([parseInt] yielding NaN) or guards against it
      (a division).  Equalities between computed amounts are stated with
      [==] on [Q].
    - A handler is a function from the component state, its arguments and
      the answers of the outside world (remote responses, clock readings,
      generated identifiers) to the next state and the list of effects it
      performed, in program order.
    - Arrays are lists; [findIndex]/[find] are stdpp's [list_find], an
      indexed store is stdpp's list insert. *)

From Stdlib Require Import QArith Qabs Qround Lqa ZArith Lia String Ascii List Sorted DecimalString DecimalN.
From stdpp Require Import base relations list strings.

(** ** Data model ([types.ts]) *)

Module InventoryItem.
Record t := mk {
  id : string;
  name : string;
  category : string;
  quantity : Q;
  costPrice : Q;
  salesPrice : Q;
  lowStockThreshold : Q;
  lastUpdated : string
}.
End InventoryItem.

(** [Partial<InventoryItem>]: every field optional. *)
Module InventoryPatch.
Record t := mk {
  id : option string;
  name : option string;
  category : option string;
  quantity : option Q;
  costPrice : option Q;
  salesPrice : option Q;
  lowStockThreshold : option Q;
  lastUpdated : option string
}.

Definition empty : t := mk None None None None None None None None.

(** [{ ...item, ...patch }] *)
Definition apply (item : InventoryItem.t) (p : t) : InventoryItem.t :=
  InventoryItem.mk
    (default (InventoryItem.id item) (id p))
    (default (InventoryItem.name item) (name p))
    (default (InventoryItem.category item) (category p))
    (default (InventoryItem.quantity item) (quantity p))
    (default (InventoryItem.costPrice item) (costPrice p))
    (default (InventoryItem.salesPrice item) (salesPrice p))
    (default (InventoryItem.lowStockThreshold item) (lowStockThreshold p))
    (default (InventoryItem.lastUpdated item) (lastUpdated p)).
End InventoryPatch.

(** [discount] is not declared in [types.ts]; [FinancialReport.tsx] reads it
    as [i.discount || 0], so it is an optional field here. *)
Module SaleItem.
Record t := mk {
  itemId : string;
  name : string;
  quantity : Q;
  priceAtSale : Q;
  costAtSale : Q;
  discount : option Q
}.
End SaleItem.

Module SaleRecord.
Record t := mk {
  id : string;
  items : list SaleItem.t;
  totalAmount : Q;
  totalProfit : Q;
  timestamp : string
}.
End SaleRecord.

(** Modelled from the spec: the declaration of [ExpenseRecord] is not among
    the sources; the data model lists id, description, amount, category,
    date and recordedAt, and the components read exactly these fields. *)
Module ExpenseRecord.
Record t := mk {
  id : string;
  description : string;
  amount : Q;
  category : string;
  date : string;
  recordedAt : string
}.
End ExpenseRecord.

(** ** Numbers *)

Definition Qltb (x y : Q) : bool := negb (Qle_bool y x).
Definition Qgtb (x y : Q) : bool := Qltb y x.
Definition Qleb (x y : Q) : bool := Qle_bool x y.

(** The sum the specification writes as Σ. *)
Fixpoint Qsum {A : Type} (f : A -> Q) (l : list A) : Q :=
  match l with
  | [] => 0%Q
  | x :: r => (f x + Qsum f r)%Q
  end.

(** [arr.reduce((acc, x) => acc + f(x), 0)] *)
Definition reduce_sum {A : Type} (f : A -> Q) (l : list A) : Q :=
  fold_left (fun acc x => (acc + f x)%Q) l 0%Q.

(** ** [App.tsx] *)

Module App.

Record AppState := mkState {
  inventory : list InventoryItem.t;
  sales : list SaleRecord.t;
  loading : bool
}.

(** What a remote call answers: the promise resolves to [{ data, error }],
    or it rejects. *)
Inductive Response (A : Type) :=
| Resolved (data : option A) (error : option string)
| Rejected (reason : string).
Arguments Resolved {A} data error.
Arguments Rejected {A} reason.

(** [const { error } = await call; if (error) throw error;] *)
Definition thrown {A : Type} (r : Response A) : option string :=
  match r with
  | Resolved _ (Some e) => Some e
  | Resolved _ None => None
  | Rejected e => Some e
  end.

(** [await call;] with the answer discarded: only a rejection throws. *)
Definition rejected {A : Type} (r : Response A) : option string :=
  match r with
  | Resolved _ _ => None
  | Rejected e => Some e
  end.

Inductive Event :=
| InsertInventory (row : InventoryItem.t)
| UpdateInventory (id : string) (fields : InventoryPatch.t)
| DeleteInventory (id : string)
| InsertSale (row : SaleRecord.t)
| SelectInventory
| SelectSales
| Confirm (msg : string)
| ConsoleError (label : string)
| Alert (msg : string).

Record FetchEnv := mkFetchEnv {
  inv_resp : Response (list InventoryItem.t);
  sales_resp : Response (list SaleRecord.t)
}.

Definition fetchData (st : AppState) (env : FetchEnv) : AppState * list Event :=
  match thrown (inv_resp env) with
  | Some _ =>
      (mkState (inventory st) (sales st) false,
       [SelectInventory; ConsoleError "Error fetching data:"])
  | None =>
      let inv1 :=
        match inv_resp env with
        | Resolved (Some invData) _ => invData
        | _ => inventory st
        end in
      match thrown (sales_resp env) with
      | Some _ =>
          (mkState inv1 (sales st) false,
           [SelectInventory; SelectSales; ConsoleError "Error fetching data:"])
      | None =>
          let sales1 :=
            match sales_resp env with
            | Resolved (Some salesData) _ => salesData
            | _ => sales st
            end in
          (mkState inv1 sales1 false, [SelectInventory; SelectSales])
      end
  end.

(** The [catch] block shared by the handlers: log, alert, refetch. *)
Definition recover (st : AppState) (label msg : string) (env : FetchEnv)
  : AppState * list Event :=
  let '(st', evs) := fetchData st env in
  (st', ConsoleError label :: Alert msg :: evs).

Record WriteEnv := mkWriteEnv {
  uuid : string;
  now : string;
  confirmed : bool;
  write_resp : Response unit;
  refetch : FetchEnv
}.

Definition handleAddItem (st : AppState) (env : WriteEnv) (item : InventoryItem.t)
  : AppState * list Event :=
  let newItem :=
    InventoryItem.mk (uuid env) (InventoryItem.name item)
      (InventoryItem.category item) (InventoryItem.quantity item)
      (InventoryItem.costPrice item) (InventoryItem.salesPrice item)
      (InventoryItem.lowStockThreshold item) (now env) in
  let st1 := mkState (inventory st ++ [newItem]) (sales st) (loading st) in
  match thrown (write_resp env) with
  | None => (st1, [InsertInventory newItem])
  | Some _ =>
      let '(st2, evs) :=
        recover st1 "Error adding item:" "Failed to save item to database."
          (refetch env) in
      (st2, InsertInventory newItem :: evs)
  end.

Definition handleUpdateItem (st : AppState) (env : WriteEnv) (id : string)
  (updates : InventoryPatch.t) : AppState * list Event :=
  let finalUpdates :=
    InventoryPatch.mk (InventoryPatch.id updates) (InventoryPatch.name updates)
      (InventoryPatch.category updates) (InventoryPatch.quantity updates)
      (InventoryPatch.costPrice updates) (InventoryPatch.salesPrice updates)
      (InventoryPatch.lowStockThreshold updates) (Some (now env)) in
  let st1 :=
    mkState
      (map (fun item =>
              if decide (InventoryItem.id item = id)
              then InventoryPatch.apply item finalUpdates else item)
           (inventory st))
      (sales st) (loading st) in
  match thrown (write_resp env) with
  | None => (st1, [UpdateInventory id finalUpdates])
  | Some _ =>
      let '(st2, evs) :=
        recover st1 "Error updating item:" "Failed to update item in database."
          (refetch env) in
      (st2, UpdateInventory id finalUpdates :: evs)
  end.

Definition handleDeleteItem (st : AppState) (env : WriteEnv) (id : string)
  : AppState * list Event :=
  let ask := Confirm "Are you sure you want to delete this item?" in
  if confirmed env then
    let st1 :=
      mkState
        (filter (fun item => InventoryItem.id item <> id) (inventory st))
        (sales st) (loading st) in
    match thrown (write_resp env) with
    | None => (st1, [ask; DeleteInventory id])
    | Some _ =>
        let '(st2, evs) :=
          recover st1 "Error deleting item:" "Failed to delete item from database."
            (refetch env) in
        (st2, ask :: DeleteInventory id :: evs)
    end
  else (st, [ask]).

(** The outside world of one [handleCompleteSale] call.  Every place where
    the source reads the clock is an input of its own: once for the sale,
    once per cart line in the optimistic loop, once per cart line in the
    remote loop (indexed by the position of the line in the cart). *)
Record SaleEnv := mkSaleEnv {
  sale_uuid : string;
  sale_time : string;
  optimistic_time : nat -> string;
  update_time : nat -> string;
  insert_resp : Response unit;
  update_resp : nat -> Response unit;
  sale_refetch : FetchEnv
}.

Definition totalAmount_of (items : list SaleItem.t) : Q :=
  reduce_sum (fun item => (SaleItem.quantity item * SaleItem.priceAtSale item)%Q) items.

Definition totalCost_of (items : list SaleItem.t) : Q :=
  reduce_sum (fun item => (SaleItem.quantity item * SaleItem.costAtSale item)%Q) items.

Definition newSale_of (env : SaleEnv) (items : list SaleItem.t) : SaleRecord.t :=
  let totalAmount := totalAmount_of items in
  let totalCost := totalCost_of items in
  SaleRecord.mk (sale_uuid env) items totalAmount (totalAmount - totalCost)%Q
    (sale_time env).

(** [newInventory.findIndex(p => p.id === saleItem.itemId)] *)
Definition findIndex_id (itemId : string) (l : list InventoryItem.t)
  : option (nat * InventoryItem.t) :=
  list_find (fun p => InventoryItem.id p = itemId) l.

(** One turn of the [items.forEach] of the optimistic update. *)
Definition decrement (env : SaleEnv) (j : nat) (saleItem : SaleItem.t)
  (newInventory : list InventoryItem.t) : list InventoryItem.t :=
  match findIndex_id (SaleItem.itemId saleItem) newInventory with
  | Some (productIndex, p) =>
      <[productIndex :=
          InventoryItem.mk (InventoryItem.id p) (InventoryItem.name p)
            (InventoryItem.category p)
            (InventoryItem.quantity p - SaleItem.quantity saleItem)%Q
            (InventoryItem.costPrice p) (InventoryItem.salesPrice p)
            (InventoryItem.lowStockThreshold p) (optimistic_time env j)]>
        newInventory
  | None => newInventory
  end.

Fixpoint forEach_decrement (env : SaleEnv) (j : nat) (items : list SaleItem.t)
  (newInventory : list InventoryItem.t) : list InventoryItem.t :=
  match items with
  | [] => newInventory
  | saleItem :: rest =>
      forEach_decrement env (S j) rest (decrement env j saleItem newInventory)
  end.

(** The state after [setInventory(newInventory); setSales(...)], before the
    first [await]. *)
Definition optimistic_state (st : AppState) (env : SaleEnv)
  (items : list SaleItem.t) : AppState :=
  mkState (forEach_decrement env 0 items (inventory st))
    (newSale_of env items :: sales st) (loading st).

(** The [for (const item of items)] loop of the [try] block.  [inventory]
    is the value the handler closed over, not the optimistic copy.  The
    result is the events issued and the exception that ended the loop, if
    any. *)
Fixpoint update_loop (env : SaleEnv) (inventory : list InventoryItem.t)
  (j : nat) (items : list SaleItem.t) : list Event * option string :=
  match items with
  | [] => ([], None)
  | item :: rest =>
      match findIndex_id (SaleItem.itemId item) inventory with
      | Some (_, currentItem) =>
          let newQty :=
            (InventoryItem.quantity currentItem - SaleItem.quantity item)%Q in
          let ev :=
            UpdateInventory (SaleItem.itemId item)
              (InventoryPatch.mk None None None (Some newQty) None None None
                 (Some (update_time env j))) in
          match rejected (update_resp env j) with
          | Some e => ([ev], Some e)
          | None =>
              let '(evs, r) := update_loop env inventory (S j) rest in
              (ev :: evs, r)
          end
      | None => update_loop env inventory (S j) rest
      end
  end.

(** The [try] block: the events issued and the exception caught, if any. *)
Definition sale_try (st : AppState) (env : SaleEnv) (items : list SaleItem.t)
  : list Event * option string :=
  let newSale := newSale_of env items in
  match thrown (insert_resp env) with
  | Some e => ([InsertSale newSale], Some e)
  | None =>
      let '(evs, r) := update_loop env (inventory st) 0 items in
      (InsertSale newSale :: evs, r)
  end.

Definition handleCompleteSale (st : AppState) (env : SaleEnv)
  (items : list SaleItem.t) : AppState * list Event :=
  let st1 := optimistic_state st env items in
  match sale_try st env items with
  | (evs, None) => (st1, evs)
  | (evs, Some _) =>
      let '(st2, rec_evs) :=
        recover st1 "Error processing sale:"
          "Error saving sale to database. Please check connection."
          (sale_refetch env) in
      (st2, evs ++ rec_evs)
  end.

End App.

(** ** [SalesTerminal.tsx] *)

Module SalesTerminal.

Record State := mkState {
  cart : list SaleItem.t;
  searchTerm : string;
  selectedProduct : option InventoryItem.t;
  qtyInput : Q;
  successMsg : string
}.

(** The three alerts of [addToCart]; the two template literals carry the
    stock they print. *)
Inductive AlertMsg :=
| QuantityMustBePositive
| NotEnoughStock (available : Q)
| WouldExceedStock (stock : Q).

Inductive Effect :=
| Alert (msg : AlertMsg)
| OnCompleteSale (items : list SaleItem.t).

(** [setSelectedProduct(null); setQtyInput(1); setSearchTerm('')] after
    [setCart(newCart)]. *)
Definition with_cart_and_reset (st : State) (newCart : list SaleItem.t) : State :=
  mkState newCart EmptyString None 1%Q (successMsg st).

Definition findIndex_itemId (id : string) (cart : list SaleItem.t)
  : option (nat * SaleItem.t) :=
  list_find (fun item => SaleItem.itemId item = id) cart.

(** [newCart[existingItemIndex].quantity += qtyInput] *)
Definition add_quantity (line : SaleItem.t) (qty : Q) : SaleItem.t :=
  SaleItem.mk (SaleItem.itemId line) (SaleItem.name line)
    (SaleItem.quantity line + qty)%Q (SaleItem.priceAtSale line)
    (SaleItem.costAtSale line) (SaleItem.discount line).

Definition addToCart (st : State) : State * list Effect :=
  match selectedProduct st with
  | None => (st, [])
  | Some p =>
      if Qleb (qtyInput st) 0 then (st, [Alert QuantityMustBePositive])
      else if Qgtb (qtyInput st) (InventoryItem.quantity p)
      then (st, [Alert (NotEnoughStock (InventoryItem.quantity p))])
      else
        match findIndex_itemId (InventoryItem.id p) (cart st) with
        | Some (existingItemIndex, existing) =>
            if Qgtb (SaleItem.quantity existing + qtyInput st)
                 (InventoryItem.quantity p)
            then (st, [Alert (WouldExceedStock (InventoryItem.quantity p))])
            else
              (with_cart_and_reset st
                 (<[existingItemIndex := add_quantity existing (qtyInput st)]>
                    (cart st)),
               [])
        | None =>
            let newItem :=
              SaleItem.mk (InventoryItem.id p) (InventoryItem.name p)
                (qtyInput st) (InventoryItem.salesPrice p)
                (InventoryItem.costPrice p) None in
            (with_cart_and_reset st (cart st ++ [newItem]), [])
        end
  end.

(** [newCart.splice(index, 1)] *)
Definition removeFromCart (st : State) (index : nat) : State :=
  mkState (delete index (cart st)) (searchTerm st) (selectedProduct st)
    (qtyInput st) (successMsg st).

Definition handleCheckout (st : State) : State * list Effect :=
  match cart st with
  | [] => (st, [])
  | _ :: _ =>
      (mkState [] (searchTerm st) (selectedProduct st) (qtyInput st)
         "Sale recorded successfully!",
       [OnCompleteSale (cart st)])
  end.

Definition cartTotal (st : State) : Q :=
  reduce_sum (fun item => (SaleItem.quantity item * SaleItem.priceAtSale item)%Q)
    (cart st).

(** [setSelectedProduct(item)], the click on a product card. *)
Definition selectProduct (st : State) (item : InventoryItem.t) : State :=
  mkState (cart st) (searchTerm st) (Some item) (qtyInput st) (successMsg st).

Definition setQty (st : State) (q : Q) : State :=
  mkState (cart st) (searchTerm st) (selectedProduct st) q (successMsg st).

(** The minus button: [setQtyInput(Math.max(1, qtyInput - 1))]. *)
Definition decrementQty (st : State) : State :=
  setQty st (if Qleb 1 (qtyInput st - 1) then (qtyInput st - 1)%Q else 1%Q).

(** The plus button: [setQtyInput(qtyInput + 1)]. *)
Definition incrementQty (st : State) : State :=
  setQty st (qtyInput st + 1)%Q.

(** [cart.filter(i => i.itemId === itemId).reduce((acc, i) => acc + i.quantity, 0)] *)
Definition itemInCartTotal (cart : list SaleItem.t) (itemId : string) : Q :=
  reduce_sum SaleItem.quantity
    (List.filter (fun i => bool_decide (SaleItem.itemId i = itemId)) cart).

(** The [disabled] attribute of the Add button, shown while [p] is the
    selected product. *)
Definition addDisabled (st : State) (p : InventoryItem.t) : bool :=
  Qgtb (itemInCartTotal (cart st) (InventoryItem.id p) + qtyInput st)
    (InventoryItem.quantity p).

End SalesTerminal.

(** ** [parseInt] *)

Module Number.

Definition is_space (c : ascii) : bool :=
  let n := nat_of_ascii c in
  (n =? 32)%nat || ((9 <=? n)%nat && (n <=? 13)%nat).

Fixpoint skip_spaces (s : string) : string :=
  match s with
  | String c r => if is_space c then skip_spaces r else s
  | EmptyString => s
  end.

Definition digit_value (c : ascii) : option Z :=
  let n := Z.of_nat (nat_of_ascii c) in
  if (48 <=? n)%Z && (n <=? 57)%Z then Some (n - 48)%Z
  else if (97 <=? n)%Z && (n <=? 122)%Z then Some (n - 87)%Z
  else if (65 <=? n)%Z && (n <=? 90)%Z then Some (n - 55)%Z
  else None.

(** The longest prefix of digits of the radix; [acc] is [None] until a
    digit has been read. *)
Fixpoint parse_digits (radix : Z) (s : string) (acc : option Z) : option Z :=
  match s with
  | EmptyString => acc
  | String c r =>
      match digit_value c with
      | Some d =>
          if (d <? radix)%Z
          then parse_digits radix r (Some (radix * default 0%Z acc + d)%Z)
          else acc
      | None => acc
      end
  end.

Definition strip_hex_prefix (s : string) : option string :=
  match s with
  | String "0" (String "x" r) => Some r
  | String "0" (String "X" r) => Some r
  | _ => None
  end.

Definition parse_unsigned (s : string) : option Z :=
  match strip_hex_prefix s with
  | Some r => parse_digits 16 r None
  | None => parse_digits 10 s None
  end.

(** [parseInt(s)] with no radix; [None] is NaN. *)
Definition parseInt (s : string) : option Z :=
  match skip_spaces s with
  | String "-" r => Z.opp <$> parse_unsigned r
  | String "+" r => parse_unsigned r
  | t => parse_unsigned t
  end.

(** [x / y]: a zero divisor gives Infinity or NaN, which is [None]. *)
Definition div (x y : Q) : option Q :=
  if Qeq_bool y 0 then None else Some (x / y)%Q.

End Number.

(** ** [InventoryManager]: the stock-adjustment modal *)

Module InventoryManager.

Record State := mkState {
  adjustItem : option InventoryItem.t;
  adjustQty : string;
  isAdjustModalOpen : bool
}.

Inductive Effect :=
| OnUpdate (id : string) (item : InventoryPatch.t)
| Alert (msg : string).

Definition openAdjustModal (item : InventoryItem.t) (shown : string) : State :=
  mkState (Some item) shown true.

Definition closeAdjustModal : State := mkState None EmptyString false.

Definition quantity_patch (newQty : Z) : InventoryPatch.t :=
  InventoryPatch.mk None None None (Some (inject_Z newQty)) None None None None.

Definition handleStockAdjustment (st : State) : State * list Effect :=
  match adjustItem st with
  | Some item =>
      match Number.parseInt (adjustQty st) with
      | Some newQty =>
          if (0 <=? newQty)%Z
          then (closeAdjustModal,
                [OnUpdate (InventoryItem.id item) (quantity_patch newQty)])
          else (st, [Alert "Please enter a valid non-negative quantity."])
      | None => (st, [Alert "Please enter a valid non-negative quantity."])
      end
  | None => (st, [])
  end.

End InventoryManager.

(** ** Arrays and maps of the platform *)

Module JS.

(** [Array.prototype.sort(cmp)]: a stable sort; [cmp a b <= 0] keeps [a]
    before [b]. *)
Fixpoint sort_insert {A : Type} (cmp : A -> A -> Z) (x : A) (l : list A) : list A :=
  match l with
  | [] => [x]
  | y :: r => if (cmp x y <=? 0)%Z then x :: y :: r else y :: sort_insert cmp x r
  end.

Definition sort {A : Type} (cmp : A -> A -> Z) (l : list A) : list A :=
  foldr (sort_insert cmp) [] l.

(** [a.localeCompare(b)], taken as the order of the code units; on keys of
    the shape YYYY-MM-DD the two agree. *)
Definition localeCompare (a b : string) : Z :=
  match String.compare a b with
  | Lt => (-1)%Z
  | Eq => 0%Z
  | Gt => 1%Z
  end.


(** A [Map<string, V>] in insertion order. *)
Definition Map (V : Type) : Type := list (string * V).

Definition Map_has {V : Type} (k : string) (m : Map V) : bool :=
  bool_decide (k ∈ m.*1).

(** The object stored under [k] is mutated in place. *)
Fixpoint Map_alter {V : Type} (f : V -> V) (k : string) (m : Map V) : Map V :=
  match m with
  | [] => []
  | (k', v) :: r =>
      if decide (k' = k) then (k', f v) :: r else (k', v) :: Map_alter f k r
  end.

Definition Map_set {V : Type} (k : string) (v : V) (m : Map V) : Map V :=
  if Map_has k m then Map_alter (fun _ => v) k m else m ++ [(k, v)].

Definition Map_values {V : Type} (m : Map V) : list V := m.*2.

(** [m.get(k)] *)
Fixpoint Map_get {V : Type} (k : string) (m : Map V) : option V :=
  match m with
  | [] => None
  | (k', v) :: r => if decide (k' = k) then Some v else Map_get k r
  end.

(** The comparison of [sort()] without an argument: strings by their code
    units. *)
Definition defaultCompare (a b : string) : Z :=
  match String.compare a b with
  | Lt => (-1)%Z
  | Eq => 0%Z
  | Gt => 1%Z
  end.

(** [Array.from(new Set(l))]: the first occurrence of every value, in
    order. *)
Definition Set_from (l : list string) : list string :=
  fold_left (fun seen x => if decide (x ∈ seen) then seen else seen ++ [x]) l [].

End JS.

(** ** [FinancialReport.tsx] *)

Module Bucket.
Record t := mk {
  date : string;
  revenue : Q;
  expense : Q;
  grossProfit : Q;
  netIncome : Q;
  discount : Q
}.
End Bucket.

Module FinancialReport.

(** [new Date(s.timestamp) >= startDate]: [getTime] is the platform's
    reading of a date string in epoch milliseconds, [startDate] the
    beginning of the selected range. *)
Definition filterSales (getTime : string -> Z) (startDate : Z)
  (sales : list SaleRecord.t) : list SaleRecord.t :=
  filter (fun s => (startDate <= getTime (SaleRecord.timestamp s))%Z) sales.

Definition filterExpenses (getTime : string -> Z) (startDate : Z)
  (expenses : list ExpenseRecord.t) : list ExpenseRecord.t :=
  filter (fun e => (startDate <= getTime (ExpenseRecord.date e))%Z) expenses.

(** [dateStr.split('T')[0]] *)
Fixpoint getDateKey (dateStr : string) : string :=
  match dateStr with
  | EmptyString => EmptyString
  | String c r => if Ascii.eqb c "T" then EmptyString else String c (getDateKey r)
  end.

Definition fresh (key : string) : Bucket.t := Bucket.mk key 0 0 0 0 0.

(** [if (!dataMap.has(key)) dataMap.set(key, {...})] *)
Definition ensure (key : string) (dataMap : JS.Map Bucket.t) : JS.Map Bucket.t :=
  if JS.Map_has key dataMap then dataMap else JS.Map_set key (fresh key) dataMap.

(** [i.discount || 0] *)
Definition discount_or_0 (i : SaleItem.t) : Q := default 0%Q (SaleItem.discount i).

Definition add_sale (dataMap : JS.Map Bucket.t) (sale : SaleRecord.t)
  : JS.Map Bucket.t :=
  let key := getDateKey (SaleRecord.timestamp sale) in
  let saleDiscount := reduce_sum discount_or_0 (SaleRecord.items sale) in
  JS.Map_alter
    (fun current =>
       Bucket.mk (Bucket.date current)
         (Bucket.revenue current + SaleRecord.totalAmount sale)%Q
         (Bucket.expense current)
         (Bucket.grossProfit current + SaleRecord.totalProfit sale)%Q
         (Bucket.netIncome current + SaleRecord.totalProfit sale)%Q
         (Bucket.discount current + saleDiscount)%Q)
    key (ensure key dataMap).

Definition add_expense (dataMap : JS.Map Bucket.t) (exp : ExpenseRecord.t)
  : JS.Map Bucket.t :=
  let key := getDateKey (ExpenseRecord.date exp) in
  JS.Map_alter
    (fun current =>
       Bucket.mk (Bucket.date current) (Bucket.revenue current)
         (Bucket.expense current + ExpenseRecord.amount exp)%Q
         (Bucket.grossProfit current)
         (Bucket.netIncome current - ExpenseRecord.amount exp)%Q
         (Bucket.discount current))
    key (ensure key dataMap).

Definition dataMap_of (filteredSales : list SaleRecord.t)
  (filteredExpenses : list ExpenseRecord.t) : JS.Map Bucket.t :=
  fold_left add_expense filteredExpenses (fold_left add_sale filteredSales []).

Definition chartData (filteredSales : list SaleRecord.t)
  (filteredExpenses : list ExpenseRecord.t) : list Bucket.t :=
  JS.sort (fun a b => JS.localeCompare (Bucket.date a) (Bucket.date b))
    (JS.Map_values (dataMap_of filteredSales filteredExpenses)).

Record Metrics := mkMetrics {
  totalRevenue : Q;
  totalDiscount : Q;
  totalGrossProfit : Q;
  totalCOGS : Q;
  totalExpenses : Q;
  netIncome : Q;
  grossMargin : option Q;
  netMargin : option Q;
  expenseRatio : option Q;
  inventoryValue : Q
}.

(** [totalRevenue > 0 ? (x / totalRevenue) * 100 : 0] *)
Definition percent_of (x totalRevenue : Q) : option Q :=
  if Qgtb totalRevenue 0
  then (fun r => (r * 100)%Q) <$> Number.div x totalRevenue
  else Some 0%Q.

Definition metrics (filteredSales : list SaleRecord.t)
  (filteredExpenses : list ExpenseRecord.t) (inventory : list InventoryItem.t)
  : Metrics :=
  let totalRevenue := reduce_sum SaleRecord.totalAmount filteredSales in
  let totalDiscount :=
    reduce_sum (fun s => reduce_sum discount_or_0 (SaleRecord.items s))
      filteredSales in
  let totalGrossProfit := reduce_sum SaleRecord.totalProfit filteredSales in
  let totalCOGS := (totalRevenue - totalGrossProfit)%Q in
  let totalExpenses := reduce_sum ExpenseRecord.amount filteredExpenses in
  let netIncome := (totalGrossProfit - totalExpenses)%Q in
  mkMetrics totalRevenue totalDiscount totalGrossProfit totalCOGS totalExpenses
    netIncome
    (percent_of totalGrossProfit totalRevenue)
    (percent_of netIncome totalRevenue)
    (percent_of totalExpenses totalRevenue)
    (reduce_sum
       (fun i => (InventoryItem.costPrice i * InventoryItem.quantity i)%Q)
       inventory).

End FinancialReport.

(** ** [ExpensesManager.tsx] *)

Module ExpensesManager.

Record Filters := mkFilters {
  searchTerm : string;
  startDate : string;
  endDate : string;
  selectedCategory : string
}.

(** [toLowerCase] on the ASCII letters. *)
Definition lower_ascii (c : ascii) : ascii :=
  let n := nat_of_ascii c in
  if (65 <=? n)%nat && (n <=? 90)%nat then ascii_of_nat (n + 32) else c.

Fixpoint toLowerCase (s : string) : string :=
  match s with
  | EmptyString => EmptyString
  | String c r => String (lower_ascii c) (toLowerCase r)
  end.

(** [s.includes(sub)] *)
Fixpoint includes (s sub : string) : bool :=
  String.prefix sub s ||
  match s with
  | EmptyString => false
  | String _ r => includes r sub
  end.

(** A non-empty string is truthy. *)
Definition truthy (s : string) : bool :=
  match s with EmptyString => false | String _ _ => true end.

Definition matches (getTime : string -> Z) (f : Filters) (exp : ExpenseRecord.t)
  : bool :=
  let matchesSearch :=
    includes (toLowerCase (ExpenseRecord.description exp))
      (toLowerCase (searchTerm f))
    || includes (toLowerCase (ExpenseRecord.category exp))
         (toLowerCase (searchTerm f)) in
  let matchesCategory :=
    String.eqb (selectedCategory f) "All"
    || String.eqb (ExpenseRecord.category exp) (selectedCategory f) in
  let matchesDate0 := true in
  let matchesDate1 :=
    if truthy (startDate f)
    then matchesDate0
         && (getTime (startDate f) <=? getTime (ExpenseRecord.date exp))%Z
    else matchesDate0 in
  let matchesDate :=
    if truthy (endDate f)
    then matchesDate1
         && (getTime (ExpenseRecord.date exp) <=? getTime (endDate f))%Z
    else matchesDate1 in
  matchesSearch && matchesCategory && matchesDate.

(** [(a, b) => new Date(b.date).getTime() - new Date(a.date).getTime()] *)
Definition newest_first (getTime : string -> Z) (a b : ExpenseRecord.t) : Z :=
  (getTime (ExpenseRecord.date b) - getTime (ExpenseRecord.date a))%Z.

Definition filteredExpenses (getTime : string -> Z) (f : Filters)
  (expenses : list ExpenseRecord.t) : list ExpenseRecord.t :=
  JS.sort (newest_first getTime)
    (List.filter (matches getTime f) expenses).

Definition dquote : ascii := "034"%char.

(** The global replace of the description: every double-quote character
    becomes two. *)
Fixpoint escape_quotes (s : string) : string :=
  match s with
  | EmptyString => EmptyString
  | String c r =>
      if Ascii.eqb c dquote
      then String dquote (String dquote (escape_quotes r))
      else String c (escape_quotes r)
  end.

Definition quoted (s : string) : string :=
  String dquote (escape_quotes s ++ String dquote EmptyString).

Definition digit_char (d : Z) : ascii := ascii_of_nat (48 + Z.to_nat d).

Definition decimal (n : Z) : string := NilZero.string_of_uint (N.to_uint (Z.to_N n)).

(** [x.toFixed(2)]: the sign of [x], then the hundredths of [|x|] rounded
    to the nearest integer (the larger one on a tie), printed with two
    digits after the point.  The exponent notation that the platform
    switches to from 10^21 on belongs to doubles and is outside the
    model. *)
Definition hundredths (x : Q) : Z := Qfloor (Qabs x * 100 + (1 # 2))%Q.

Definition toFixed2 (x : Q) : string :=
  let n := hundredths x in
  (if Qltb x 0 then "-" else EmptyString)
  ++ decimal (n / 100)
  ++ String "." (String (digit_char (n mod 100 / 10))
                   (String (digit_char (n mod 10)) EmptyString)).


Definition row (e : ExpenseRecord.t) : list string :=
  [ExpenseRecord.date e;
   quoted (ExpenseRecord.description e);
   ExpenseRecord.category e;
   toFixed2 (ExpenseRecord.amount e);
   ExpenseRecord.id e].




(** [data[exp.category] = (data[exp.category] || 0) + exp.amount]; the
    object [data] is kept as its properties in creation order. *)
Definition add_to_category (data : JS.Map Q) (exp : ExpenseRecord.t) : JS.Map Q :=
  JS.Map_set (ExpenseRecord.category exp)
    (default 0%Q (JS.Map_get (ExpenseRecord.category exp) data)
     + ExpenseRecord.amount exp)%Q
    data.

Record CategoryEntry := mkEntry {
  name : string;
  value : Q
}.

(** [Object.keys(data).map(key => ({ name: key, value: data[key] }))].
    [propertyOrder] is the order in which the platform lists the keys of
    an object created in the given order (integer-like keys first, the
    others as created). *)
Definition categoryData (propertyOrder : list string -> list string)
  (filtered : list ExpenseRecord.t) : list CategoryEntry :=
  let data := fold_left add_to_category filtered [] in
  map (fun key => mkEntry key (default 0%Q (JS.Map_get key data)))
    (propertyOrder data.*1).

Definition totalExpenses (filtered : list ExpenseRecord.t) : Q :=
  reduce_sum ExpenseRecord.amount filtered.

(** [filteredExpenses.length > 0 ? totalExpenses / filteredExpenses.length : 0] *)
Definition avgExpense (filtered : list ExpenseRecord.t) : option Q :=
  if (0 <? length filtered)%nat
  then Number.div (totalExpenses filtered) (inject_Z (Z.of_nat (length filtered)))
  else Some 0%Q.

(** [categoryData.reduce((prev, current) =>
      (prev.value > current.value) ? prev : current).name], or N/A. *)
Definition topCategory (categoryData : list CategoryEntry) : string :=
  match categoryData with
  | [] => "N/A"
  | first :: rest =>
      name (fold_left
              (fun prev current =>
                 if Qgtb (value prev) (value current) then prev else current)
              rest first)
  end.

End ExpensesManager.

(** ** [SalesHistory.tsx] *)

Module SalesHistory.

Record Filters := mkFilters {
  searchTerm : string;
  startDate : string;
  endDate : string
}.

(** [startOfDay] and [endOfDay] stand for [setHours(0, 0, 0, 0)] and
    [setHours(23, 59, 59, 999)] on an instant, which depend on the time
    zone of the browser. *)
Definition matches (getTime : string -> Z) (startOfDay endOfDay : Z -> Z)
  (f : Filters) (sale : SaleRecord.t) : bool :=
  let matchesSearch :=
    String.eqb (searchTerm f) EmptyString
    || existsb
         (fun item =>
            ExpensesManager.includes
              (ExpensesManager.toLowerCase (SaleItem.name item))
              (ExpensesManager.toLowerCase (searchTerm f)))
         (SaleRecord.items sale) in
  let matchesDate0 := true in
  let matchesDate1 :=
    if ExpensesManager.truthy (startDate f)
    then matchesDate0
         && (startOfDay (getTime (startDate f))
             <=? getTime (SaleRecord.timestamp sale))%Z
    else matchesDate0 in
  let matchesDate :=
    if ExpensesManager.truthy (endDate f)
    then matchesDate1
         && (getTime (SaleRecord.timestamp sale)
             <=? endOfDay (getTime (endDate f)))%Z
    else matchesDate1 in
  matchesSearch && matchesDate.

Definition newest_first (getTime : string -> Z) (a b : SaleRecord.t) : Z :=
  (getTime (SaleRecord.timestamp b) - getTime (SaleRecord.timestamp a))%Z.

Definition filteredSales (getTime : string -> Z) (startOfDay endOfDay : Z -> Z)
  (f : Filters) (sales : list SaleRecord.t) : list SaleRecord.t :=
  JS.sort (newest_first getTime)
    (List.filter (matches getTime startOfDay endOfDay f) sales).

Definition totalRevenue (filteredSales : list SaleRecord.t) : Q :=
  reduce_sum SaleRecord.totalAmount filteredSales.

Definition totalProfit (filteredSales : list SaleRecord.t) : Q :=
  reduce_sum SaleRecord.totalProfit filteredSales.

(** [sale.items.reduce((sum, i) => sum + i.quantity, 0)], the "items
    total" of a row. *)
Definition itemsTotal (sale : SaleRecord.t) : Q :=
  reduce_sum SaleItem.quantity (SaleRecord.items sale).

End SalesHistory.

(** ** The product lists of [SalesTerminal.tsx] and [InventoryManager] *)

Module SalesTerminalView.

Definition filteredInventory (inventory : list InventoryItem.t)
  (searchTerm : string) : list InventoryItem.t :=
  List.filter
    (fun item =>
       ExpensesManager.includes
         (ExpensesManager.toLowerCase (InventoryItem.name item))
         (ExpensesManager.toLowerCase searchTerm))
    inventory.

(** [onChange={(e) => setQtyInput(parseInt(e.target.value) || 0)}] *)
Definition changeQty (st : SalesTerminal.State) (text : string)
  : SalesTerminal.State :=
  SalesTerminal.setQty st
    match Number.parseInt text with
    | Some n => inject_Z n
    | None => 0%Q
    end.

End SalesTerminalView.

Module InventoryManagerView.

(** [Array.from(new Set(inventory.map(i => i.category))).sort()] *)
Definition categories (inventory : list InventoryItem.t) : list string :=
  JS.sort JS.defaultCompare (JS.Set_from (map InventoryItem.category inventory)).

Definition filteredInventory (inventory : list InventoryItem.t)
  (searchTerm : string) : list InventoryItem.t :=
  List.filter
    (fun item =>
       ExpensesManager.includes
         (ExpensesManager.toLowerCase (InventoryItem.name item))
         (ExpensesManager.toLowerCase searchTerm)
       || ExpensesManager.includes
            (ExpensesManager.toLowerCase (InventoryItem.category item))
            (ExpensesManager.toLowerCase searchTerm))
    inventory.

Record FormData := mkForm {
  name : string;
  category : string;
  quantity : Q;
  costPrice : Q;
  salesPrice : Q;
  lowStockThreshold : Q
}.

Record FormState := mkFormState {
  isModalOpen : bool;
  editingId : option string;
  formData : FormData
}.

Inductive Effect :=
| OnAdd (item : FormData)
| OnUpdate (id : string) (item : InventoryPatch.t).

Definition emptyForm : FormData := mkForm EmptyString EmptyString 0 0 0 5.

Definition resetForm : FormState := mkFormState false None emptyForm.

Definition handleEdit (item : InventoryItem.t) : FormState :=
  mkFormState true (Some (InventoryItem.id item))
    (mkForm (InventoryItem.name item) (InventoryItem.category item)
       (InventoryItem.quantity item) (InventoryItem.costPrice item)
       (InventoryItem.salesPrice item) (InventoryItem.lowStockThreshold item)).

(** The form passed as a [Partial<InventoryItem>]. *)
Definition patch_of (f : FormData) : InventoryPatch.t :=
  InventoryPatch.mk None (Some (name f)) (Some (category f)) (Some (quantity f))
    (Some (costPrice f)) (Some (salesPrice f)) (Some (lowStockThreshold f)) None.

(** The form passed to [onAdd]; [handleAddItem] supplies id and
    lastUpdated. *)
Definition item_of (f : FormData) : InventoryItem.t :=
  InventoryItem.mk EmptyString (name f) (category f) (quantity f) (costPrice f)
    (salesPrice f) (lowStockThreshold f) EmptyString.

(** [if (editingId) onUpdate(editingId, formData) else onAdd(formData);
    resetForm()]: an id that is null or empty is falsy. *)
Definition handleSubmit (st : FormState) : FormState * list Effect :=
  match editingId st with
  | Some (String c r) => (resetForm, [OnUpdate (String c r) (patch_of (formData st))])
  | _ => (resetForm, [OnAdd (formData st)])
  end.

End InventoryManagerView.

(** ** Notions used to state the properties *)

(** The cart line resolves to position [k] of the inventory: [k] is what
    [findIndex] returns for the line's [itemId], the first position that
    carries this id. *)
Definition resolves_to (inventory : list InventoryItem.t) (line : SaleItem.t)
  (k : nat) : bool :=
  bool_decide (fst <$> App.findIndex_id (SaleItem.itemId line) inventory = Some k).

(** The total quantity of the cart lines that resolve to position [k]. *)
Definition sold_at (inventory : list InventoryItem.t) (k : nat)
  (items : list SaleItem.t) : Q :=
  Qsum SaleItem.quantity
    (List.filter (fun line => resolves_to inventory line k) items).

(** The remote writes among the events of a handler. *)
Definition is_write (e : App.Event) : bool :=
  match e with
  | App.InsertInventory _ | App.UpdateInventory _ _ | App.DeleteInventory _
  | App.InsertSale _ => true
  | _ => false
  end.

Definition is_update (e : App.Event) : bool :=
  match e with App.UpdateInventory _ _ => true | _ => false end.

(** What the [catch] blocks do: a log, an alert, a refetch. *)
Definition is_recovery (e : App.Event) : bool :=
  match e with
  | App.ConsoleError _ | App.Alert _ | App.SelectInventory | App.SelectSales => true
  | _ => false
  end.

(** One quantity update per cart line whose [itemId] occurs in the
    inventory, in cart order; [j] is the position of the first line. *)
Fixpoint matching_updates (env : App.SaleEnv) (inventory : list InventoryItem.t)
  (j : nat) (items : list SaleItem.t) : list App.Event :=
  match items with
  | [] => []
  | line :: rest =>
      match App.findIndex_id (SaleItem.itemId line) inventory with
      | Some (_, currentItem) =>
          App.UpdateInventory (SaleItem.itemId line)
            (InventoryPatch.mk None None None
               (Some (InventoryItem.quantity currentItem - SaleItem.quantity line)%Q)
               None None None (Some (App.update_time env j)))
          :: matching_updates env inventory (S j) rest
      | None => matching_updates env inventory (S j) rest
      end
  end.

(** The calendar-day key of a sale and of an expense, and the records of
    a list that fall on the day [k]. *)
Definition sale_key (s : SaleRecord.t) : string :=
  FinancialReport.getDateKey (SaleRecord.timestamp s).

Definition expense_key (e : ExpenseRecord.t) : string :=
  FinancialReport.getDateKey (ExpenseRecord.date e).

Definition sales_of_day (k : string) (sales : list SaleRecord.t)
  : list SaleRecord.t :=
  List.filter (fun s => bool_decide (sale_key s = k)) sales.

Definition expenses_of_day (k : string) (expenses : list ExpenseRecord.t)
  : list ExpenseRecord.t :=
  List.filter (fun e => bool_decide (expense_key e = k)) expenses.

(** The invariant of the two [forEach] loops of [chartData]: after the
    sales [ss] and the expenses [es] have been processed, the map has one
    bucket per day met so far, filed under its own date, and each bucket
    holds the sums of the records of its day. *)
Definition bucket_ok (ss : list SaleRecord.t) (es : list ExpenseRecord.t)
  (kv : string * Bucket.t) : Prop :=
  Bucket.date kv.2 = kv.1
  /\ (Bucket.revenue kv.2 == Qsum SaleRecord.totalAmount (sales_of_day kv.1 ss))%Q
  /\ (Bucket.grossProfit kv.2
      == Qsum SaleRecord.totalProfit (sales_of_day kv.1 ss))%Q
  /\ (Bucket.expense kv.2
      == Qsum ExpenseRecord.amount (expenses_of_day kv.1 es))%Q.

Definition map_ok (m : JS.Map Bucket.t) (ss : list SaleRecord.t)
  (es : list ExpenseRecord.t) : Prop :=
  NoDup m.*1
  /\ Forall (bucket_ok ss es) m
  /\ (forall k, k ∈ (sale_key <$> ss) -> k ∈ m.*1)
  /\ (forall k, k ∈ (expense_key <$> es) -> k ∈ m.*1)
  /\ (Qsum Bucket.revenue m.*2 == Qsum SaleRecord.totalAmount ss)%Q
  /\ (Qsum Bucket.grossProfit m.*2 == Qsum SaleRecord.totalProfit ss)%Q
  /\ (Qsum Bucket.expense m.*2 == Qsum ExpenseRecord.amount es)%Q.





(** The shape of a cart built in the terminal: one line per product, each
    with a positive quantity. *)
Definition cart_ok (cart : list SaleItem.t) : Prop :=
  NoDup (SaleItem.itemId <$> cart)
  /\ forall line, line ∈ cart -> (0 < SaleItem.quantity line)%Q.

(** A cart that the stock covers: on top of [cart_ok], every line names a
    product of the inventory and asks for no more than its stock. *)
Definition cart_fits (inventory : list InventoryItem.t) (cart : list SaleItem.t)
  : Prop :=
  cart_ok cart
  /\ forall line, line ∈ cart ->
       exists k p,
         App.findIndex_id (SaleItem.itemId line) inventory = Some (k, p)
         /\ (SaleItem.quantity line <= InventoryItem.quantity p)%Q.

(** What the user can do in the terminal before checking out, while the
    inventory stays the same: type in the search box, pick a listed
    product, change the quantity, add to the cart, remove a line. *)
Inductive terminal_step (inventory : list InventoryItem.t)
  : SalesTerminal.State -> SalesTerminal.State -> Prop :=
| step_search (st : SalesTerminal.State) (term : string) :
    terminal_step inventory st
      (SalesTerminal.mkState (SalesTerminal.cart st) term
         (SalesTerminal.selectedProduct st) (SalesTerminal.qtyInput st)
         (SalesTerminal.successMsg st))
| step_select (st : SalesTerminal.State) (item : InventoryItem.t) :
    item ∈ inventory ->
    terminal_step inventory st (SalesTerminal.selectProduct st item)
| step_qty (st : SalesTerminal.State) (q : Q) :
    terminal_step inventory st (SalesTerminal.setQty st q)
| step_add (st : SalesTerminal.State) :
    terminal_step inventory st (fst (SalesTerminal.addToCart st))
| step_remove (st : SalesTerminal.State) (index : nat) :
    terminal_step inventory st (SalesTerminal.removeFromCart st index).

(** The terminal as it is mounted. *)
Definition terminal_init : SalesTerminal.State :=
  SalesTerminal.mkState [] EmptyString None 1 EmptyString.

(** [sale.items.reduce((sum, i) => sum + (i.discount || 0), 0)] *)
Definition sale_discount (s : SaleRecord.t) : Q :=
  reduce_sum FinancialReport.discount_or_0 (SaleRecord.items s).

(** More of what the loops of [chartData] keep: every bucket's net income
    is its gross profit minus its expense, the discounts add up, and no
    bucket exists for a day without a record. *)
Definition ledger_ok (m : JS.Map Bucket.t) (ss : list SaleRecord.t)
  (es : list ExpenseRecord.t) : Prop :=
  Forall (fun kv : string * Bucket.t =>
            (Bucket.netIncome kv.2
             == Bucket.grossProfit kv.2 - Bucket.expense kv.2)%Q) m
  /\ (Qsum Bucket.discount m.*2 == Qsum sale_discount ss)%Q
  /\ (forall k, k ∈ m.*1 ->
        k ∈ (sale_key <$> ss) \/ k ∈ (expense_key <$> es)).

(** The order of the code units on strings. *)
Definition string_le (a b : string) : Prop := String.compare a b <> Gt.

(** The expenses of a list that carry the category [c]. *)
Definition expenses_of_category (c : string) (l : list ExpenseRecord.t)
  : list ExpenseRecord.t :=
  List.filter (fun e => bool_decide (ExpenseRecord.category e = c)) l.

(** What the loop of [categoryData] keeps: distinct keys, the keys are the
    categories met so far, and each key holds the sum of its expenses. *)
Definition totals_ok (data : JS.Map Q) (l : list ExpenseRecord.t) : Prop :=
  NoDup data.*1
  /\ (forall k, k ∈ data.*1 <-> k ∈ (ExpenseRecord.category <$> l))
  /\ forall k,
       (default 0%Q (JS.Map_get k data)
        == Qsum ExpenseRecord.amount (expenses_of_category k l))%Q.

(** ** Sample data used by the concrete instances *)

Definition march_sale : SaleRecord.t :=
  SaleRecord.mk "s1" [] 200 50 "2024-03-01T09:00:00.000Z".

Definition march_rent : ExpenseRecord.t :=
  ExpenseRecord.mk "e1" "rent" 20 "Rent" "2024-03-01" "2024-03-01T10:00:00.000Z".

(** Sample data: a product with five units in stock and a cart holding
    three of them. *)
Definition soap : InventoryItem.t :=
  InventoryItem.mk "a" "Soap" "Care" 5 2 3 1 "2024-01-01T00:00:00.000Z".

Definition soap_line (q : Q) : SaleItem.t := SaleItem.mk "a" "Soap" q 3 2 None.

Definition terminal (cart : list SaleItem.t) (sel : option InventoryItem.t)
  (qty : Q) : SalesTerminal.State :=
  SalesTerminal.mkState cart EmptyString sel qty EmptyString.


(** A second stock record that carries the id of [soap]. *)
Definition soap_twin : InventoryItem.t :=
  InventoryItem.mk "a" "Soap (old)" "Care" 7 2 3 1 "2023-12-01T00:00:00.000Z".

Definition bread : InventoryItem.t :=
  InventoryItem.mk "b" "Bread" "Food" 4 1 2 1 "2024-01-01T00:00:00.000Z".

Definition bread_line (q : Q) : SaleItem.t := SaleItem.mk "b" "Bread" q 2 1 None.

Definition ok_resp : App.Response unit := App.Resolved None None.

Definition err_resp : App.Response unit := App.Resolved None (Some "permission denied").

Definition fetch_ok (inv : list InventoryItem.t) (sales : list SaleRecord.t)
  : App.FetchEnv :=
  App.mkFetchEnv (App.Resolved (Some inv) None) (App.Resolved (Some sales) None).

(** A sale environment: the insert answers [ins], the update issued for
    cart line [j] answers [upd j], the clock always reads the same instant. *)
Definition sale_env (ins : App.Response unit) (upd : nat -> App.Response unit)
  (server_inv : list InventoryItem.t) : App.SaleEnv :=
  App.mkSaleEnv "sale-1" "2024-03-01T09:00:00.000Z"
    (fun _ => "2024-03-01T09:00:00.001Z") (fun _ => "2024-03-01T09:00:00.002Z")
    ins upd (fetch_ok server_inv []).

Definition app_state (inv : list InventoryItem.t) : App.AppState :=
  App.mkState inv [] false.

Definition monday_sale : SaleRecord.t :=
  SaleRecord.mk "s1" [soap_line 2] 6 2 "2024-03-04T09:15:00.000Z".


Definition tuesday_sale : SaleRecord.t :=
  SaleRecord.mk "s3" [soap_line 1] 3 1 "2024-03-05T08:00:00.000Z".

Definition monday_rent : ExpenseRecord.t :=
  ExpenseRecord.mk "e1" "Shop rent" 4 "Rent" "2024-03-04" "2024-03-04T10:00:00.000Z".

(** An expense whose description holds a quoted word (character 34), a
    comma and a fraction of a cent. *)
Definition tuesday_bulbs : ExpenseRecord.t :=
  ExpenseRecord.mk "e2"
    (String "034" ("LED" ++ String "034" " bulbs, 4 pcs"))
    (12345 # 1000) "Supplies" "2024-03-05" "2024-03-05T11:30:00.000Z".

(** A reading of dates that is enough for the samples: the day of the
    month of a YYYY-MM-DD string. *)
Definition day_of_month (s : string) : Z :=
  default 0%Z (Number.parseInt (substring 8 2 s)).

Definition no_filter : ExpensesManager.Filters :=
  ExpensesManager.mkFilters EmptyString EmptyString EmptyString "All".

(** A write environment whose remote write is answered with an error. *)
Definition failing_write (server_inv : list InventoryItem.t) : App.WriteEnv :=
  App.mkWriteEnv "item-9" "2024-03-01T09:00:00.000Z" true err_resp
    (fetch_ok server_inv []).


(** The browser's day bounds in a time zone without offset, on the sample
    reading of dates: a day begins and ends at its own number. *)
Definition same_instant (t : Z) : Z := t.

Definition no_sales_filter : SalesHistory.Filters :=
  SalesHistory.mkFilters EmptyString EmptyString EmptyString.

Definition empty_sale : SaleRecord.t :=
  SaleRecord.mk "s0" [] 0 0 "2024-03-06T12:00:00.000Z".
(** * Proofs *)

(** ** Arithmetic on [Q] *)

Lemma Qleb_true (x y : Q) : Qleb x y = true <-> (x <= y)%Q.
Proof. unfold Qleb. apply Qle_bool_iff. Qed.

Lemma Qltb_true (x y : Q) : Qltb x y = true <-> (x < y)%Q.
Proof.
  unfold Qltb. rewrite negb_true_iff. split; intros H.
  - apply Qnot_le_lt. intros Hle. apply Qle_bool_iff in Hle. congruence.
  - destruct (Qle_bool y x) eqn:E; [|reflexivity].
    apply Qle_bool_iff in E. exfalso. apply (Qlt_not_le _ _ H E).
Qed.

Lemma Qltb_false (x y : Q) : Qltb x y = false <-> (y <= x)%Q.
Proof.
  unfold Qltb. rewrite negb_false_iff. apply Qle_bool_iff.
Qed.

Lemma Qgtb_true (x y : Q) : Qgtb x y = true <-> (y < x)%Q.
Proof. unfold Qgtb. apply Qltb_true. Qed.

Lemma Qgtb_false (x y : Q) : Qgtb x y = false <-> (x <= y)%Q.
Proof. unfold Qgtb. apply Qltb_false. Qed.

Lemma Qleb_false (x y : Q) : Qleb x y = false <-> (y < x)%Q.
Proof.
  split; intros H.
  - apply Qnot_le_lt. intros Hle. apply Qleb_true in Hle. congruence.
  - destruct (Qleb x y) eqn:E; [|reflexivity].
    apply Qleb_true in E. exfalso. apply (Qlt_not_le _ _ H E).
Qed.

Lemma fold_left_sum {A : Type} (f : A -> Q) (l : list A) (a : Q) :
  (fold_left (fun acc x => acc + f x) l a == a + Qsum f l)%Q.
Proof.
  revert a. induction l as [|x l IH]; intros a; simpl.
  - ring.
  - rewrite IH. ring.
Qed.

Lemma reduce_sum_Qsum {A : Type} (f : A -> Q) (l : list A) :
  (reduce_sum f l == Qsum f l)%Q.
Proof. unfold reduce_sum. rewrite fold_left_sum. ring. Qed.

Lemma Qsum_app {A : Type} (f : A -> Q) (l1 l2 : list A) :
  (Qsum f (l1 ++ l2) == Qsum f l1 + Qsum f l2)%Q.
Proof.
  induction l1 as [|x l1 IH]; simpl.
  - ring.
  - rewrite IH. ring.
Qed.

(** ** Sale completion: totals *)

Lemma sale_try_head (st : App.AppState) (env : App.SaleEnv) (items : list SaleItem.t) :
  exists rest, fst (App.sale_try st env items) = App.InsertSale (App.newSale_of env items) :: rest.
Proof.
  unfold App.sale_try. destruct (App.thrown (App.insert_resp env)).
  - eexists. reflexivity.
  - destruct (App.update_loop env (App.inventory st) 0 items) as [evs r].
    eexists. reflexivity.
Qed.

Lemma handleCompleteSale_head (st : App.AppState) (env : App.SaleEnv) (items : list SaleItem.t) :
  exists rest,
    snd (App.handleCompleteSale st env items)
    = App.InsertSale (App.newSale_of env items) :: rest.
Proof.
  destruct (sale_try_head st env items) as [rest Hrest].
  unfold App.handleCompleteSale.
  destruct (App.sale_try st env items) as [evs [e|]]; simpl in *; subst evs.
  - unfold App.recover.
    destruct (App.fetchData _ _) as [st2 fev]. simpl. eexists. reflexivity.
  - eexists. reflexivity.
Qed.

(** C1. For every cart, sale completion computes
    totalAmount = Σ quantity × priceAtSale and
    totalProfit = totalAmount − Σ quantity × costAtSale; both are fields of
    the created sale record, which is the record the handler inserts
    remotely and puts at the head of the local sales; for the empty cart
    both totals are 0. *)
Theorem C1_sale_totals (st : App.AppState) (env : App.SaleEnv)
  (items : list SaleItem.t) :
  let sale := App.newSale_of env items in
  (SaleRecord.totalAmount sale
   == Qsum (fun i => SaleItem.quantity i * SaleItem.priceAtSale i) items)%Q
  /\ (SaleRecord.totalProfit sale
      == SaleRecord.totalAmount sale
         - Qsum (fun i => SaleItem.quantity i * SaleItem.costAtSale i) items)%Q
  /\ SaleRecord.items sale = items
  /\ App.sales (App.optimistic_state st env items) = sale :: App.sales st
  /\ (exists rest,
        snd (App.handleCompleteSale st env items) = App.InsertSale sale :: rest)
  /\ (SaleRecord.totalAmount (App.newSale_of env []) == 0)%Q
  /\ (SaleRecord.totalProfit (App.newSale_of env []) == 0)%Q.
Proof.
  cbn zeta. repeat split.
  - simpl. unfold App.totalAmount_of. apply reduce_sum_Qsum.
  - simpl. unfold Qminus. apply Qplus_comp; [reflexivity|].
    apply Qopp_comp. unfold App.totalCost_of. apply reduce_sum_Qsum.
  - apply handleCompleteSale_head.
Qed.

(** ** Margins *)

Lemma percent_of_pos (x r : Q) :
  (0 < r)%Q -> FinancialReport.percent_of x r = Some (x / r * 100)%Q.
Proof.
  intros Hr. unfold FinancialReport.percent_of, Number.div.
  rewrite (proj2 (Qgtb_true r 0) Hr).
  destruct (Qeq_bool r 0) eqn:E; [|reflexivity].
  apply Qeq_bool_eq in E. rewrite E in Hr. exfalso. apply (Qlt_irrefl 0 Hr).
Qed.

Lemma percent_of_nonpos (x r : Q) :
  (r <= 0)%Q -> FinancialReport.percent_of x r = Some 0%Q.
Proof.
  intros Hr. unfold FinancialReport.percent_of.
  rewrite (proj2 (Qgtb_false r 0) Hr). reflexivity.
Qed.

Lemma percent_of_total (x r : Q) : FinancialReport.percent_of x r <> None.
Proof.
  destruct (Qlt_le_dec 0 r) as [H|H].
  - rewrite (percent_of_pos x r H). discriminate.
  - rewrite (percent_of_nonpos x r H). discriminate.
Qed.

(** C8. The three margin percentages are defined for every input: with a
    positive total revenue each is its numerator divided by the revenue,
    times 100; with a zero total revenue (the empty range for one) each is
    0; the division is never reached with a zero divisor, so no margin is
    ever the non-finite [None]. *)
Theorem C8_margins_guarded (filteredSales : list SaleRecord.t)
  (filteredExpenses : list ExpenseRecord.t) (inventory : list InventoryItem.t) :
  let m := FinancialReport.metrics filteredSales filteredExpenses inventory in
  ((0 < FinancialReport.totalRevenue m)%Q ->
     FinancialReport.grossMargin m
     = Some (FinancialReport.totalGrossProfit m / FinancialReport.totalRevenue m * 100)%Q
     /\ FinancialReport.netMargin m
        = Some (FinancialReport.netIncome m / FinancialReport.totalRevenue m * 100)%Q
     /\ FinancialReport.expenseRatio m
        = Some (FinancialReport.totalExpenses m / FinancialReport.totalRevenue m * 100)%Q)
  /\ ((FinancialReport.totalRevenue m == 0)%Q ->
        FinancialReport.grossMargin m = Some 0%Q
        /\ FinancialReport.netMargin m = Some 0%Q
        /\ FinancialReport.expenseRatio m = Some 0%Q)
  /\ (FinancialReport.grossMargin m <> None
      /\ FinancialReport.netMargin m <> None
      /\ FinancialReport.expenseRatio m <> None)
  /\ (let m0 := FinancialReport.metrics [] [] inventory in
      (FinancialReport.totalRevenue m0 == 0)%Q
      /\ FinancialReport.grossMargin m0 = Some 0%Q
      /\ FinancialReport.netMargin m0 = Some 0%Q
      /\ FinancialReport.expenseRatio m0 = Some 0%Q).
Proof.
  cbn zeta. split; [|split; [|split]].
  - intros Hpos. simpl in *. repeat split; apply percent_of_pos; exact Hpos.
  - intros Hz. simpl in *.
    assert (Hle : (reduce_sum SaleRecord.totalAmount filteredSales <= 0)%Q)
      by (rewrite Hz; apply Qle_refl).
    repeat split; apply percent_of_nonpos; exact Hle.
  - simpl. repeat split; apply percent_of_total.
  - simpl. repeat split; reflexivity.
Qed.

Lemma C8_margins_guarded_witness :
  let m := FinancialReport.metrics [march_sale] [march_rent] [] in
  (0 < FinancialReport.totalRevenue m)%Q
  /\ FinancialReport.grossMargin m = Some ((0 + 50) / (0 + 200) * 100)%Q
  /\ (FinancialReport.totalRevenue (FinancialReport.metrics [] [march_rent] []) == 0)%Q
  /\ FinancialReport.grossMargin (FinancialReport.metrics [] [march_rent] []) = Some 0%Q.
Proof.
  cbn zeta.
  assert (Hpos : (0 < FinancialReport.totalRevenue
                        (FinancialReport.metrics [march_sale] [march_rent] []))%Q)
    by reflexivity.
  assert (Hz : (FinancialReport.totalRevenue
                  (FinancialReport.metrics [] [march_rent] []) == 0)%Q)
    by reflexivity.
  split; [exact Hpos|].
  split; [exact (proj1 (proj1 (C8_margins_guarded [march_sale] [march_rent] []) Hpos))|].
  split; [exact Hz|].
  exact (proj1 (proj1 (proj2 (C8_margins_guarded [] [march_rent] [])) Hz)).
Defined.

(** ** The cart *)

Lemma findIndex_itemId_Some (id : string) (cart : list SaleItem.t) (i : nat)
  (line : SaleItem.t) :
  SalesTerminal.findIndex_itemId id cart = Some (i, line) ->
  cart !! i = Some line /\ SaleItem.itemId line = id.
Proof.
  unfold SalesTerminal.findIndex_itemId. intros H.
  apply list_find_Some in H. destruct H as (H1 & H2 & _). auto.
Qed.

(** C9. Every rejection path of [addToCart] (no product selected, entered
    quantity at most 0, entered quantity above the stock, merged total above
    the stock) returns the terminal state it was given, the cart included,
    and [handleCheckout] on an empty cart reports no sale and returns the
    state it was given. *)
Theorem C9_rejections_leave_state (st : SalesTerminal.State) :
  (SalesTerminal.selectedProduct st = None ->
     SalesTerminal.addToCart st = (st, []))
  /\ (forall p, SalesTerminal.selectedProduct st = Some p ->
        (SalesTerminal.qtyInput st <= 0)%Q ->
        fst (SalesTerminal.addToCart st) = st
        /\ snd (SalesTerminal.addToCart st)
           = [SalesTerminal.Alert SalesTerminal.QuantityMustBePositive])
  /\ (forall p, SalesTerminal.selectedProduct st = Some p ->
        (InventoryItem.quantity p < SalesTerminal.qtyInput st)%Q ->
        fst (SalesTerminal.addToCart st) = st
        /\ forall items,
             SalesTerminal.OnCompleteSale items ∉ snd (SalesTerminal.addToCart st))
  /\ (forall p i line, SalesTerminal.selectedProduct st = Some p ->
        SalesTerminal.findIndex_itemId (InventoryItem.id p) (SalesTerminal.cart st)
        = Some (i, line) ->
        (InventoryItem.quantity p
         < SaleItem.quantity line + SalesTerminal.qtyInput st)%Q ->
        fst (SalesTerminal.addToCart st) = st
        /\ forall items,
             SalesTerminal.OnCompleteSale items ∉ snd (SalesTerminal.addToCart st))
  /\ (SalesTerminal.cart st = [] -> SalesTerminal.handleCheckout st = (st, [])).
Proof.
  split; [|split; [|split; [|split]]].
  - intros Hsel. unfold SalesTerminal.addToCart. rewrite Hsel. reflexivity.
  - intros p Hsel Hq. unfold SalesTerminal.addToCart. rewrite Hsel.
    rewrite (proj2 (Qleb_true _ _) Hq). split; reflexivity.
  - intros p Hsel Hq. unfold SalesTerminal.addToCart. rewrite Hsel.
    destruct (Qleb (SalesTerminal.qtyInput st) 0).
    + split; [reflexivity|]. intros items Hin. simpl in Hin.
      apply list_elem_of_singleton in Hin. discriminate.
    + rewrite (proj2 (Qgtb_true _ _) Hq).
      split; [reflexivity|]. intros items Hin. simpl in Hin.
      apply list_elem_of_singleton in Hin. discriminate.
  - intros p i line Hsel Hfind Hq. unfold SalesTerminal.addToCart. rewrite Hsel.
    destruct (Qleb (SalesTerminal.qtyInput st) 0).
    { split; [reflexivity|]. intros items Hin. simpl in Hin.
      apply list_elem_of_singleton in Hin. discriminate. }
    destruct (Qgtb (SalesTerminal.qtyInput st) (InventoryItem.quantity p)).
    { split; [reflexivity|]. intros items Hin. simpl in Hin.
      apply list_elem_of_singleton in Hin. discriminate. }
    rewrite Hfind. rewrite (proj2 (Qgtb_true _ _) Hq).
    split; [reflexivity|]. intros items Hin. simpl in Hin.
    apply list_elem_of_singleton in Hin. discriminate.
  - intros Hc. unfold SalesTerminal.handleCheckout. rewrite Hc. reflexivity.
Qed.

(** Closed comparisons of rationals. *)
Ltac q_decide :=
  vm_compute; first [reflexivity | discriminate | (intro; discriminate)].

Lemma C9_rejections_leave_state_witness :
  SalesTerminal.addToCart (terminal [soap_line 3] None 1)
  = (terminal [soap_line 3] None 1, [])
  /\ fst (SalesTerminal.addToCart (terminal [soap_line 3] (Some soap) 0))
     = terminal [soap_line 3] (Some soap) 0
  /\ fst (SalesTerminal.addToCart (terminal [soap_line 3] (Some soap) 6))
     = terminal [soap_line 3] (Some soap) 6
  /\ fst (SalesTerminal.addToCart (terminal [soap_line 3] (Some soap) 4))
     = terminal [soap_line 3] (Some soap) 4
  /\ SalesTerminal.handleCheckout (terminal [] (Some soap) 1)
     = (terminal [] (Some soap) 1, []).
Proof.
  split; [|split; [|split; [|split]]].
  - apply (C9_rejections_leave_state (terminal [soap_line 3] None 1)).
    reflexivity.
  - destruct (C9_rejections_leave_state (terminal [soap_line 3] (Some soap) 0))
      as (_ & H & _).
    apply (H soap); [reflexivity|q_decide].
  - destruct (C9_rejections_leave_state (terminal [soap_line 3] (Some soap) 6))
      as (_ & _ & H & _).
    apply (H soap); [reflexivity|q_decide].
  - destruct (C9_rejections_leave_state (terminal [soap_line 3] (Some soap) 4))
      as (_ & _ & _ & H & _).
    apply (H soap 0%nat (soap_line 3)); [reflexivity|reflexivity|q_decide].
  - apply (C9_rejections_leave_state (terminal [] (Some soap) 1)). reflexivity.
Defined.

Lemma addToCart_reject_guards (st : SalesTerminal.State) (p : InventoryItem.t) :
  SalesTerminal.selectedProduct st = Some p ->
  (SalesTerminal.qtyInput st <= 0)%Q
  \/ (InventoryItem.quantity p < SalesTerminal.qtyInput st)%Q ->
  fst (SalesTerminal.addToCart st) = st.
Proof.
  intros Hsel Hq. unfold SalesTerminal.addToCart. rewrite Hsel.
  destruct (Qleb (SalesTerminal.qtyInput st) 0) eqn:E; [reflexivity|].
  destruct Hq as [Hq|Hq].
  - apply Qleb_true in Hq. congruence.
  - rewrite (proj2 (Qgtb_true _ _) Hq). reflexivity.
Qed.

Lemma addToCart_reject_merge (st : SalesTerminal.State) (p : InventoryItem.t)
  (i : nat) (line : SaleItem.t) :
  SalesTerminal.selectedProduct st = Some p ->
  SalesTerminal.findIndex_itemId (InventoryItem.id p) (SalesTerminal.cart st)
  = Some (i, line) ->
  (InventoryItem.quantity p < SaleItem.quantity line + SalesTerminal.qtyInput st)%Q ->
  fst (SalesTerminal.addToCart st) = st.
Proof.
  intros Hsel Hfind Hq. unfold SalesTerminal.addToCart. rewrite Hsel.
  destruct (Qleb (SalesTerminal.qtyInput st) 0); [reflexivity|].
  destruct (Qgtb (SalesTerminal.qtyInput st) (InventoryItem.quantity p));
    [reflexivity|].
  rewrite Hfind, (proj2 (Qgtb_true _ _) Hq). reflexivity.
Qed.

(** The claim C2 read for every entered quantity fails: with three units in
    the cart, five in stock and an entered quantity of -1 the merged total
    (two) does not exceed the stock, and yet nothing is merged: the guard
    on the entered quantity rejects first and the line keeps its three
    units. *)
Lemma C2_counterexample :
  let st := terminal [soap_line 3] (Some soap) (-1) in
  SalesTerminal.selectedProduct st = Some soap
  /\ SalesTerminal.findIndex_itemId (InventoryItem.id soap) (SalesTerminal.cart st)
     = Some (0%nat, soap_line 3)
  /\ ~ (InventoryItem.quantity soap
        < SaleItem.quantity (soap_line 3) + SalesTerminal.qtyInput st)%Q
  /\ SalesTerminal.cart (fst (SalesTerminal.addToCart st)) = [soap_line 3]
  /\ SalesTerminal.cart (fst (SalesTerminal.addToCart st))
     <> [SalesTerminal.add_quantity (soap_line 3) (SalesTerminal.qtyInput st)].
Proof.
  cbn zeta. split; [reflexivity|]. split; [reflexivity|].
  split; [q_decide|]. split; [reflexivity|].
  vm_compute. discriminate.
Qed.

(** C2 (amended). For every cart and every selected product already in the
    cart: when the entered quantity is positive and at most the stock and
    the quantity of the existing line plus the entered quantity does not
    exceed the product's stock, the new cart is the old one with the
    entered quantity added to that line: same length, same product on
    every line, every other line untouched.  Whenever the merged total
    exceeds the stock, and also when the entered quantity is at most 0 or
    above the stock, [addToCart] returns the state it was given, so the
    line keeps its old quantity. *)
Theorem C2_merge_into_existing_line (st : SalesTerminal.State)
  (p : InventoryItem.t) (i : nat) (line : SaleItem.t) :
  SalesTerminal.selectedProduct st = Some p ->
  SalesTerminal.findIndex_itemId (InventoryItem.id p) (SalesTerminal.cart st)
  = Some (i, line) ->
  ((InventoryItem.quantity p
    < SaleItem.quantity line + SalesTerminal.qtyInput st)%Q ->
   fst (SalesTerminal.addToCart st) = st)
  /\ ((SalesTerminal.qtyInput st <= 0)%Q
      \/ (InventoryItem.quantity p < SalesTerminal.qtyInput st)%Q ->
      fst (SalesTerminal.addToCart st) = st)
  /\ ((0 < SalesTerminal.qtyInput st)%Q ->
      (SalesTerminal.qtyInput st <= InventoryItem.quantity p)%Q ->
      (SaleItem.quantity line + SalesTerminal.qtyInput st
       <= InventoryItem.quantity p)%Q ->
      let cart' := SalesTerminal.cart (fst (SalesTerminal.addToCart st)) in
      cart' = <[i := SalesTerminal.add_quantity line (SalesTerminal.qtyInput st)]>
                (SalesTerminal.cart st)
      /\ cart' !! i
         = Some (SaleItem.mk (SaleItem.itemId line) (SaleItem.name line)
                   (SaleItem.quantity line + SalesTerminal.qtyInput st)%Q
                   (SaleItem.priceAtSale line) (SaleItem.costAtSale line)
                   (SaleItem.discount line))
      /\ (forall j, j <> i -> cart' !! j = SalesTerminal.cart st !! j)
      /\ length cart' = length (SalesTerminal.cart st)
      /\ SaleItem.itemId <$> cart' = SaleItem.itemId <$> SalesTerminal.cart st
      /\ snd (SalesTerminal.addToCart st) = []).
Proof.
  intros Hsel Hfind. split; [|split].
  - intros Hq.
    exact (addToCart_reject_merge st p i line Hsel Hfind Hq).
  - exact (addToCart_reject_guards st p Hsel).
  - intros Hpos Hle Hsum. cbn zeta.
    destruct (findIndex_itemId_Some _ _ _ _ Hfind) as [Hi Hid].
    assert (Hadd : SalesTerminal.addToCart st
                   = (SalesTerminal.with_cart_and_reset st
                        (<[i := SalesTerminal.add_quantity line (SalesTerminal.qtyInput st)]>
                           (SalesTerminal.cart st)), [])).
    { unfold SalesTerminal.addToCart. rewrite Hsel.
      rewrite (proj2 (Qleb_false _ _) Hpos).
      rewrite (proj2 (Qgtb_false _ _) Hle).
      rewrite Hfind.
      rewrite (proj2 (Qgtb_false _ _) Hsum). reflexivity. }
    rewrite Hadd. simpl.
    assert (Hlt : (i < length (SalesTerminal.cart st))%nat)
      by (eapply lookup_lt_Some; exact Hi).
    split; [reflexivity|]. split.
    { rewrite list_lookup_insert_eq by exact Hlt. reflexivity. }
    split.
    { intros j Hj. apply list_lookup_insert_ne. congruence. }
    split.
    { apply length_insert. }
    split; [|reflexivity].
    rewrite list_fmap_insert. simpl.
    apply list_insert_id. rewrite list_lookup_fmap, Hi. reflexivity.
Qed.

Lemma C2_merge_into_existing_line_witness :
  fst (SalesTerminal.addToCart (terminal [soap_line 3] (Some soap) 4))
  = terminal [soap_line 3] (Some soap) 4
  /\ fst (SalesTerminal.addToCart (terminal [soap_line 3] (Some soap) (-1)))
     = terminal [soap_line 3] (Some soap) (-1)
  /\ SalesTerminal.cart (fst (SalesTerminal.addToCart (terminal [soap_line 3] (Some soap) 2)))
     = [SalesTerminal.add_quantity (soap_line 3) 2].
Proof.
  split; [|split].
  - destruct (C2_merge_into_existing_line (terminal [soap_line 3] (Some soap) 4)
                soap 0%nat (soap_line 3) eq_refl eq_refl) as (H & _ & _).
    apply H. q_decide.
  - destruct (C2_merge_into_existing_line (terminal [soap_line 3] (Some soap) (-1))
                soap 0%nat (soap_line 3) eq_refl eq_refl) as (_ & H & _).
    apply H. left. q_decide.
  - destruct (C2_merge_into_existing_line (terminal [soap_line 3] (Some soap) 2)
                soap 0%nat (soap_line 3) eq_refl eq_refl) as (_ & _ & H).
    apply H; q_decide.
Defined.

(** ** Sale completion: the optimistic inventory *)

Lemma findIndex_id_Some (key : string) (l : list InventoryItem.t) (k : nat)
  (p : InventoryItem.t) :
  App.findIndex_id key l = Some (k, p) <->
  l !! k = Some p /\ InventoryItem.id p = key
  /\ forall j, (j < k)%nat -> (InventoryItem.id <$> l) !! j <> Some key.
Proof.
  unfold App.findIndex_id. rewrite list_find_Some. split.
  - intros (H1 & H2 & H3). split; [exact H1|]. split; [exact H2|].
    intros j Hj Hl. rewrite list_lookup_fmap in Hl.
    destruct (l !! j) as [y|] eqn:Ey; simpl in Hl; [|discriminate].
    injection Hl as Hl. exact (H3 j y Ey Hj Hl).
  - intros (H1 & H2 & H3). split; [exact H1|]. split; [exact H2|].
    intros j y Ey Hj Hy. apply (H3 j Hj).
    rewrite list_lookup_fmap, Ey. simpl. congruence.
Qed.

(** Whether a key resolves to [k] depends on the ids only. *)
Lemma findIndex_id_index (key : string) (l : list InventoryItem.t) (k : nat) :
  fst <$> App.findIndex_id key l = Some k <->
  (InventoryItem.id <$> l) !! k = Some key
  /\ forall j, (j < k)%nat -> (InventoryItem.id <$> l) !! j <> Some key.
Proof.
  split.
  - intros H. destruct (App.findIndex_id key l) as [[k' p]|] eqn:E;
      simpl in H; [|discriminate].
    injection H as ->. apply findIndex_id_Some in E as (H1 & H2 & H3).
    split; [|exact H3]. rewrite list_lookup_fmap, H1. simpl. congruence.
  - intros [H1 H3]. rewrite list_lookup_fmap in H1.
    destruct (l !! k) as [p|] eqn:Ep; simpl in H1; [|discriminate].
    injection H1 as H1.
    assert (E : App.findIndex_id key l = Some (k, p))
      by (apply findIndex_id_Some; auto).
    rewrite E. reflexivity.
Qed.

Lemma resolves_to_ids (l l' : list InventoryItem.t) (line : SaleItem.t) (k : nat) :
  InventoryItem.id <$> l = InventoryItem.id <$> l' ->
  resolves_to l line k = resolves_to l' line k.
Proof.
  intros Hids. unfold resolves_to. apply bool_decide_ext.
  rewrite !findIndex_id_index, Hids. reflexivity.
Qed.

Lemma resolves_to_true (l : list InventoryItem.t) (line : SaleItem.t) (k : nat) :
  resolves_to l line k = true <->
  exists p, App.findIndex_id (SaleItem.itemId line) l = Some (k, p).
Proof.
  unfold resolves_to. rewrite bool_decide_eq_true. split.
  - intros H. destruct (App.findIndex_id _ l) as [[k' p]|]; simpl in H;
      [|discriminate].
    injection H as ->. eauto.
  - intros [p ->]. reflexivity.
Qed.


Lemma decrement_ids (env : App.SaleEnv) (j : nat) (line : SaleItem.t)
  (inv : list InventoryItem.t) :
  InventoryItem.id <$> App.decrement env j line inv = InventoryItem.id <$> inv.
Proof.
  unfold App.decrement.
  destruct (App.findIndex_id (SaleItem.itemId line) inv) as [[i p]|] eqn:E;
    [|reflexivity].
  apply findIndex_id_Some in E as (Hi & _ & _).
  rewrite list_fmap_insert. simpl. apply list_insert_id.
  rewrite list_lookup_fmap, Hi. reflexivity.
Qed.

(** What one turn of the loop does at position [k]. *)
Lemma decrement_at (env : App.SaleEnv) (j : nat) (line : SaleItem.t)
  (inv : list InventoryItem.t) (k : nat) (p : InventoryItem.t) :
  inv !! k = Some p ->
  App.decrement env j line inv !! k
  = Some (if resolves_to inv line k
          then InventoryItem.mk (InventoryItem.id p) (InventoryItem.name p)
                 (InventoryItem.category p)
                 (InventoryItem.quantity p - SaleItem.quantity line)%Q
                 (InventoryItem.costPrice p) (InventoryItem.salesPrice p)
                 (InventoryItem.lowStockThreshold p) (App.optimistic_time env j)
          else p).
Proof.
  intros Hk. unfold App.decrement.
  destruct (resolves_to inv line k) eqn:R.
  - apply resolves_to_true in R as [q E]. rewrite E.
    apply findIndex_id_Some in E as (Hi & _ & _).
    assert (q = p) by congruence. subst q.
    apply list_lookup_insert_eq. eapply lookup_lt_Some; exact Hk.
  - destruct (App.findIndex_id (SaleItem.itemId line) inv) as [[i q]|] eqn:E;
      [|exact Hk].
    assert (Hne : i <> k).
    { intros ->. assert (resolves_to inv line k = true)
        by (apply resolves_to_true; eauto). congruence. }
    rewrite list_lookup_insert_ne by exact Hne. exact Hk.
Qed.

Lemma forEach_decrement_ids (env : App.SaleEnv) (items : list SaleItem.t) :
  forall (j : nat) (inv : list InventoryItem.t),
    InventoryItem.id <$> App.forEach_decrement env j items inv
    = InventoryItem.id <$> inv.
Proof.
  induction items as [|line rest IH]; intros j inv; simpl.
  - reflexivity.
  - rewrite IH. apply decrement_ids.
Qed.

Lemma classic_exists_resolving (inv0 : list InventoryItem.t) (k : nat)
  (items : list SaleItem.t) :
  (exists line, line ∈ items /\ resolves_to inv0 line k = true)
  \/ (forall line, line ∈ items -> resolves_to inv0 line k = false).
Proof.
  induction items as [|x r IH].
  - right. intros line Hin. apply elem_of_nil in Hin. destruct Hin.
  - destruct (resolves_to inv0 x k) eqn:E.
    + left. exists x. split; [apply list_elem_of_here|exact E].
    + destruct IH as [(line & Hin & Hres)|Hno].
      * left. exists line. split; [apply list_elem_of_further; exact Hin|exact Hres].
      * right. intros line Hin. apply elem_of_cons in Hin as [->|Hin]; auto.
Qed.


Lemma forEach_decrement_at (env : App.SaleEnv) (inv0 : list InventoryItem.t)
  (k : nat) (items : list SaleItem.t) :
  forall (j : nat) (inv : list InventoryItem.t) (p : InventoryItem.t),
    InventoryItem.id <$> inv = InventoryItem.id <$> inv0 ->
    inv !! k = Some p ->
    exists p',
      App.forEach_decrement env j items inv !! k = Some p'
      /\ InventoryItem.id p' = InventoryItem.id p
      /\ InventoryItem.name p' = InventoryItem.name p
      /\ InventoryItem.category p' = InventoryItem.category p
      /\ InventoryItem.costPrice p' = InventoryItem.costPrice p
      /\ InventoryItem.salesPrice p' = InventoryItem.salesPrice p
      /\ InventoryItem.lowStockThreshold p' = InventoryItem.lowStockThreshold p
      /\ (InventoryItem.quantity p'
          == InventoryItem.quantity p - sold_at inv0 k items)%Q
      /\ ((forall line, line ∈ items -> resolves_to inv0 line k = false) -> p' = p)
      /\ ((exists line, line ∈ items /\ resolves_to inv0 line k = true) ->
          exists n line,
            items !! n = Some line /\ resolves_to inv0 line k = true
            /\ InventoryItem.lastUpdated p' = App.optimistic_time env (j + n)).
Proof.
  induction items as [|line rest IH]; intros j inv p Hids Hk.
  - exists p. simpl. split; [exact Hk|]. repeat (split; [reflexivity|]).
    split; [unfold sold_at; simpl; ring|]. split; [reflexivity|].
    intros (line & Hin & _). apply elem_of_nil in Hin. destruct Hin.
  - simpl App.forEach_decrement.
    pose proof (decrement_at env j line inv k p Hk) as Hstep.
    rewrite (resolves_to_ids inv inv0 line k Hids) in Hstep.
    assert (Hids1 : InventoryItem.id <$> App.decrement env j line inv
                    = InventoryItem.id <$> inv0)
      by (rewrite decrement_ids; exact Hids).
    destruct (IH (S j) _ _ Hids1 Hstep)
      as (p' & Hp' & Hid & Hname & Hcat & Hcost & Hprice & Hlow & Hq & Hnone & Hsome).
    exists p'. split; [exact Hp'|].
    unfold sold_at in *. simpl List.filter.
    destruct (resolves_to inv0 line k) eqn:Eres; simpl in *.
    + do 6 (split; [assumption|]).
      split; [rewrite Hq; ring|].
      split.
      { intros Hall. specialize (Hall line (list_elem_of_here _ _)). congruence. }
      intros _.
      destruct (classic_exists_resolving inv0 k rest) as [Hex|Hno].
      * destruct (Hsome Hex) as (n & line' & Hn & Hres & Hlast).
        exists (S n), line'. split; [exact Hn|]. split; [exact Hres|].
        rewrite Hlast. f_equal. lia.
      * exists 0%nat, line. split; [reflexivity|]. split; [exact Eres|].
        rewrite (Hnone Hno). simpl. f_equal. lia.
    + do 6 (split; [assumption|]).
      split; [exact Hq|].
      split.
      { intros Hall. apply Hnone. intros l' Hl'. apply Hall.
        apply list_elem_of_further. exact Hl'. }
      intros (l' & Hin & Hres).
      apply elem_of_cons in Hin as [->|Hin]; [congruence|].
      destruct (Hsome (ex_intro _ l' (conj Hin Hres))) as (n & line' & Hn & Hres' & Hlast).
      exists (S n), line'. split; [exact Hn|]. split; [exact Hres'|].
      rewrite Hlast. f_equal. lia.
Qed.




(** ** Non-negative stock *)

(** [addToCart] keeps at most one line per product. *)
Lemma addToCart_single_line (st : SalesTerminal.State) :
  NoDup (SaleItem.itemId <$> SalesTerminal.cart st) ->
  NoDup (SaleItem.itemId <$> SalesTerminal.cart (fst (SalesTerminal.addToCart st))).
Proof.
  intros Hnd. unfold SalesTerminal.addToCart.
  destruct (SalesTerminal.selectedProduct st) as [p|]; [|exact Hnd].
  destruct (Qleb (SalesTerminal.qtyInput st) 0); [exact Hnd|].
  destruct (Qgtb (SalesTerminal.qtyInput st) (InventoryItem.quantity p));
    [exact Hnd|].
  destruct (SalesTerminal.findIndex_itemId (InventoryItem.id p) (SalesTerminal.cart st))
    as [[i line]|] eqn:E.
  - destruct (Qgtb (SaleItem.quantity line + SalesTerminal.qtyInput st)
                (InventoryItem.quantity p)); [exact Hnd|].
    simpl. apply findIndex_itemId_Some in E as [Hi _].
    rewrite list_fmap_insert. simpl.
    rewrite list_insert_id by (rewrite list_lookup_fmap, Hi; reflexivity).
    exact Hnd.
  - simpl. rewrite fmap_app. apply NoDup_app. split; [exact Hnd|]. split.
    + intros x Hx Hx'. simpl in Hx'. apply list_elem_of_singleton in Hx'. subst x.
      unfold SalesTerminal.findIndex_itemId in E.
      apply list_find_None in E.
      apply list_elem_of_fmap in Hx as (l & Hl & Hin).
      exact (proj1 (Forall_forall _ _) E l Hin (eq_sym Hl)).
    + apply NoDup_singleton.
Qed.

(** With one line per product, at most one cart line resolves to a given
    position. *)
Lemma resolving_lines_unique (inv : list InventoryItem.t) (k : nat)
  (items : list SaleItem.t) :
  NoDup (SaleItem.itemId <$> items) ->
  List.filter (fun line => resolves_to inv line k) items = []
  \/ exists line,
       List.filter (fun line => resolves_to inv line k) items = [line]
       /\ line ∈ items /\ resolves_to inv line k = true.
Proof.
  induction items as [|x r IH]; intros Hnd; [left; reflexivity|].
  rewrite fmap_cons in Hnd. apply NoDup_cons in Hnd as [Hx Hr].
  simpl. destruct (resolves_to inv x k) eqn:Ex.
  - right. exists x. split; [|split; [apply list_elem_of_here|exact Ex]].
    f_equal. destruct (IH Hr) as [Hnil|(y & _ & Hy & Ey)]; [exact Hnil|].
    exfalso. apply Hx.
    unfold resolves_to in Ex, Ey.
    apply bool_decide_eq_true in Ex. apply bool_decide_eq_true in Ey.
    apply findIndex_id_index in Ex as [Hkx _].
    apply findIndex_id_index in Ey as [Hky _].
    assert (Heq : SaleItem.itemId x = SaleItem.itemId y) by congruence.
    rewrite Heq. apply list_elem_of_fmap. exists y. split; [reflexivity|exact Hy].
  - destruct (IH Hr) as [Hnil|(y & Hf & Hy & Ey)]; [left; exact Hnil|].
    right. exists y. split; [exact Hf|].
    split; [apply list_elem_of_further; exact Hy|exact Ey].
Qed.

Lemma optimistic_nonneg (st : App.AppState) (env : App.SaleEnv)
  (items : list SaleItem.t) :
  (forall p, p ∈ App.inventory st -> (0 <= InventoryItem.quantity p)%Q) ->
  NoDup (SaleItem.itemId <$> items) ->
  (forall line k p,
     line ∈ items ->
     App.findIndex_id (SaleItem.itemId line) (App.inventory st) = Some (k, p) ->
     (SaleItem.quantity line <= InventoryItem.quantity p)%Q) ->
  forall p', p' ∈ App.inventory (App.optimistic_state st env items) ->
             (0 <= InventoryItem.quantity p')%Q.
Proof.
  intros Hnonneg Hnd Hbound p' Hin.
  apply list_elem_of_lookup in Hin as [k Hk]. simpl in Hk.
  destruct (App.inventory st !! k) as [p|] eqn:Ep.
  - destruct (forEach_decrement_at env (App.inventory st) k items 0
                (App.inventory st) p eq_refl Ep)
      as (q & Hq & _ & _ & _ & _ & _ & _ & Hqty & _).
    assert (q = p') by congruence. subst q.
    assert (Hp : (0 <= InventoryItem.quantity p)%Q)
      by (apply Hnonneg; eapply list_elem_of_lookup_2; exact Ep).
    unfold sold_at in Hqty.
    destruct (resolving_lines_unique (App.inventory st) k items Hnd)
      as [Hnil|(line & Hf & Hline & Hres)].
    + rewrite Hnil in Hqty. simpl in Hqty. rewrite Hqty. lra.
    + rewrite Hf in Hqty. simpl in Hqty.
      apply resolves_to_true in Hres as [p0 Hfind].
      pose proof (Hbound line k p0 Hline Hfind) as Hle.
      apply findIndex_id_Some in Hfind as (Hk0 & _ & _).
      assert (p0 = p) by congruence. subst p0.
      rewrite Hqty. lra.
  - exfalso. apply lookup_ge_None in Ep.
    apply lookup_lt_Some in Hk.
    rewrite <- (length_fmap InventoryItem.id), forEach_decrement_ids,
      length_fmap in Hk. lia.
Qed.





(** ** Sale completion: the remote calls *)

Lemma thrown_None_rejected {A : Type} (r : App.Response A) :
  App.thrown r = None -> App.rejected r = None.
Proof. destruct r as [d [e|]|e]; simpl; congruence. Qed.

Lemma update_loop_spec (env : App.SaleEnv) (inv : list InventoryItem.t)
  (items : list SaleItem.t) :
  forall j : nat,
    let '(evs, r) := App.update_loop env inv j items in
    evs `prefix_of` matching_updates env inv j items
    /\ ((forall n, App.rejected (App.update_resp env n) = None) ->
        evs = matching_updates env inv j items /\ r = None).
Proof.
  induction items as [|line rest IH]; intros j; simpl.
  - split; [reflexivity|]. auto.
  - destruct (App.findIndex_id (SaleItem.itemId line) inv) as [[i cur]|].
    + destruct (App.rejected (App.update_resp env j)) as [e|] eqn:Erej.
      * split.
        { apply prefix_cons. apply prefix_nil. }
        intros Hall. rewrite Hall in Erej. discriminate.
      * specialize (IH (S j)).
        destruct (App.update_loop env inv (S j) rest) as [evs r].
        destruct IH as [Hpre Hfull]. split.
        { apply prefix_cons. exact Hpre. }
        intros Hall. destruct (Hfull Hall) as [-> ->]. auto.
    + apply IH.
Qed.

Lemma matching_updates_are_updates (env : App.SaleEnv)
  (inv : list InventoryItem.t) (items : list SaleItem.t) :
  forall j, Forall (fun e => is_update e = true) (matching_updates env inv j items).
Proof.
  induction items as [|line rest IH]; intros j; simpl; [constructor|].
  destruct (App.findIndex_id (SaleItem.itemId line) inv) as [[i cur]|].
  - constructor; [reflexivity|apply IH].
  - apply IH.
Qed.

Lemma matching_updates_length (env : App.SaleEnv) (inv : list InventoryItem.t)
  (items : list SaleItem.t) :
  forall j,
    length (matching_updates env inv j items)
    = length (List.filter
                (fun line =>
                   bool_decide (is_Some (App.findIndex_id (SaleItem.itemId line) inv)))
                items).
Proof.
  induction items as [|line rest IH]; intros j; simpl; [reflexivity|].
  destruct (App.findIndex_id (SaleItem.itemId line) inv) as [[i cur]|].
  - rewrite bool_decide_eq_true_2 by eauto. simpl. f_equal. apply IH.
  - rewrite bool_decide_eq_false_2 by (intros [? ?]; discriminate). apply IH.
Qed.

Lemma filter_write_updates (l : list App.Event) :
  Forall (fun e => is_update e = true) l -> List.filter is_write l = l.
Proof.
  induction 1 as [|e l He _ IH]; simpl; [reflexivity|].
  destruct e; try discriminate. simpl. f_equal. exact IH.
Qed.

Lemma filter_write_fetchData (st : App.AppState) (env : App.FetchEnv) :
  List.filter is_write (snd (App.fetchData st env)) = [].
Proof.
  unfold App.fetchData.
  destruct (App.thrown (App.inv_resp env)); [reflexivity|].
  destruct (App.thrown (App.sales_resp env)); reflexivity.
Qed.

Lemma filter_write_recover (st : App.AppState) (label msg : string)
  (env : App.FetchEnv) :
  List.filter is_write (snd (App.recover st label msg env)) = [].
Proof.
  unfold App.recover. pose proof (filter_write_fetchData st env) as H.
  destruct (App.fetchData st env) as [st' evs]. simpl in *. exact H.
Qed.

Lemma sale_try_writes (st : App.AppState) (env : App.SaleEnv)
  (items : list SaleItem.t) :
  exists ups,
    fst (App.sale_try st env items) = App.InsertSale (App.newSale_of env items) :: ups
    /\ ups `prefix_of` matching_updates env (App.inventory st) 0 items
    /\ (App.thrown (App.insert_resp env) = None ->
        (forall n, App.rejected (App.update_resp env n) = None) ->
        ups = matching_updates env (App.inventory st) 0 items
        /\ snd (App.sale_try st env items) = None)
    /\ (App.thrown (App.insert_resp env) <> None -> ups = []).
Proof.
  unfold App.sale_try.
  destruct (App.thrown (App.insert_resp env)) as [e|].
  - exists []. split; [reflexivity|]. split; [apply prefix_nil|].
    split; [discriminate|reflexivity].
  - pose proof (update_loop_spec env (App.inventory st) items 0) as H.
    destruct (App.update_loop env (App.inventory st) 0 items) as [evs r].
    destruct H as [Hpre Hfull]. exists evs.
    split; [reflexivity|]. split; [exact Hpre|].
    split; [|congruence].
    intros _ Hall. destruct (Hfull Hall) as [-> ->]. auto.
Qed.

Lemma prefix_updates (l1 l2 : list App.Event) :
  l1 `prefix_of` l2 -> Forall (fun e => is_update e = true) l2 ->
  Forall (fun e => is_update e = true) l1.
Proof.
  intros [k ->] H. apply Forall_app in H. tauto.
Qed.

Lemma handleCompleteSale_writes (st : App.AppState) (env : App.SaleEnv)
  (items : list SaleItem.t) :
  exists ups,
    List.filter is_write (snd (App.handleCompleteSale st env items))
    = App.InsertSale (App.newSale_of env items) :: ups
    /\ ups `prefix_of` matching_updates env (App.inventory st) 0 items
    /\ (App.thrown (App.insert_resp env) = None ->
        (forall n, App.rejected (App.update_resp env n) = None) ->
        ups = matching_updates env (App.inventory st) 0 items)
    /\ (App.thrown (App.insert_resp env) <> None -> ups = []).
Proof.
  destruct (sale_try_writes st env items) as (ups & Hevs & Hpre & Hfull & Hfail).
  exists ups.
  assert (Hups : List.filter is_write ups = ups).
  { apply filter_write_updates. eapply prefix_updates; [exact Hpre|].
    apply matching_updates_are_updates. }
  split; [|split; [exact Hpre|split; [|exact Hfail]]].
  - unfold App.handleCompleteSale.
    destruct (App.sale_try st env items) as [evs [e|]]; simpl in Hevs; subst evs.
    + pose proof (filter_write_recover (App.optimistic_state st env items)
                    "Error processing sale:"
                    "Error saving sale to database. Please check connection."
                    (App.sale_refetch env)) as Hrec.
      destruct (App.recover _ _ _ _) as [st2 rec_evs]. simpl in *.
      simpl. rewrite List.filter_app, Hrec, app_nil_r. f_equal. exact Hups.
    + simpl. f_equal. exact Hups.
  - intros H1 H2. exact (proj1 (Hfull H1 H2)).
Qed.

(** The claim C6 read for every run fails when the insert of the sale
    record fails: the cart is not empty and its line matches a stock
    record, so one update is due after the insert, but the handler throws
    on the insert error and issues no update at all. *)
Lemma C6_counterexample :
  let st := app_state [soap] in
  let env := sale_env err_resp (fun _ => ok_resp) [soap] in
  let items := [soap_line 1] in
  items <> []
  /\ length (matching_updates env (App.inventory st) 0 items) = 1%nat
  /\ List.filter is_write (snd (App.handleCompleteSale st env items))
     = [App.InsertSale (App.newSale_of env items)]
  /\ List.filter is_write (snd (App.handleCompleteSale st env items))
     <> App.InsertSale (App.newSale_of env items)
        :: matching_updates env (App.inventory st) 0 items.
Proof.
  cbn zeta. split; [discriminate|]. split; [reflexivity|].
  split; [reflexivity|]. vm_compute. discriminate.
Qed.

(** C6 (amended). For every cart, the remote writes of sale completion
    are, in program order, one insert of the sale record followed by
    inventory quantity updates only, and these updates are a prefix of the
    list that has one update per cart line whose [itemId] occurs in the
    inventory, in cart order: no update precedes the insert.  When the
    insert and every update succeed, the writes are the insert followed
    by that whole list, each update a call of its own; when the insert
    fails, the insert is the only write. *)
Theorem C6_sale_write_order (st : App.AppState) (env : App.SaleEnv)
  (items : list SaleItem.t) :
  let writes := List.filter is_write (snd (App.handleCompleteSale st env items)) in
  let expected := matching_updates env (App.inventory st) 0 items in
  (exists ups,
     writes = App.InsertSale (App.newSale_of env items) :: ups
     /\ ups `prefix_of` expected
     /\ Forall (fun e => is_update e = true) ups)
  /\ length expected
     = length (List.filter
                 (fun line =>
                    bool_decide
                      (is_Some (App.findIndex_id (SaleItem.itemId line)
                                  (App.inventory st))))
                 items)
  /\ (App.thrown (App.insert_resp env) = None ->
      (forall n, App.thrown (App.update_resp env n) = None) ->
      writes = App.InsertSale (App.newSale_of env items) :: expected)
  /\ (App.thrown (App.insert_resp env) <> None ->
      writes = [App.InsertSale (App.newSale_of env items)]).
Proof.
  cbn zeta.
  destruct (handleCompleteSale_writes st env items)
    as (ups & Hw & Hpre & Hfull & Hfail).
  split; [|split; [|split]].
  - exists ups. split; [exact Hw|]. split; [exact Hpre|].
    eapply prefix_updates; [exact Hpre|]. apply matching_updates_are_updates.
  - apply matching_updates_length.
  - intros H1 H2. rewrite Hw, (Hfull H1). { reflexivity. }
    intros n. apply thrown_None_rejected. apply H2.
  - intros H1. rewrite Hw, (Hfail H1). reflexivity.
Qed.

Lemma C6_sale_write_order_witness :
  let st := app_state [soap; bread] in
  let env := sale_env ok_resp (fun _ => ok_resp) [] in
  let items := [soap_line 2; bread_line 1] in
  App.thrown (App.insert_resp env) = None
  /\ (forall n, App.thrown (App.update_resp env n) = None)
  /\ List.filter is_write (snd (App.handleCompleteSale st env items))
     = App.InsertSale (App.newSale_of env items)
       :: matching_updates env (App.inventory st) 0 items
  /\ List.filter is_write
       (snd (App.handleCompleteSale st (sale_env err_resp (fun _ => ok_resp) []) items))
     = [App.InsertSale (App.newSale_of (sale_env err_resp (fun _ => ok_resp) []) items)].
Proof.
  cbn zeta. split; [reflexivity|]. split; [intros n; reflexivity|]. split.
  - apply (C6_sale_write_order (app_state [soap; bread])
             (sale_env ok_resp (fun _ => ok_resp) [])
             [soap_line 2; bread_line 1]); [reflexivity|intros n; reflexivity].
  - apply (C6_sale_write_order (app_state [soap; bread])
             (sale_env err_resp (fun _ => ok_resp) [])
             [soap_line 2; bread_line 1]). discriminate.
Defined.

(** ** Failures of remote writes *)

(** A failed insert, update or delete of an item, and a failed insert of a
    sale, reach the [catch] block: one log, one alert, one refetch, and the
    write is not issued again. *)
Lemma handleAddItem_failure (st : App.AppState) (env : App.WriteEnv)
  (item : InventoryItem.t) :
  App.thrown (App.write_resp env) <> None ->
  exists newItem st1,
    snd (App.handleAddItem st env item)
    = App.InsertInventory newItem
      :: App.ConsoleError "Error adding item:"
      :: App.Alert "Failed to save item to database."
      :: snd (App.fetchData st1 (App.refetch env))
    /\ fst (App.handleAddItem st env item) = fst (App.fetchData st1 (App.refetch env)).
Proof.
  intros Hfail. unfold App.handleAddItem, App.recover.
  destruct (App.thrown (App.write_resp env)) as [e|]; [|congruence].
  eexists _, _. destruct (App.fetchData _ (App.refetch env)) as [st2 evs] eqn:E.
  simpl. rewrite E. split; reflexivity.
Qed.

Lemma handleUpdateItem_failure (st : App.AppState) (env : App.WriteEnv)
  (id : string) (updates : InventoryPatch.t) :
  App.thrown (App.write_resp env) <> None ->
  exists finalUpdates st1,
    snd (App.handleUpdateItem st env id updates)
    = App.UpdateInventory id finalUpdates
      :: App.ConsoleError "Error updating item:"
      :: App.Alert "Failed to update item in database."
      :: snd (App.fetchData st1 (App.refetch env))
    /\ fst (App.handleUpdateItem st env id updates)
       = fst (App.fetchData st1 (App.refetch env)).
Proof.
  intros Hfail. unfold App.handleUpdateItem, App.recover.
  destruct (App.thrown (App.write_resp env)) as [e|]; [|congruence].
  eexists _, _. destruct (App.fetchData _ (App.refetch env)) as [st2 evs] eqn:E.
  simpl. rewrite E. split; reflexivity.
Qed.

Lemma handleDeleteItem_failure (st : App.AppState) (env : App.WriteEnv)
  (id : string) :
  App.confirmed env = true ->
  App.thrown (App.write_resp env) <> None ->
  exists st1,
    snd (App.handleDeleteItem st env id)
    = App.Confirm "Are you sure you want to delete this item?"
      :: App.DeleteInventory id
      :: App.ConsoleError "Error deleting item:"
      :: App.Alert "Failed to delete item from database."
      :: snd (App.fetchData st1 (App.refetch env))
    /\ fst (App.handleDeleteItem st env id)
       = fst (App.fetchData st1 (App.refetch env)).
Proof.
  intros Hc Hfail. unfold App.handleDeleteItem, App.recover. rewrite Hc.
  destruct (App.thrown (App.write_resp env)) as [e|]; [|congruence].
  eexists. destruct (App.fetchData _ (App.refetch env)) as [st2 evs] eqn:E.
  simpl. rewrite E. split; reflexivity.
Qed.

Lemma handleCompleteSale_insert_failure (st : App.AppState) (env : App.SaleEnv)
  (items : list SaleItem.t) :
  App.thrown (App.insert_resp env) <> None ->
  snd (App.handleCompleteSale st env items)
  = App.InsertSale (App.newSale_of env items)
    :: App.ConsoleError "Error processing sale:"
    :: App.Alert "Error saving sale to database. Please check connection."
    :: snd (App.fetchData (App.optimistic_state st env items) (App.sale_refetch env))
  /\ fst (App.handleCompleteSale st env items)
     = fst (App.fetchData (App.optimistic_state st env items) (App.sale_refetch env)).
Proof.
  intros Hfail. unfold App.handleCompleteSale, App.sale_try, App.recover.
  destruct (App.thrown (App.insert_resp env)) as [e|]; [|congruence].
  destruct (App.fetchData _ (App.sale_refetch env)) as [st2 evs]. simpl.
  split; reflexivity.
Qed.

(** An inventory update of sale completion that is answered with an error
    (the answer the other handlers turn into an exception) goes unnoticed
    whatever the cart: the loop goes on, and when nothing rejects, the
    handler ends without a log, an alert or a refetch. *)
Lemma handleCompleteSale_update_errors_ignored (st : App.AppState)
  (env : App.SaleEnv) (items : list SaleItem.t) :
  App.thrown (App.insert_resp env) = None ->
  (forall n, App.rejected (App.update_resp env n) = None) ->
  App.handleCompleteSale st env items
  = (App.optimistic_state st env items,
     App.InsertSale (App.newSale_of env items)
     :: matching_updates env (App.inventory st) 0 items).
Proof.
  intros H1 H2. unfold App.handleCompleteSale.
  destruct (sale_try_writes st env items) as (ups & Hevs & _ & Hfull & _).
  destruct (Hfull H1 H2) as [-> Hr].
  destruct (App.sale_try st env items) as [evs r]. simpl in *. subst. reflexivity.
Qed.

(** C5, at the failing input. Sale completion of a cart with one line for a
    stocked product, the insert succeeding and the inventory update
    answered with an error: the remote write failed, and the handler
    performs the two writes and nothing else: no log, no alert, no
    refetch; the optimistic state stays. *)
Theorem C5_sale_update_failure_unnoticed :
  let st := app_state [soap] in
  let env := sale_env ok_resp (fun _ => err_resp) [soap] in
  let items := [soap_line 1] in
  App.thrown (App.update_resp env 0) = Some "permission denied"
  /\ snd (App.handleCompleteSale st env items)
     = [App.InsertSale (App.newSale_of env items);
        App.UpdateInventory "a"
          (InventoryPatch.mk None None None (Some (5 - 1)%Q) None None None
             (Some (App.update_time env 0)))]
  /\ Forall (fun e => is_recovery e = false)
       (snd (App.handleCompleteSale st env items))
  /\ fst (App.handleCompleteSale st env items) = App.optimistic_state st env items.
Proof.
  cbn zeta. split; [reflexivity|]. split; [reflexivity|].
  split; [|reflexivity].
  repeat constructor.
Qed.

(** ** Financial aggregation *)

Lemma Qsum_perm {A : Type} (f : A -> Q) (l1 l2 : list A) :
  l1 ≡ₚ l2 -> (Qsum f l1 == Qsum f l2)%Q.
Proof.
  induction 1 as [|x l1 l2 _ IH|x y l|l1 l2 l3 _ IH1 _ IH2]; simpl.
  - reflexivity.
  - rewrite IH. reflexivity.
  - ring.
  - rewrite IH1. exact IH2.
Qed.

Lemma sort_insert_perm {A : Type} (cmp : A -> A -> Z) (x : A) (l : list A) :
  JS.sort_insert cmp x l ≡ₚ x :: l.
Proof.
  induction l as [|y r IH]; simpl; [reflexivity|].
  destruct (cmp x y <=? 0)%Z; [reflexivity|].
  rewrite IH. apply Permutation_swap.
Qed.

Lemma sort_perm {A : Type} (cmp : A -> A -> Z) (l : list A) :
  JS.sort cmp l ≡ₚ l.
Proof.
  induction l as [|x r IH]; simpl; [reflexivity|].
  rewrite sort_insert_perm, IH. reflexivity.
Qed.

Lemma Map_alter_keys {V : Type} (f : V -> V) (k : string) (m : JS.Map V) :
  (JS.Map_alter f k m).*1 = m.*1.
Proof.
  induction m as [|[k' v] r IH]; csimpl; [reflexivity|].
  destruct (decide (k' = k)); csimpl; [reflexivity|]. rewrite IH. reflexivity.
Qed.

Lemma Map_alter_Forall {V : Type} (P1 P2 : string * V -> Prop) (f : V -> V)
  (k : string) (m : JS.Map V) :
  NoDup m.*1 -> Forall P1 m ->
  (forall k' v, P1 (k', v) -> k' <> k -> P2 (k', v)) ->
  (forall v, P1 (k, v) -> P2 (k, f v)) ->
  Forall P2 (JS.Map_alter f k m).
Proof.
  intros Hnd Hall Hother Hsame.
  induction m as [|[k' v] r IH]; csimpl; [constructor|].
  rewrite fmap_cons in Hnd. apply NoDup_cons in Hnd as [Hk' Hr].
  apply Forall_cons in Hall as [Hv Hall]. simpl in Hk'.
  destruct (decide (k' = k)) as [->|Hne].
  - constructor; [apply Hsame; exact Hv|].
    apply Forall_forall. intros [k2 v2] Hin.
    apply Hother.
    + revert Hin. apply Forall_forall. exact Hall.
    + intros ->. apply Hk'. apply list_elem_of_fmap.
      exists (k, v2). split; [reflexivity|exact Hin].
  - constructor; [apply Hother; assumption|]. apply IH; assumption.
Qed.

Lemma Map_alter_sum_other {V : Type} (g : V -> Q) (f : V -> V) (k : string)
  (m : JS.Map V) :
  (forall v, g (f v) == g v)%Q ->
  (Qsum g (JS.Map_alter f k m).*2 == Qsum g m.*2)%Q.
Proof.
  intros Hg. induction m as [|[k' v] r IH]; csimpl; [reflexivity|].
  destruct (decide (k' = k)); csimpl.
  - rewrite Hg. reflexivity.
  - rewrite IH. reflexivity.
Qed.

Lemma Map_alter_sum {V : Type} (g : V -> Q) (f : V -> V) (d : Q) (k : string)
  (m : JS.Map V) :
  k ∈ m.*1 -> (forall v, g (f v) == g v + d)%Q ->
  (Qsum g (JS.Map_alter f k m).*2 == Qsum g m.*2 + d)%Q.
Proof.
  intros Hin Hg. induction m as [|[k' v] r IH]; csimpl.
  - apply elem_of_nil in Hin. destruct Hin.
  - destruct (decide (k' = k)) as [->|Hne]; csimpl.
    + rewrite Hg. ring.
    + rewrite fmap_cons in Hin. apply elem_of_cons in Hin as [Heq|Hin];
        [simpl in Heq; congruence|].
      rewrite (IH Hin). ring.
Qed.

Lemma ensure_cases (key : string) (m : JS.Map Bucket.t) :
  (key ∈ m.*1 /\ FinancialReport.ensure key m = m)
  \/ ((key ∉ m.*1)
      /\ FinancialReport.ensure key m = m ++ [(key, FinancialReport.fresh key)]).
Proof.
  unfold FinancialReport.ensure, JS.Map_set, JS.Map_has.
  destruct (bool_decide (key ∈ m.*1)) eqn:E.
  - left. apply bool_decide_eq_true in E. auto.
  - right. apply bool_decide_eq_false in E. auto.
Qed.

Lemma sales_of_day_app (k : string) (l1 l2 : list SaleRecord.t) :
  sales_of_day k (l1 ++ l2) = sales_of_day k l1 ++ sales_of_day k l2.
Proof. unfold sales_of_day. apply List.filter_app. Qed.

Lemma expenses_of_day_app (k : string) (l1 l2 : list ExpenseRecord.t) :
  expenses_of_day k (l1 ++ l2) = expenses_of_day k l1 ++ expenses_of_day k l2.
Proof. unfold expenses_of_day. apply List.filter_app. Qed.

Lemma sales_of_day_absent (k : string) (l : list SaleRecord.t) :
  k ∉ (sale_key <$> l) -> sales_of_day k l = [].
Proof.
  induction l as [|s r IH]; intros Hk; [reflexivity|].
  rewrite fmap_cons in Hk. apply not_elem_of_cons in Hk as [Hne Hk].
  unfold sales_of_day in *. simpl.
  rewrite bool_decide_eq_false_2 by congruence. apply IH. exact Hk.
Qed.

Lemma expenses_of_day_absent (k : string) (l : list ExpenseRecord.t) :
  k ∉ (expense_key <$> l) -> expenses_of_day k l = [].
Proof.
  induction l as [|s r IH]; intros Hk; [reflexivity|].
  rewrite fmap_cons in Hk. apply not_elem_of_cons in Hk as [Hne Hk].
  unfold expenses_of_day in *. simpl.
  rewrite bool_decide_eq_false_2 by congruence. apply IH. exact Hk.
Qed.

Lemma map_ok_empty : map_ok [] [] [].
Proof.
  unfold map_ok. simpl. split; [constructor|]. split; [constructor|].
  split; [intros k H; exact H|]. split; [intros k H; exact H|].
  repeat split; reflexivity.
Qed.

Lemma map_ok_ensure (key : string) (m : JS.Map Bucket.t)
  (ss : list SaleRecord.t) (es : list ExpenseRecord.t) :
  map_ok m ss es ->
  map_ok (FinancialReport.ensure key m) ss es
  /\ key ∈ (FinancialReport.ensure key m).*1.
Proof.
  intros Hok. destruct (ensure_cases key m) as [[Hin ->]|[Hout ->]].
  - split; assumption.
  - destruct Hok as (Hnd & Hall & Hs & He & Hr & Hg & Hx).
    split.
    + unfold map_ok. rewrite !fmap_app. csimpl.
      split.
      { apply NoDup_app. split; [exact Hnd|]. split.
        - intros x Hx1 Hx2. apply list_elem_of_singleton in Hx2. subst x.
          exact (Hout Hx1).
        - apply NoDup_singleton. }
      split.
      { apply Forall_app. split; [exact Hall|].
        constructor; [|constructor].
        unfold bucket_ok. simpl.
        rewrite sales_of_day_absent by (intros H; apply Hout, Hs, H).
        rewrite expenses_of_day_absent by (intros H; apply Hout, He, H).
        simpl. repeat split; reflexivity. }
      split; [intros k Hk; apply elem_of_app; left; apply Hs, Hk|].
      split; [intros k Hk; apply elem_of_app; left; apply He, Hk|].
      rewrite !Qsum_app. simpl. rewrite Hr, Hg, Hx.
      repeat split; ring.
    + rewrite fmap_app. apply elem_of_app. right. csimpl.
      apply list_elem_of_here.
Qed.

Lemma map_ok_add_sale (m : JS.Map Bucket.t) (ss : list SaleRecord.t)
  (es : list ExpenseRecord.t) (s : SaleRecord.t) :
  map_ok m ss es -> map_ok (FinancialReport.add_sale m s) (ss ++ [s]) es.
Proof.
  intros Hok. unfold FinancialReport.add_sale. fold (sale_key s).
  destruct (map_ok_ensure (sale_key s) m ss es Hok)
    as [(Hnd & Hall & Hs & He & Hr & Hg & Hx) Hin].
  set (m1 := FinancialReport.ensure (sale_key s) m) in *.
  unfold map_ok. rewrite Map_alter_keys.
  split; [exact Hnd|]. split.
  { eapply Map_alter_Forall; [exact Hnd|exact Hall| |].
    - intros k' b (Hd & H1 & H2 & H3) Hne. unfold bucket_ok in *. simpl in *.
      rewrite sales_of_day_app.
      assert (Hnil : sales_of_day k' [s] = []).
      { unfold sales_of_day. simpl.
        rewrite bool_decide_eq_false_2 by congruence. reflexivity. }
      rewrite Hnil, app_nil_r. auto.
    - intros b (Hd & H1 & H2 & H3). unfold bucket_ok in *. simpl in *.
      rewrite sales_of_day_app.
      assert (Hone : sales_of_day (sale_key s) [s] = [s]).
      { unfold sales_of_day. simpl.
        rewrite bool_decide_eq_true_2 by reflexivity. reflexivity. }
      rewrite Hone, !Qsum_app. simpl.
      split; [exact Hd|]. split; [rewrite H1; ring|].
      split; [rewrite H2; ring|exact H3]. }
  split.
  { intros k Hk. rewrite fmap_app in Hk. apply elem_of_app in Hk as [Hk|Hk].
    - apply Hs, Hk.
    - simpl in Hk. apply list_elem_of_singleton in Hk. subst k. exact Hin. }
  split; [exact He|].
  rewrite !Qsum_app. simpl.
  split; [|split].
  - rewrite (Map_alter_sum Bucket.revenue _ (SaleRecord.totalAmount s))
      by (auto; intros; simpl; reflexivity).
    rewrite Hr. ring.
  - rewrite (Map_alter_sum Bucket.grossProfit _ (SaleRecord.totalProfit s))
      by (auto; intros; simpl; reflexivity).
    rewrite Hg. ring.
  - rewrite (Map_alter_sum_other Bucket.expense)
      by (intros; simpl; reflexivity).
    exact Hx.
Qed.

Lemma map_ok_add_expense (m : JS.Map Bucket.t) (ss : list SaleRecord.t)
  (es : list ExpenseRecord.t) (e : ExpenseRecord.t) :
  map_ok m ss es -> map_ok (FinancialReport.add_expense m e) ss (es ++ [e]).
Proof.
  intros Hok. unfold FinancialReport.add_expense. fold (expense_key e).
  destruct (map_ok_ensure (expense_key e) m ss es Hok)
    as [(Hnd & Hall & Hs & He & Hr & Hg & Hx) Hin].
  set (m1 := FinancialReport.ensure (expense_key e) m) in *.
  unfold map_ok. rewrite Map_alter_keys.
  split; [exact Hnd|]. split.
  { eapply Map_alter_Forall; [exact Hnd|exact Hall| |].
    - intros k' b (Hd & H1 & H2 & H3) Hne. unfold bucket_ok in *. simpl in *.
      rewrite expenses_of_day_app.
      assert (Hnil : expenses_of_day k' [e] = []).
      { unfold expenses_of_day. simpl.
        rewrite bool_decide_eq_false_2 by congruence. reflexivity. }
      rewrite Hnil, app_nil_r. auto.
    - intros b (Hd & H1 & H2 & H3). unfold bucket_ok in *. simpl in *.
      rewrite expenses_of_day_app.
      assert (Hone : expenses_of_day (expense_key e) [e] = [e]).
      { unfold expenses_of_day. simpl.
        rewrite bool_decide_eq_true_2 by reflexivity. reflexivity. }
      rewrite Hone, !Qsum_app. simpl.
      split; [exact Hd|]. split; [exact H1|].
      split; [exact H2|rewrite H3; ring]. }
  split; [exact Hs|].
  split.
  { intros k Hk. rewrite fmap_app in Hk. apply elem_of_app in Hk as [Hk|Hk].
    - apply He, Hk.
    - simpl in Hk. apply list_elem_of_singleton in Hk. subst k. exact Hin. }
  rewrite !Qsum_app. simpl.
  split; [|split].
  - rewrite (Map_alter_sum_other Bucket.revenue)
      by (intros; simpl; reflexivity).
    exact Hr.
  - rewrite (Map_alter_sum_other Bucket.grossProfit)
      by (intros; simpl; reflexivity).
    exact Hg.
  - rewrite (Map_alter_sum Bucket.expense _ (ExpenseRecord.amount e))
      by (auto; intros; simpl; reflexivity).
    rewrite Hx. ring.
Qed.

Lemma map_ok_sales (l : list SaleRecord.t) :
  forall (m : JS.Map Bucket.t) (ss : list SaleRecord.t) (es : list ExpenseRecord.t),
    map_ok m ss es -> map_ok (fold_left FinancialReport.add_sale l m) (ss ++ l) es.
Proof.
  induction l as [|s r IH]; intros m ss es Hok; simpl.
  - rewrite app_nil_r. exact Hok.
  - rewrite (cons_middle s ss r), app_assoc. apply IH.
    apply map_ok_add_sale. exact Hok.
Qed.

Lemma map_ok_expenses (l : list ExpenseRecord.t) :
  forall (m : JS.Map Bucket.t) (ss : list SaleRecord.t) (es : list ExpenseRecord.t),
    map_ok m ss es -> map_ok (fold_left FinancialReport.add_expense l m) ss (es ++ l).
Proof.
  induction l as [|e r IH]; intros m ss es Hok; simpl.
  - rewrite app_nil_r. exact Hok.
  - rewrite (cons_middle e es r), app_assoc. apply IH.
    apply map_ok_add_expense. exact Hok.
Qed.

Lemma map_ok_dataMap (fs : list SaleRecord.t) (fe : list ExpenseRecord.t) :
  map_ok (FinancialReport.dataMap_of fs fe) fs fe.
Proof.
  unfold FinancialReport.dataMap_of.
  apply (map_ok_expenses fe _ fs []).
  apply (map_ok_sales fs [] [] []). exact map_ok_empty.
Qed.

Lemma fmap_eq_of_NoDup {A B : Type} (f : A -> B) (l : list A) (x y : A) :
  NoDup (f <$> l) -> x ∈ l -> y ∈ l -> f x = f y -> x = y.
Proof.
  intros Hnd Hx Hy Hf.
  apply list_elem_of_lookup in Hx as [i Hi].
  apply list_elem_of_lookup in Hy as [j Hj].
  assert (Hfi : (f <$> l) !! i = Some (f x))
    by (rewrite list_lookup_fmap, Hi; reflexivity).
  assert (Hfj : (f <$> l) !! j = Some (f x))
    by (rewrite list_lookup_fmap, Hj, Hf; reflexivity).
  pose proof (NoDup_lookup _ _ _ _ Hnd Hfi Hfj). subst j. congruence.
Qed.

Lemma bucket_dates (ss : list SaleRecord.t) (es : list ExpenseRecord.t)
  (m : JS.Map Bucket.t) :
  Forall (bucket_ok ss es) m -> Bucket.date <$> m.*2 = m.*1.
Proof.
  induction 1 as [|[k b] r (Hd & _) _ IH]; csimpl; [reflexivity|].
  simpl in Hd. rewrite Hd, IH. reflexivity.
Qed.

Lemma chartData_perm (fs : list SaleRecord.t) (fe : list ExpenseRecord.t) :
  FinancialReport.chartData fs fe ≡ₚ (FinancialReport.dataMap_of fs fe).*2.
Proof. unfold FinancialReport.chartData, JS.Map_values. apply sort_perm. Qed.




(** ** The CSV export *)

Lemma sort_insert_sorted {A : Type} (key : A -> Z) (x : A) (l : list A) :
  StronglySorted (fun a b => (key b <= key a)%Z) l ->
  StronglySorted (fun a b => (key b <= key a)%Z)
    (JS.sort_insert (fun a b => (key b - key a)%Z) x l).
Proof.
  induction 1 as [|y r Hr IH Hy]; simpl.
  - constructor; constructor.
  - destruct (key y - key x <=? 0)%Z eqn:E.
    + apply Z.leb_le in E. constructor; [constructor; assumption|].
      constructor; [lia|].
      eapply Forall_impl; [exact Hy|]. simpl. intros z Hz. lia.
    + apply Z.leb_gt in E. constructor; [exact IH|].
      rewrite (sort_insert_perm _ x r). constructor; [lia|exact Hy].
Qed.

Lemma sort_sorted {A : Type} (key : A -> Z) (l : list A) :
  StronglySorted (fun a b => (key b <= key a)%Z)
    (JS.sort (fun a b => (key b - key a)%Z) l).
Proof.
  induction l as [|x r IH]; simpl; [constructor|].
  apply sort_insert_sorted. exact IH.
Qed.

Lemma StronglySorted_lookup {A : Type} (R : A -> A -> Prop) (l : list A) :
  StronglySorted R l ->
  forall i j a b, (i < j)%nat -> l !! i = Some a -> l !! j = Some b -> R a b.
Proof.
  induction 1 as [|x r Hr IH Hx]; intros i j a b Hij Hi Hj.
  - rewrite lookup_nil in Hi. discriminate.
  - destruct j as [|j]; [lia|]. simpl in Hj. destruct i as [|i]; simpl in Hi.
    + injection Hi as <-. eapply (proj1 (Forall_forall _ _) Hx).
      eapply list_elem_of_lookup_2. exact Hj.
    + apply (IH i j); [lia|assumption|assumption].
Qed.














(** * Further properties of the handlers and views *)

(** ** The cart, continued *)

Lemma itemInCartTotal_Qsum (cart : list SaleItem.t) (id : string) :
  (SalesTerminal.itemInCartTotal cart id
   == Qsum SaleItem.quantity
        (List.filter (fun i => bool_decide (SaleItem.itemId i = id)) cart))%Q.
Proof. unfold SalesTerminal.itemInCartTotal. apply reduce_sum_Qsum. Qed.

Lemma itemInCartTotal_nil (id : string) :
  SalesTerminal.itemInCartTotal [] id = 0%Q.
Proof. reflexivity. Qed.

Lemma itemInCartTotal_app (l1 l2 : list SaleItem.t) (id : string) :
  (SalesTerminal.itemInCartTotal (l1 ++ l2) id
   == SalesTerminal.itemInCartTotal l1 id + SalesTerminal.itemInCartTotal l2 id)%Q.
Proof.
  rewrite !itemInCartTotal_Qsum, List.filter_app, Qsum_app. reflexivity.
Qed.

Lemma itemInCartTotal_cons (x : SaleItem.t) (l : list SaleItem.t) (id : string) :
  (SalesTerminal.itemInCartTotal (x :: l) id
   == (if bool_decide (SaleItem.itemId x = id) then SaleItem.quantity x else 0)
      + SalesTerminal.itemInCartTotal l id)%Q.
Proof.
  rewrite !itemInCartTotal_Qsum. simpl.
  destruct (bool_decide (SaleItem.itemId x = id)); simpl; ring.
Qed.

(** In a cart with one line per product, the total of a product is the
    quantity of its line, or 0 when it has none. *)
Lemma itemInCartTotal_single (cart : list SaleItem.t) (id : string) :
  NoDup (SaleItem.itemId <$> cart) ->
  (SalesTerminal.itemInCartTotal cart id
   == match SalesTerminal.findIndex_itemId id cart with
      | Some (_, line) => SaleItem.quantity line
      | None => 0
      end)%Q.
Proof.
  unfold SalesTerminal.findIndex_itemId.
  induction cart as [|x r IH]; intros Hnd.
  - reflexivity.
  - rewrite fmap_cons in Hnd. apply NoDup_cons in Hnd as [Hx Hr].
    rewrite itemInCartTotal_cons. cbn [list_find].
    destruct (decide (SaleItem.itemId x = id)) as [Heq|Hne].
    + rewrite bool_decide_eq_true_2 by exact Heq. simpl.
      assert (Hz : (SalesTerminal.itemInCartTotal r id == 0)%Q).
      { rewrite itemInCartTotal_Qsum.
        assert (Hnil : List.filter (fun i => bool_decide (SaleItem.itemId i = id)) r = []).
        { clear IH Hr. induction r as [|y r IHr]; [reflexivity|].
          simpl. rewrite fmap_cons in Hx. apply not_elem_of_cons in Hx as [Hy Hx].
          rewrite bool_decide_eq_false_2 by congruence. apply IHr. exact Hx. }
        rewrite Hnil. reflexivity. }
      rewrite Hz. ring.
    + rewrite bool_decide_eq_false_2 by exact Hne. rewrite (IH Hr).
      destruct (list_find (fun item => SaleItem.itemId item = id) r) as [[i line]|];
        simpl; ring.
Qed.

Lemma addToCart_accepts (st : SalesTerminal.State) (p : InventoryItem.t) :
  SalesTerminal.selectedProduct st = Some p ->
  (0 < SalesTerminal.qtyInput st)%Q ->
  (SalesTerminal.qtyInput st <= InventoryItem.quantity p)%Q ->
  (forall i line,
     SalesTerminal.findIndex_itemId (InventoryItem.id p) (SalesTerminal.cart st)
     = Some (i, line) ->
     (SaleItem.quantity line + SalesTerminal.qtyInput st
      <= InventoryItem.quantity p)%Q) ->
  SalesTerminal.addToCart st
  = (SalesTerminal.with_cart_and_reset st
       match SalesTerminal.findIndex_itemId (InventoryItem.id p) (SalesTerminal.cart st) with
       | Some (i, line) =>
           <[i := SalesTerminal.add_quantity line (SalesTerminal.qtyInput st)]>
             (SalesTerminal.cart st)
       | None =>
           SalesTerminal.cart st
           ++ [SaleItem.mk (InventoryItem.id p) (InventoryItem.name p)
                 (SalesTerminal.qtyInput st) (InventoryItem.salesPrice p)
                 (InventoryItem.costPrice p) None]
       end, []).
Proof.
  intros Hsel Hpos Hle Hsum. unfold SalesTerminal.addToCart. rewrite Hsel.
  rewrite (proj2 (Qleb_false _ _) Hpos), (proj2 (Qgtb_false _ _) Hle).
  destruct (SalesTerminal.findIndex_itemId (InventoryItem.id p) (SalesTerminal.cart st))
    as [[i line]|] eqn:E; [|reflexivity].
  rewrite (proj2 (Qgtb_false _ _) (Hsum i line eq_refl)). reflexivity.
Qed.

Lemma addToCart_item_total (st : SalesTerminal.State) (p : InventoryItem.t) :
  SalesTerminal.selectedProduct st = Some p ->
  (0 < SalesTerminal.qtyInput st)%Q ->
  (SalesTerminal.qtyInput st <= InventoryItem.quantity p)%Q ->
  (forall i line,
     SalesTerminal.findIndex_itemId (InventoryItem.id p) (SalesTerminal.cart st)
     = Some (i, line) ->
     (SaleItem.quantity line + SalesTerminal.qtyInput st
      <= InventoryItem.quantity p)%Q) ->
  let cart' := SalesTerminal.cart (fst (SalesTerminal.addToCart st)) in
  (SalesTerminal.itemInCartTotal cart' (InventoryItem.id p)
   == SalesTerminal.itemInCartTotal (SalesTerminal.cart st) (InventoryItem.id p)
      + SalesTerminal.qtyInput st)%Q
  /\ forall other,
       other <> InventoryItem.id p ->
       (SalesTerminal.itemInCartTotal cart' other
        == SalesTerminal.itemInCartTotal (SalesTerminal.cart st) other)%Q.
Proof.
  intros Hsel Hpos Hle Hsum. cbn zeta.
  rewrite (addToCart_accepts st p Hsel Hpos Hle Hsum). simpl.
  destruct (SalesTerminal.findIndex_itemId (InventoryItem.id p) (SalesTerminal.cart st))
    as [[i line]|] eqn:E.
  - apply findIndex_itemId_Some in E as [Hi Hid].
    assert (Hlt : (i < length (SalesTerminal.cart st))%nat)
      by (eapply lookup_lt_Some; exact Hi).
    rewrite (insert_take_drop _ _ _ Hlt).
    pose proof (take_drop_middle _ _ _ Hi) as Hsplit.
    remember (take i (SalesTerminal.cart st)) as before eqn:Hb.
    remember (drop (S i) (SalesTerminal.cart st)) as after eqn:Ha.
    clear Hb Ha. rewrite <- Hsplit.
    split.
    + rewrite !itemInCartTotal_app, !itemInCartTotal_cons. simpl.
      rewrite !bool_decide_eq_true_2 by exact Hid. ring.
    + intros other Hne.
      rewrite !itemInCartTotal_app, !itemInCartTotal_cons. simpl.
      rewrite !bool_decide_eq_false_2 by congruence. reflexivity.
  - split.
    + rewrite itemInCartTotal_app, itemInCartTotal_cons. simpl.
      rewrite bool_decide_eq_true_2 by reflexivity.
      rewrite itemInCartTotal_nil. ring.
    + intros other Hne.
      rewrite itemInCartTotal_app, itemInCartTotal_cons. simpl.
      rewrite bool_decide_eq_false_2 by congruence.
      rewrite itemInCartTotal_nil. ring.
Qed.

(** X1. An accepted [addToCart] (a product is selected, the entered
    quantity is positive and at most the stock, and the merged total, if
    the product is already in the cart, does not exceed the stock) raises
    [itemInCartTotal] of the selected product by the entered quantity and
    leaves the total of every other product as it was. *)
Theorem X1_addToCart_raises_item_total (st : SalesTerminal.State)
  (p : InventoryItem.t) :
  SalesTerminal.selectedProduct st = Some p ->
  (0 < SalesTerminal.qtyInput st)%Q ->
  (SalesTerminal.qtyInput st <= InventoryItem.quantity p)%Q ->
  (forall i line,
     SalesTerminal.findIndex_itemId (InventoryItem.id p) (SalesTerminal.cart st)
     = Some (i, line) ->
     (SaleItem.quantity line + SalesTerminal.qtyInput st
      <= InventoryItem.quantity p)%Q) ->
  let cart' := SalesTerminal.cart (fst (SalesTerminal.addToCart st)) in
  (SalesTerminal.itemInCartTotal cart' (InventoryItem.id p)
   == SalesTerminal.itemInCartTotal (SalesTerminal.cart st) (InventoryItem.id p)
      + SalesTerminal.qtyInput st)%Q
  /\ forall other,
       other <> InventoryItem.id p ->
       (SalesTerminal.itemInCartTotal cart' other
        == SalesTerminal.itemInCartTotal (SalesTerminal.cart st) other)%Q.
Proof. exact (addToCart_item_total st p). Qed.

Lemma X1_addToCart_raises_item_total_witness :
  let st := terminal [bread_line 1; soap_line 3] (Some soap) 2 in
  (SalesTerminal.itemInCartTotal
     (SalesTerminal.cart (fst (SalesTerminal.addToCart st))) "a"
   == SalesTerminal.itemInCartTotal (SalesTerminal.cart st) "a" + 2)%Q
  /\ (SalesTerminal.itemInCartTotal
        (SalesTerminal.cart (fst (SalesTerminal.addToCart st))) "b"
      == SalesTerminal.itemInCartTotal (SalesTerminal.cart st) "b")%Q.
Proof.
  cbn zeta.
  destruct (X1_addToCart_raises_item_total
              (terminal [bread_line 1; soap_line 3] (Some soap) 2) soap eq_refl)
    as [H1 H2].
  - q_decide.
  - q_decide.
  - intros i line Hfind. vm_compute in Hfind. injection Hfind as <- <-. q_decide.
  - split; [exact H1|]. apply H2. discriminate.
Defined.

Lemma add_button_disabled (st : SalesTerminal.State) (p : InventoryItem.t) :
  SalesTerminal.selectedProduct st = Some p ->
  NoDup (SaleItem.itemId <$> SalesTerminal.cart st) ->
  SalesTerminal.addDisabled st p = true ->
  fst (SalesTerminal.addToCart st) = st.
Proof.
  intros Hsel Hnd Hdis. unfold SalesTerminal.addDisabled in Hdis.
  apply Qgtb_true in Hdis.
  rewrite (itemInCartTotal_single _ (InventoryItem.id p) Hnd) in Hdis.
  destruct (SalesTerminal.findIndex_itemId (InventoryItem.id p) (SalesTerminal.cart st))
    as [[i line]|] eqn:E.
  - exact (addToCart_reject_merge st p i line Hsel E Hdis).
  - apply (addToCart_reject_guards st p Hsel). right. lra.
Qed.

Lemma add_button_enabled (st : SalesTerminal.State) (p : InventoryItem.t) :
  SalesTerminal.selectedProduct st = Some p ->
  NoDup (SaleItem.itemId <$> SalesTerminal.cart st) ->
  (forall line, line ∈ SalesTerminal.cart st -> (0 <= SaleItem.quantity line)%Q) ->
  (0 < SalesTerminal.qtyInput st)%Q ->
  SalesTerminal.addDisabled st p = false ->
  (SalesTerminal.qtyInput st <= InventoryItem.quantity p)%Q
  /\ forall i line,
       SalesTerminal.findIndex_itemId (InventoryItem.id p) (SalesTerminal.cart st)
       = Some (i, line) ->
       (SaleItem.quantity line + SalesTerminal.qtyInput st
        <= InventoryItem.quantity p)%Q.
Proof.
  intros Hsel Hnd Hnonneg Hpos Hen. unfold SalesTerminal.addDisabled in Hen.
  apply Qgtb_false in Hen.
  rewrite (itemInCartTotal_single _ (InventoryItem.id p) Hnd) in Hen.
  destruct (SalesTerminal.findIndex_itemId (InventoryItem.id p) (SalesTerminal.cart st))
    as [[i line]|] eqn:E.
  - pose proof (findIndex_itemId_Some _ _ _ _ E) as [Hi _].
    assert (H0 : (0 <= SaleItem.quantity line)%Q)
      by (apply Hnonneg; eapply list_elem_of_lookup_2; exact Hi).
    split; [lra|]. intros i' line' Heq. injection Heq as <- <-. exact Hen.
  - split; [lra|]. intros i' line' Heq. discriminate.
Qed.

(** X2. In a cart with one line per product the Add button and
    [addToCart] agree: while the button is disabled ([itemInCartTotal] plus
    the entered quantity exceeds the stock) [addToCart] changes nothing;
    while it is enabled, the entered quantity is positive and no line has
    a negative quantity, [addToCart] raises no alert and adds the entered
    quantity to the product's total. *)
Theorem X2_add_button_agrees_with_guard (st : SalesTerminal.State)
  (p : InventoryItem.t) :
  SalesTerminal.selectedProduct st = Some p ->
  NoDup (SaleItem.itemId <$> SalesTerminal.cart st) ->
  (SalesTerminal.addDisabled st p = true ->
   fst (SalesTerminal.addToCart st) = st)
  /\ (SalesTerminal.addDisabled st p = false ->
      (0 < SalesTerminal.qtyInput st)%Q ->
      (forall line, line ∈ SalesTerminal.cart st -> (0 <= SaleItem.quantity line)%Q) ->
      snd (SalesTerminal.addToCart st) = []
      /\ (SalesTerminal.itemInCartTotal
            (SalesTerminal.cart (fst (SalesTerminal.addToCart st)))
            (InventoryItem.id p)
          == SalesTerminal.itemInCartTotal (SalesTerminal.cart st)
               (InventoryItem.id p)
             + SalesTerminal.qtyInput st)%Q).
Proof.
  intros Hsel Hnd. split.
  - exact (add_button_disabled st p Hsel Hnd).
  - intros Hen Hpos Hnonneg.
    destruct (add_button_enabled st p Hsel Hnd Hnonneg Hpos Hen) as [Hle Hsum].
    split.
    + rewrite (addToCart_accepts st p Hsel Hpos Hle Hsum). reflexivity.
    + exact (proj1 (addToCart_item_total st p Hsel Hpos Hle Hsum)).
Qed.

Lemma X2_add_button_agrees_with_guard_witness :
  fst (SalesTerminal.addToCart (terminal [soap_line 3] (Some soap) 3))
  = terminal [soap_line 3] (Some soap) 3
  /\ snd (SalesTerminal.addToCart (terminal [soap_line 3] (Some soap) 2)) = [].
Proof.
  assert (Hnd : NoDup (SaleItem.itemId <$> [soap_line 3]))
    by (apply (bool_decide_unpack _); vm_compute; exact I).
  split.
  - destruct (X2_add_button_agrees_with_guard
                (terminal [soap_line 3] (Some soap) 3) soap eq_refl Hnd) as [H _].
    apply H. reflexivity.
  - destruct (X2_add_button_agrees_with_guard
                (terminal [soap_line 3] (Some soap) 2) soap eq_refl Hnd) as [_ H].
    apply H.
    + reflexivity.
    + q_decide.
    + intros line Hl. apply list_elem_of_singleton in Hl. subst line. q_decide.
Defined.

Lemma fmap_delete {A B : Type} (f : A -> B) (l : list A) (i : nat) :
  f <$> delete i l = delete i (f <$> l).
Proof.
  revert i. induction l as [|x r IH]; intros [|i]; csimpl; try reflexivity.
  rewrite IH. reflexivity.
Qed.

Lemma cart_ok_delete (cart : list SaleItem.t) (i : nat) :
  cart_ok cart -> cart_ok (delete i cart).
Proof.
  intros [Hnd Hpos]. split.
  - rewrite fmap_delete. eauto using sublist_NoDup, sublist_delete.
  - intros line Hin. apply Hpos. eapply list_elem_of_delete_inv. exact Hin.
Qed.

Lemma cart_ok_addToCart (st : SalesTerminal.State) :
  cart_ok (SalesTerminal.cart st) ->
  cart_ok (SalesTerminal.cart (fst (SalesTerminal.addToCart st))).
Proof.
  intros [Hnd Hpos]. split; [apply addToCart_single_line; exact Hnd|].
  unfold SalesTerminal.addToCart.
  destruct (SalesTerminal.selectedProduct st) as [p|]; [|exact Hpos].
  destruct (Qleb (SalesTerminal.qtyInput st) 0) eqn:Eq; [exact Hpos|].
  apply Qleb_false in Eq.
  destruct (Qgtb (SalesTerminal.qtyInput st) (InventoryItem.quantity p));
    [exact Hpos|].
  destruct (SalesTerminal.findIndex_itemId (InventoryItem.id p) (SalesTerminal.cart st))
    as [[i line]|] eqn:E.
  - destruct (Qgtb (SaleItem.quantity line + SalesTerminal.qtyInput st)
                (InventoryItem.quantity p)); [exact Hpos|].
    simpl. apply findIndex_itemId_Some in E as [Hi _].
    intros l Hl. apply list_elem_of_lookup in Hl as [j Hj].
    destruct (decide (j = i)) as [->|Hne].
    + rewrite list_lookup_insert_eq in Hj by (eapply lookup_lt_Some; exact Hi).
      injection Hj as <-. simpl.
      assert (0 < SaleItem.quantity line)%Q
        by (apply Hpos; eapply list_elem_of_lookup_2; exact Hi).
      lra.
    + rewrite list_lookup_insert_ne in Hj by congruence.
      apply Hpos. eapply list_elem_of_lookup_2. exact Hj.
  - simpl. intros l Hl. apply elem_of_app in Hl as [Hl|Hl]; [apply Hpos, Hl|].
    apply list_elem_of_singleton in Hl. subst l. exact Eq.
Qed.

(** X3. The terminal keeps its cart well formed: if the cart has one line
    per product and only positive quantities, it still has after
    [addToCart] (accepted or rejected), after [removeFromCart] at any
    index, and after [handleCheckout]. *)
Theorem X3_cart_stays_well_formed (st : SalesTerminal.State) :
  cart_ok (SalesTerminal.cart st) ->
  cart_ok (SalesTerminal.cart (fst (SalesTerminal.addToCart st)))
  /\ (forall index,
        cart_ok (SalesTerminal.cart (SalesTerminal.removeFromCart st index)))
  /\ cart_ok (SalesTerminal.cart (fst (SalesTerminal.handleCheckout st))).
Proof.
  intros Hok. split; [apply cart_ok_addToCart; exact Hok|]. split.
  - intros index. simpl. apply cart_ok_delete. exact Hok.
  - unfold SalesTerminal.handleCheckout.
    destruct (SalesTerminal.cart st) eqn:E; simpl.
    + rewrite E. exact Hok.
    + split; [constructor|]. intros line Hin. apply elem_of_nil in Hin. destruct Hin.
Qed.

Lemma cart_ok_sample : cart_ok [bread_line 1; soap_line 3].
Proof.
  split.
  - apply (bool_decide_unpack _). vm_compute. exact I.
  - intros line Hin. apply elem_of_cons in Hin as [->|Hin]; [q_decide|].
    apply list_elem_of_singleton in Hin. subst line. q_decide.
Qed.

Lemma X3_cart_stays_well_formed_witness :
  cart_ok (SalesTerminal.cart
             (fst (SalesTerminal.addToCart
                     (terminal [bread_line 1; soap_line 3] (Some soap) 2))))
  /\ cart_ok (SalesTerminal.cart
                (SalesTerminal.removeFromCart
                   (terminal [bread_line 1; soap_line 3] (Some soap) 2) 0)).
Proof.
  destruct (X3_cart_stays_well_formed
              (terminal [bread_line 1; soap_line 3] (Some soap) 2) cart_ok_sample)
    as (H1 & H2 & _).
  split; [exact H1|exact (H2 0%nat)].
Defined.

Lemma cartTotal_Qsum (st : SalesTerminal.State) :
  (SalesTerminal.cartTotal st
   == Qsum (fun item => SaleItem.quantity item * SaleItem.priceAtSale item)
        (SalesTerminal.cart st))%Q.
Proof. unfold SalesTerminal.cartTotal. apply reduce_sum_Qsum. Qed.

(** X4. [removeFromCart] at an index outside the cart changes nothing; at
    the index of a line it drops exactly that line: the cart is one
    shorter, the lines before keep their place, the lines after move up
    by one, and the cart total falls by the line's quantity times its
    price. *)
Theorem X4_removeFromCart_drops_one_line (st : SalesTerminal.State) (index : nat) :
  ((length (SalesTerminal.cart st) <= index)%nat ->
   SalesTerminal.removeFromCart st index = st)
  /\ (forall line,
        SalesTerminal.cart st !! index = Some line ->
        let st' := SalesTerminal.removeFromCart st index in
        S (length (SalesTerminal.cart st')) = length (SalesTerminal.cart st)
        /\ (forall j, (j < index)%nat ->
                      SalesTerminal.cart st' !! j = SalesTerminal.cart st !! j)
        /\ (forall j, (index <= j)%nat ->
                      SalesTerminal.cart st' !! j = SalesTerminal.cart st !! S j)
        /\ (SalesTerminal.cartTotal st'
            == SalesTerminal.cartTotal st
               - SaleItem.quantity line * SaleItem.priceAtSale line)%Q).
Proof.
  split.
  - intros Hge. unfold SalesTerminal.removeFromCart.
    rewrite delete_take_drop, take_ge, drop_ge, app_nil_r by lia.
    destruct st; reflexivity.
  - intros line Hi. cbn zeta. simpl SalesTerminal.cart.
    assert (Hlt : (index < length (SalesTerminal.cart st))%nat)
      by (eapply lookup_lt_Some; exact Hi).
    split; [rewrite length_delete by eauto; lia|].
    split; [intros j Hj; apply list_lookup_delete_lt; exact Hj|].
    split; [intros j Hj; apply list_lookup_delete_ge; exact Hj|].
    rewrite !cartTotal_Qsum. simpl SalesTerminal.cart.
    rewrite (Qsum_perm _ _ _ (delete_Permutation _ _ _ Hi)). simpl. ring.
Qed.

Lemma X4_removeFromCart_drops_one_line_witness :
  SalesTerminal.removeFromCart (terminal [bread_line 1; soap_line 3] None 1) 2
  = terminal [bread_line 1; soap_line 3] None 1
  /\ (SalesTerminal.cartTotal
        (SalesTerminal.removeFromCart (terminal [bread_line 1; soap_line 3] None 1) 0)
      == SalesTerminal.cartTotal (terminal [bread_line 1; soap_line 3] None 1)
         - 1 * 2)%Q.
Proof.
  split.
  - apply (X4_removeFromCart_drops_one_line
             (terminal [bread_line 1; soap_line 3] None 1) 2). simpl. lia.
  - destruct (X4_removeFromCart_drops_one_line
                (terminal [bread_line 1; soap_line 3] None 1) 0) as [_ H].
    exact (proj2 (proj2 (proj2 (H (bread_line 1) eq_refl)))).
Defined.

(** X5. Checking out a cart that is not empty hands exactly that cart to
    [onCompleteSale] and empties the terminal's cart; the sale that
    [handleCompleteSale] then creates lists the cart's lines, is put at
    the head of the sales, is the first remote write, and its
    [totalAmount] is the total the terminal displayed. *)
Theorem X5_checkout_records_the_cart (st : SalesTerminal.State)
  (app : App.AppState) (env : App.SaleEnv) :
  SalesTerminal.cart st <> [] ->
  snd (SalesTerminal.handleCheckout st)
  = [SalesTerminal.OnCompleteSale (SalesTerminal.cart st)]
  /\ SalesTerminal.cart (fst (SalesTerminal.handleCheckout st)) = []
  /\ (let sale := App.newSale_of env (SalesTerminal.cart st) in
      SaleRecord.items sale = SalesTerminal.cart st
      /\ (SaleRecord.totalAmount sale == SalesTerminal.cartTotal st)%Q
      /\ App.sales (App.optimistic_state app env (SalesTerminal.cart st))
         = sale :: App.sales app
      /\ exists rest,
           snd (App.handleCompleteSale app env (SalesTerminal.cart st))
           = App.InsertSale sale :: rest).
Proof.
  intros Hne. unfold SalesTerminal.handleCheckout.
  destruct (SalesTerminal.cart st) as [|x r] eqn:E; [congruence|]. simpl.
  split; [reflexivity|]. split; [reflexivity|]. split; [reflexivity|].
  split; [unfold SalesTerminal.cartTotal; rewrite E; reflexivity|].
  split; [reflexivity|]. apply handleCompleteSale_head.
Qed.

Lemma X5_checkout_records_the_cart_witness :
  snd (SalesTerminal.handleCheckout (terminal [soap_line 3] None 1))
  = [SalesTerminal.OnCompleteSale [soap_line 3]]
  /\ (SaleRecord.totalAmount
        (App.newSale_of (sale_env ok_resp (fun _ => ok_resp) []) [soap_line 3])
      == SalesTerminal.cartTotal (terminal [soap_line 3] None 1))%Q.
Proof.
  destruct (X5_checkout_records_the_cart (terminal [soap_line 3] None 1)
              (app_state [soap]) (sale_env ok_resp (fun _ => ok_resp) []))
    as (H1 & _ & _ & H2 & _).
  - discriminate.
  - split; [exact H1|exact H2].
Defined.

(** ** From the terminal to the stock *)

Lemma findIndex_id_of_member (inv : list InventoryItem.t) (p : InventoryItem.t) :
  NoDup (InventoryItem.id <$> inv) -> p ∈ inv ->
  exists k, App.findIndex_id (InventoryItem.id p) inv = Some (k, p).
Proof.
  intros Hnd Hin. apply list_elem_of_lookup in Hin as [k Hk].
  exists k. apply findIndex_id_Some. split; [exact Hk|]. split; [reflexivity|].
  intros j Hj Hl.
  assert (Hidk : (InventoryItem.id <$> inv) !! k = Some (InventoryItem.id p))
    by (rewrite list_lookup_fmap, Hk; reflexivity).
  pose proof (NoDup_lookup _ _ _ _ Hnd Hl Hidk). lia.
Qed.

Lemma cart_fits_addToCart (inv : list InventoryItem.t) (st : SalesTerminal.State) :
  NoDup (InventoryItem.id <$> inv) ->
  (forall p, SalesTerminal.selectedProduct st = Some p -> p ∈ inv) ->
  cart_fits inv (SalesTerminal.cart st) ->
  cart_fits inv (SalesTerminal.cart (fst (SalesTerminal.addToCart st))).
Proof.
  intros Hnd Hsel [Hok Hfit]. split; [apply cart_ok_addToCart; exact Hok|].
  unfold SalesTerminal.addToCart.
  destruct (SalesTerminal.selectedProduct st) as [p|] eqn:Es; [|exact Hfit].
  destruct (Qleb (SalesTerminal.qtyInput st) 0); [exact Hfit|].
  destruct (Qgtb (SalesTerminal.qtyInput st) (InventoryItem.quantity p)) eqn:Eg;
    [exact Hfit|].
  apply Qgtb_false in Eg.
  destruct (findIndex_id_of_member inv p Hnd (Hsel p eq_refl)) as [k Hk].
  destruct (SalesTerminal.findIndex_itemId (InventoryItem.id p) (SalesTerminal.cart st))
    as [[i line]|] eqn:E.
  - destruct (Qgtb (SaleItem.quantity line + SalesTerminal.qtyInput st)
                (InventoryItem.quantity p)) eqn:Em; [exact Hfit|].
    apply Qgtb_false in Em. simpl.
    apply findIndex_itemId_Some in E as [Hi Hid].
    intros l Hl. apply list_elem_of_lookup in Hl as [j Hj].
    destruct (decide (j = i)) as [->|Hne].
    + rewrite list_lookup_insert_eq in Hj by (eapply lookup_lt_Some; exact Hi).
      injection Hj as <-. simpl. exists k, p. rewrite Hid. auto.
    + rewrite list_lookup_insert_ne in Hj by congruence.
      apply Hfit. eapply list_elem_of_lookup_2. exact Hj.
  - simpl. intros l Hl. apply elem_of_app in Hl as [Hl|Hl]; [apply Hfit, Hl|].
    apply list_elem_of_singleton in Hl. subst l. simpl. exists k, p. auto.
Qed.

Lemma cart_fits_nil (inv : list InventoryItem.t) : cart_fits inv [].
Proof.
  split; [split; [constructor|]|]; intros line Hin;
    apply elem_of_nil in Hin; destruct Hin.
Qed.

Lemma addToCart_selection (st : SalesTerminal.State) (p : InventoryItem.t) :
  SalesTerminal.selectedProduct (fst (SalesTerminal.addToCart st)) = Some p ->
  SalesTerminal.selectedProduct st = Some p.
Proof.
  unfold SalesTerminal.addToCart.
  destruct (SalesTerminal.selectedProduct st) as [q|] eqn:Es; [|simpl; congruence].
  destruct (Qleb (SalesTerminal.qtyInput st) 0); [simpl; congruence|].
  destruct (Qgtb (SalesTerminal.qtyInput st) (InventoryItem.quantity q));
    [simpl; congruence|].
  destruct (SalesTerminal.findIndex_itemId _ _) as [[i line]|].
  - destruct (Qgtb _ _); simpl; [congruence|discriminate].
  - simpl. discriminate.
Qed.

Lemma terminal_step_invariant (inv : list InventoryItem.t)
  (st st' : SalesTerminal.State) :
  NoDup (InventoryItem.id <$> inv) ->
  terminal_step inv st st' ->
  cart_fits inv (SalesTerminal.cart st)
  /\ (forall p, SalesTerminal.selectedProduct st = Some p -> p ∈ inv) ->
  cart_fits inv (SalesTerminal.cart st')
  /\ (forall p, SalesTerminal.selectedProduct st' = Some p -> p ∈ inv).
Proof.
  intros Hnd Hstep [Hfit Hsel].
  destruct Hstep as [st term|st item Hitem|st q|st|st index]; simpl.
  - auto.
  - split; [exact Hfit|]. intros p Hp. injection Hp as <-. exact Hitem.
  - auto.
  - split; [apply cart_fits_addToCart; assumption|].
    intros p Hp. apply Hsel. apply addToCart_selection. exact Hp.
  - split; [|exact Hsel]. destruct Hfit as [Hok Hf]. split.
    + apply cart_ok_delete. exact Hok.
    + intros line Hin. apply Hf. eapply list_elem_of_delete_inv. exact Hin.
Qed.

Lemma reachable_cart_fits (inv : list InventoryItem.t) (st : SalesTerminal.State) :
  NoDup (InventoryItem.id <$> inv) ->
  rtc (terminal_step inv) terminal_init st ->
  cart_fits inv (SalesTerminal.cart st)
  /\ (forall p, SalesTerminal.selectedProduct st = Some p -> p ∈ inv).
Proof.
  intros Hnd Hreach. revert st Hreach. apply rtc_ind_r.
  - split; [apply cart_fits_nil|]. intros p Hp. discriminate.
  - intros st' st'' _ Hstep IH.
    eapply terminal_step_invariant; eassumption.
Qed.

(** X6. Stock stays non-negative from the terminal to the sale: when the
    inventory has unique ids and non-negative quantities, whatever the
    user does in a freshly mounted terminal before checking out
    (searching, selecting products of the inventory, changing the
    quantity, adding, removing), the cart has one line per product, each
    with a positive quantity no larger than the stock of its product, and
    completing a sale with it leaves every optimistic quantity
    non-negative. *)
Theorem X6_terminal_carts_never_oversell (app : App.AppState)
  (env : App.SaleEnv) (st : SalesTerminal.State) :
  NoDup (InventoryItem.id <$> App.inventory app) ->
  (forall p, p ∈ App.inventory app -> (0 <= InventoryItem.quantity p)%Q) ->
  rtc (terminal_step (App.inventory app)) terminal_init st ->
  cart_fits (App.inventory app) (SalesTerminal.cart st)
  /\ forall p',
       p' ∈ App.inventory (App.optimistic_state app env (SalesTerminal.cart st)) ->
       (0 <= InventoryItem.quantity p')%Q.
Proof.
  intros Hnd Hnonneg Hreach.
  destruct (reachable_cart_fits _ _ Hnd Hreach) as [Hfit _].
  split; [exact Hfit|].
  destruct Hfit as [[Hcnd _] Hf].
  apply optimistic_nonneg; [exact Hnonneg|exact Hcnd|].
  intros line k p Hline Hfind.
  destruct (Hf line Hline) as (k' & p0 & Hfind' & Hle).
  rewrite Hfind in Hfind'. injection Hfind' as <- <-. exact Hle.
Qed.

Lemma X6_terminal_carts_never_oversell_witness :
  let s1 := SalesTerminal.selectProduct terminal_init soap in
  let s2 := fst (SalesTerminal.addToCart (SalesTerminal.setQty s1 3)) in
  let s3 := SalesTerminal.selectProduct s2 soap in
  let s4 := fst (SalesTerminal.addToCart (SalesTerminal.setQty s3 2)) in
  SalesTerminal.cart s4 = [soap_line (3 + 2)]
  /\ forall p',
       p' ∈ App.inventory
              (App.optimistic_state (app_state [soap; bread])
                 (sale_env ok_resp (fun _ => ok_resp) []) (SalesTerminal.cart s4)) ->
       (0 <= InventoryItem.quantity p')%Q.
Proof.
  cbn zeta. split; [reflexivity|].
  apply (X6_terminal_carts_never_oversell (app_state [soap; bread])).
  - apply (bool_decide_unpack _). vm_compute. exact I.
  - intros p Hp. apply elem_of_cons in Hp as [->|Hp]; [q_decide|].
    apply list_elem_of_singleton in Hp. subst p. q_decide.
  - eapply rtc_l; [apply (step_select _ _ soap); apply list_elem_of_here|].
    eapply rtc_l; [apply (step_qty _ _ 3)|].
    eapply rtc_l; [apply step_add|].
    eapply rtc_l; [apply (step_select _ _ soap); apply list_elem_of_here|].
    eapply rtc_l; [apply (step_qty _ _ 2)|].
    eapply rtc_l; [apply step_add|].
    apply rtc_refl.
Defined.

(** ** The remote-backed handlers, continued *)

Lemma fetchData_no_alert (st : App.AppState) (env : App.FetchEnv) (msg : string) :
  App.Alert msg ∉ snd (App.fetchData st env).
Proof.
  unfold App.fetchData.
  destruct (App.thrown (App.inv_resp env)); [|destruct (App.thrown (App.sales_resp env))];
    simpl; intros Hin;
    repeat (apply elem_of_cons in Hin as [Hin|Hin]; [discriminate|]);
    apply elem_of_nil in Hin; exact Hin.
Qed.

(** X7. [fetchData] always ends with [loading] off and never raises an
    alert.  If the inventory query fails, the sales query is not issued
    and both lists stay as they were; if the inventory query succeeds and
    the sales query fails, the fetched inventory is kept while the sales
    stay as they were; if both succeed with data, both lists are
    replaced. *)
Theorem X7_fetchData_outcomes (st : App.AppState) (env : App.FetchEnv) :
  App.loading (fst (App.fetchData st env)) = false
  /\ (forall msg, App.Alert msg ∉ snd (App.fetchData st env))
  /\ (App.thrown (App.inv_resp env) <> None ->
      App.inventory (fst (App.fetchData st env)) = App.inventory st
      /\ App.sales (fst (App.fetchData st env)) = App.sales st
      /\ snd (App.fetchData st env)
         = [App.SelectInventory; App.ConsoleError "Error fetching data:"])
  /\ (forall invData,
        App.inv_resp env = App.Resolved (Some invData) None ->
        App.thrown (App.sales_resp env) <> None ->
        App.inventory (fst (App.fetchData st env)) = invData
        /\ App.sales (fst (App.fetchData st env)) = App.sales st)
  /\ (forall invData salesData,
        App.inv_resp env = App.Resolved (Some invData) None ->
        App.sales_resp env = App.Resolved (Some salesData) None ->
        App.fetchData st env
        = (App.mkState invData salesData false,
           [App.SelectInventory; App.SelectSales])).
Proof.
  split; [|split; [|split; [|split]]].
  - unfold App.fetchData.
    destruct (App.thrown (App.inv_resp env));
      [|destruct (App.thrown (App.sales_resp env))]; reflexivity.
  - intros msg. apply fetchData_no_alert.
  - intros Hfail. unfold App.fetchData.
    destruct (App.thrown (App.inv_resp env)); [|congruence]. auto.
  - intros invData Hinv Hfail. unfold App.fetchData. rewrite Hinv. simpl.
    destruct (App.thrown (App.sales_resp env)); [|congruence]. auto.
  - intros invData salesData Hinv Hsales. unfold App.fetchData.
    rewrite Hinv, Hsales. reflexivity.
Qed.

Lemma X7_fetchData_outcomes_witness :
  App.inventory
    (fst (App.fetchData (app_state [soap])
            (App.mkFetchEnv (App.Resolved (Some [bread]) None) (App.Rejected "offline"))))
  = [bread]
  /\ App.inventory
       (fst (App.fetchData (app_state [soap])
               (App.mkFetchEnv (App.Rejected "offline") (App.Resolved (Some []) None))))
     = [soap].
Proof.
  split.
  - destruct (X7_fetchData_outcomes (app_state [soap])
                (App.mkFetchEnv (App.Resolved (Some [bread]) None)
                   (App.Rejected "offline")))
      as (_ & _ & _ & H & _).
    apply (H [bread] eq_refl). discriminate.
  - destruct (X7_fetchData_outcomes (app_state [soap])
                (App.mkFetchEnv (App.Rejected "offline")
                   (App.Resolved (Some []) None)))
      as (_ & _ & H & _).
    apply H. discriminate.
Defined.

Lemma recover_server_state (st : App.AppState) (label msg : string)
  (env : App.FetchEnv) (inv : list InventoryItem.t) (sales : list SaleRecord.t) :
  App.inv_resp env = App.Resolved (Some inv) None ->
  App.sales_resp env = App.Resolved (Some sales) None ->
  fst (App.recover st label msg env) = App.mkState inv sales false.
Proof.
  intros Hi Hs. unfold App.recover, App.fetchData. rewrite Hi, Hs. reflexivity.
Qed.

(** X8. Rollback.  When the remote write of a handler fails (the insert of
    an item, the update, the delete after confirmation, the insert of a
    sale or a rejected inventory update of a sale) and the refetch that
    follows succeeds, the handler ends in the state the server returned:
    nothing of the optimistic change is left. *)
Theorem X8_failed_write_ends_in_server_state (st : App.AppState)
  (inv : list InventoryItem.t) (sales : list SaleRecord.t) :
  (forall (env : App.WriteEnv) (item : InventoryItem.t) (id : string)
          (updates : InventoryPatch.t),
     App.thrown (App.write_resp env) <> None ->
     App.inv_resp (App.refetch env) = App.Resolved (Some inv) None ->
     App.sales_resp (App.refetch env) = App.Resolved (Some sales) None ->
     fst (App.handleAddItem st env item) = App.mkState inv sales false
     /\ fst (App.handleUpdateItem st env id updates) = App.mkState inv sales false
     /\ (App.confirmed env = true ->
         fst (App.handleDeleteItem st env id) = App.mkState inv sales false))
  /\ (forall (env : App.SaleEnv) (items : list SaleItem.t),
        snd (App.sale_try st env items) <> None ->
        App.inv_resp (App.sale_refetch env) = App.Resolved (Some inv) None ->
        App.sales_resp (App.sale_refetch env) = App.Resolved (Some sales) None ->
        fst (App.handleCompleteSale st env items) = App.mkState inv sales false).
Proof.
  split.
  - intros env item id updates Hfail Hi Hs. split; [|split].
    + unfold App.handleAddItem.
      destruct (App.thrown (App.write_resp env)); [|congruence].
      pose proof (recover_server_state
                    (App.mkState
                       (App.inventory st ++
                        [InventoryItem.mk (App.uuid env) (InventoryItem.name item)
                           (InventoryItem.category item) (InventoryItem.quantity item)
                           (InventoryItem.costPrice item) (InventoryItem.salesPrice item)
                           (InventoryItem.lowStockThreshold item) (App.now env)])
                       (App.sales st) (App.loading st))
                    "Error adding item:" "Failed to save item to database."
                    (App.refetch env) inv sales Hi Hs) as Hr.
      destruct (App.recover _ _ _ _) as [st2 evs]. exact Hr.
    + unfold App.handleUpdateItem.
      destruct (App.thrown (App.write_resp env)); [|congruence].
      match goal with
      | |- context [App.recover ?s ?l ?m ?e] =>
          pose proof (recover_server_state s l m e inv sales Hi Hs) as Hr;
          destruct (App.recover s l m e) as [st2 evs]
      end.
      exact Hr.
    + intros Hc. unfold App.handleDeleteItem. rewrite Hc.
      destruct (App.thrown (App.write_resp env)); [|congruence].
      match goal with
      | |- context [App.recover ?s ?l ?m ?e] =>
          pose proof (recover_server_state s l m e inv sales Hi Hs) as Hr;
          destruct (App.recover s l m e) as [st2 evs]
      end.
      exact Hr.
  - intros env items Hfail Hi Hs. unfold App.handleCompleteSale.
    destruct (App.sale_try st env items) as [evs [e|]]; [|simpl in Hfail; congruence].
    match goal with
    | |- context [App.recover ?s ?l ?m ?e] =>
        pose proof (recover_server_state s l m e inv sales Hi Hs) as Hr;
        destruct (App.recover s l m e) as [st2 rec_evs]
    end.
    exact Hr.
Qed.

Lemma X8_failed_write_ends_in_server_state_witness :
  fst (App.handleAddItem (app_state [soap]) (failing_write [soap]) bread)
  = App.mkState [soap] [] false
  /\ fst (App.handleCompleteSale (app_state [soap])
            (sale_env err_resp (fun _ => ok_resp) [soap]) [soap_line 1])
     = App.mkState [soap] [] false.
Proof.
  destruct (X8_failed_write_ends_in_server_state (app_state [soap]) [soap] [])
    as [H1 H2].
  split.
  - assert (Hfail : App.thrown (App.write_resp (failing_write [soap])) <> None)
      by discriminate.
    exact (proj1 (H1 (failing_write [soap]) bread "a" InventoryPatch.empty
                    Hfail eq_refl eq_refl)).
  - assert (Hfail : snd (App.sale_try (app_state [soap])
                           (sale_env err_resp (fun _ => ok_resp) [soap])
                           [soap_line 1]) <> None)
      by discriminate.
    exact (H2 (sale_env err_resp (fun _ => ok_resp) [soap]) [soap_line 1]
              Hfail eq_refl eq_refl).
Defined.

Lemma update_ids (inv : list InventoryItem.t) (id : string) (patch : InventoryPatch.t) :
  InventoryPatch.id patch = None ->
  InventoryItem.id
    <$> map (fun item =>
               if decide (InventoryItem.id item = id)
               then InventoryPatch.apply item patch else item) inv
  = InventoryItem.id <$> inv.
Proof.
  intros Hid. induction inv as [|x r IH]; [reflexivity|].
  simpl map. rewrite !fmap_cons, IH. f_equal.
  destruct (decide (InventoryItem.id x = id)); [|reflexivity].
  unfold InventoryPatch.apply. simpl. rewrite Hid. reflexivity.
Qed.

(** X9. Ids stay unique.  If no two inventory items share an id, this
    still holds after a successful [handleAddItem] whose generated id is
    not in use, after a successful [handleUpdateItem] whose patch does not
    set the id, after [handleDeleteItem] (declined, or confirmed and
    successful), and in the optimistic inventory of a sale. *)
Theorem X9_ids_stay_unique (st : App.AppState) :
  NoDup (InventoryItem.id <$> App.inventory st) ->
  (forall env item,
     App.thrown (App.write_resp env) = None ->
     App.uuid env ∉ (InventoryItem.id <$> App.inventory st) ->
     NoDup (InventoryItem.id <$> App.inventory (fst (App.handleAddItem st env item))))
  /\ (forall env id updates,
        App.thrown (App.write_resp env) = None ->
        InventoryPatch.id updates = None ->
        NoDup (InventoryItem.id
                 <$> App.inventory (fst (App.handleUpdateItem st env id updates))))
  /\ (forall env id,
        App.confirmed env = false \/ App.thrown (App.write_resp env) = None ->
        NoDup (InventoryItem.id <$> App.inventory (fst (App.handleDeleteItem st env id))))
  /\ (forall env items,
        NoDup (InventoryItem.id <$> App.inventory (App.optimistic_state st env items))).
Proof.
  intros Hnd. split; [|split; [|split]].
  - intros env item Hok Hfresh. unfold App.handleAddItem. rewrite Hok. simpl.
    rewrite fmap_app. apply NoDup_app. split; [exact Hnd|]. split.
    + intros x Hx Hx'. simpl in Hx'. apply list_elem_of_singleton in Hx'.
      subst x. exact (Hfresh Hx).
    + apply NoDup_singleton.
  - intros env id updates Hok Hid. unfold App.handleUpdateItem. rewrite Hok. simpl.
    rewrite update_ids by exact Hid. exact Hnd.
  - intros env id Hcase. unfold App.handleDeleteItem.
    destruct (App.confirmed env); [|exact Hnd].
    destruct Hcase as [Hc|Hok]; [discriminate|]. rewrite Hok. simpl.
    assert (Hsub : InventoryItem.id
                     <$> filter (fun item => InventoryItem.id item <> id)
                           (App.inventory st)
                   `sublist_of` InventoryItem.id <$> App.inventory st)
      by (apply fmap_sublist, sublist_filter).
    eauto using sublist_NoDup.
  - intros env items. simpl. rewrite forEach_decrement_ids. exact Hnd.
Qed.

Lemma X9_ids_stay_unique_witness :
  NoDup (InventoryItem.id
           <$> App.inventory
                 (fst (App.handleAddItem (app_state [soap])
                         (App.mkWriteEnv "b" "2024-03-01T09:00:00.000Z" true ok_resp
                            (fetch_ok [] []))
                         bread)))
  /\ NoDup (InventoryItem.id
              <$> App.inventory
                    (App.optimistic_state (app_state [soap; bread])
                       (sale_env ok_resp (fun _ => ok_resp) []) [soap_line 1])).
Proof.
  assert (H1 : NoDup (InventoryItem.id <$> App.inventory (app_state [soap])))
    by (apply (bool_decide_unpack _); vm_compute; exact I).
  assert (H2 : NoDup (InventoryItem.id <$> App.inventory (app_state [soap; bread])))
    by (apply (bool_decide_unpack _); vm_compute; exact I).
  split.
  - apply (X9_ids_stay_unique (app_state [soap]) H1); [reflexivity|].
    apply (bool_decide_unpack _). vm_compute. exact I.
  - apply (X9_ids_stay_unique (app_state [soap; bread]) H2).
Defined.

(** X10. A stock adjustment end to end.  When the modal holds an item and
    a text that [parseInt] reads as a number at least 0, submitting it
    closes the modal and asks for one update of that item; when the
    remote update succeeds, [handleUpdateItem] sets the quantity of every
    item with that id to the number and its lastUpdated to the current
    time, keeps the other fields, keeps every other item, and keeps all
    quantities non-negative if they were. *)
Theorem X10_stock_adjustment_end_to_end (modal : InventoryManager.State)
  (app : App.AppState) (env : App.WriteEnv) (item : InventoryItem.t) (n : Z) :
  InventoryManager.adjustItem modal = Some item ->
  Number.parseInt (InventoryManager.adjustQty modal) = Some n ->
  (0 <= n)%Z ->
  App.thrown (App.write_resp env) = None ->
  InventoryManager.handleStockAdjustment modal
  = (InventoryManager.closeAdjustModal,
     [InventoryManager.OnUpdate (InventoryItem.id item)
        (InventoryManager.quantity_patch n)])
  /\ (let inv' :=
        App.inventory
          (fst (App.handleUpdateItem app env (InventoryItem.id item)
                  (InventoryManager.quantity_patch n))) in
      length inv' = length (App.inventory app)
      /\ (forall k q,
            App.inventory app !! k = Some q ->
            inv' !! k
            = Some (if decide (InventoryItem.id q = InventoryItem.id item)
                    then InventoryItem.mk (InventoryItem.id q) (InventoryItem.name q)
                           (InventoryItem.category q) (inject_Z n)
                           (InventoryItem.costPrice q) (InventoryItem.salesPrice q)
                           (InventoryItem.lowStockThreshold q) (App.now env)
                    else q))
      /\ ((forall q, q ∈ App.inventory app -> (0 <= InventoryItem.quantity q)%Q) ->
          forall q', q' ∈ inv' -> (0 <= InventoryItem.quantity q')%Q)).
Proof.
  intros Hitem Hparse Hn Hok. split.
  - unfold InventoryManager.handleStockAdjustment. rewrite Hitem, Hparse.
    rewrite (proj2 (Z.leb_le 0 n) Hn). reflexivity.
  - cbn zeta. unfold App.handleUpdateItem. rewrite Hok. simpl.
    assert (Hlook : forall k q,
              App.inventory app !! k = Some q ->
              map (fun item0 =>
                     if decide (InventoryItem.id item0 = InventoryItem.id item)
                     then InventoryPatch.apply item0
                            (InventoryPatch.mk None None None (Some (inject_Z n))
                               None None None (Some (App.now env)))
                     else item0) (App.inventory app) !! k
              = Some (if decide (InventoryItem.id q = InventoryItem.id item)
                      then InventoryItem.mk (InventoryItem.id q) (InventoryItem.name q)
                             (InventoryItem.category q) (inject_Z n)
                             (InventoryItem.costPrice q) (InventoryItem.salesPrice q)
                             (InventoryItem.lowStockThreshold q) (App.now env)
                      else q)).
    { intros k q Hk.
      change (map ?g (App.inventory app)) with (g <$> App.inventory app).
      rewrite list_lookup_fmap, Hk. simpl.
      destruct (decide (InventoryItem.id q = InventoryItem.id item)); reflexivity. }
    split; [apply length_map|]. split; [exact Hlook|].
    intros Hnonneg q' Hq'. apply list_elem_of_lookup in Hq' as [k Hk].
    destruct (App.inventory app !! k) as [q|] eqn:Eq.
    + rewrite (Hlook k q Eq) in Hk. injection Hk as <-.
      destruct (decide (InventoryItem.id q = InventoryItem.id item)).
      * simpl. change 0%Q with (inject_Z 0). rewrite <- Zle_Qle. exact Hn.
      * apply Hnonneg. eapply list_elem_of_lookup_2. exact Eq.
    + apply lookup_lt_Some in Hk. rewrite length_map in Hk.
      apply lookup_ge_None in Eq. lia.
Qed.

Lemma X10_stock_adjustment_end_to_end_witness :
  InventoryManager.handleStockAdjustment
    (InventoryManager.mkState (Some soap) "12" true)
  = (InventoryManager.closeAdjustModal,
     [InventoryManager.OnUpdate "a" (InventoryManager.quantity_patch 12)])
  /\ length (App.inventory
               (fst (App.handleUpdateItem (app_state [soap; bread])
                       (App.mkWriteEnv "u" "2024-03-02T08:00:00.000Z" true ok_resp
                          (fetch_ok [] []))
                       "a" (InventoryManager.quantity_patch 12))))
     = 2%nat.
Proof.
  destruct (X10_stock_adjustment_end_to_end
              (InventoryManager.mkState (Some soap) "12" true)
              (app_state [soap; bread])
              (App.mkWriteEnv "u" "2024-03-02T08:00:00.000Z" true ok_resp
                 (fetch_ok [] []))
              soap 12 eq_refl eq_refl ltac:(lia) eq_refl) as [H1 [H2 _]].
  split; [exact H1|exact H2].
Defined.

(** X11. [handleDeleteItem]: when the user declines the confirmation
    nothing is changed and no remote call is made; when the user confirms
    and the remote delete succeeds, exactly the items with the given id
    are gone, the others stay in their order, the sales are untouched,
    and one delete is issued. *)
Theorem X11_delete_removes_only_that_id (st : App.AppState) (env : App.WriteEnv)
  (id : string) :
  (App.confirmed env = false ->
   App.handleDeleteItem st env id
   = (st, [App.Confirm "Are you sure you want to delete this item?"]))
  /\ (App.confirmed env = true ->
      App.thrown (App.write_resp env) = None ->
      let st' := fst (App.handleDeleteItem st env id) in
      (forall q, q ∈ App.inventory st' <-> q ∈ App.inventory st /\ InventoryItem.id q <> id)
      /\ App.inventory st' `sublist_of` App.inventory st
      /\ App.sales st' = App.sales st
      /\ snd (App.handleDeleteItem st env id)
         = [App.Confirm "Are you sure you want to delete this item?";
            App.DeleteInventory id]).
Proof.
  split.
  - intros Hc. unfold App.handleDeleteItem. rewrite Hc. reflexivity.
  - intros Hc Hok. cbn zeta. unfold App.handleDeleteItem. rewrite Hc, Hok. simpl.
    split; [|split; [apply sublist_filter|split; reflexivity]].
    intros q. rewrite list_elem_of_filter. tauto.
Qed.

Lemma X11_delete_removes_only_that_id_witness :
  App.handleDeleteItem (app_state [soap; bread])
    (App.mkWriteEnv "u" "2024-03-02T08:00:00.000Z" false ok_resp (fetch_ok [] [])) "a"
  = (app_state [soap; bread],
     [App.Confirm "Are you sure you want to delete this item?"])
  /\ App.inventory
       (fst (App.handleDeleteItem (app_state [soap; bread])
               (App.mkWriteEnv "u" "2024-03-02T08:00:00.000Z" true ok_resp
                  (fetch_ok [] [])) "a"))
     `sublist_of` [soap; bread].
Proof.
  split.
  - apply (X11_delete_removes_only_that_id (app_state [soap; bread])). reflexivity.
  - destruct (X11_delete_removes_only_that_id (app_state [soap; bread])
                (App.mkWriteEnv "u" "2024-03-02T08:00:00.000Z" true ok_resp
                   (fetch_ok [] [])) "a") as [_ H].
    exact (proj1 (proj2 (H eq_refl eq_refl))).
Defined.

Lemma matching_updates_mem (env : App.SaleEnv) (inv : list InventoryItem.t)
  (items : list SaleItem.t) :
  forall (j0 j : nat) (line : SaleItem.t) (k : nat) (p : InventoryItem.t),
    items !! j = Some line ->
    App.findIndex_id (SaleItem.itemId line) inv = Some (k, p) ->
    App.UpdateInventory (SaleItem.itemId line)
      (InventoryPatch.mk None None None
         (Some (InventoryItem.quantity p - SaleItem.quantity line)%Q)
         None None None (Some (App.update_time env (j0 + j))))
    ∈ matching_updates env inv j0 items.
Proof.
  induction items as [|x r IH]; intros j0 j line k p Hj Hfind.
  - rewrite lookup_nil in Hj. discriminate.
  - destruct j as [|j]; simpl in Hj.
    + injection Hj as ->. simpl. rewrite Hfind, Nat.add_0_r.
      apply list_elem_of_here.
    + simpl. replace (j0 + S j)%nat with (S j0 + j)%nat by lia.
      destruct (App.findIndex_id (SaleItem.itemId x) inv) as [[i cur]|].
      * apply list_elem_of_further. eapply IH; eassumption.
      * eapply IH; eassumption.
Qed.

Lemma sold_at_single (inv : list InventoryItem.t) (items : list SaleItem.t)
  (line : SaleItem.t) (k : nat) :
  NoDup (SaleItem.itemId <$> items) -> line ∈ items ->
  resolves_to inv line k = true ->
  (sold_at inv k items == SaleItem.quantity line)%Q.
Proof.
  intros Hnd Hin Hres. unfold sold_at.
  destruct (resolving_lines_unique inv k items Hnd) as [Hnil|(l & Hf & Hl & Hr)].
  - exfalso.
    assert (Hmem : In line (List.filter (fun l => resolves_to inv l k) items)).
    { apply List.filter_In. split; [apply list_elem_of_In; exact Hin|exact Hres]. }
    rewrite Hnil in Hmem. exact Hmem.
  - rewrite Hf. simpl.
    assert (l = line).
    { apply (fmap_eq_of_NoDup SaleItem.itemId items l line Hnd Hl Hin).
      unfold resolves_to in Hr, Hres.
      apply bool_decide_eq_true in Hr. apply bool_decide_eq_true in Hres.
      apply findIndex_id_index in Hr as [Hr _].
      apply findIndex_id_index in Hres as [Hres _]. congruence. }
    subst l. ring.
Qed.

(** X12. With one line per product the server is told what the screen
    shows: for every cart line that matches an inventory item, the
    quantity that sale completion sends to the remote store (the closed-over
    stock minus the line's quantity) equals the quantity of that item in
    the optimistic inventory, and when nothing fails that update is among
    the handler's events. *)
Theorem X12_remote_quantity_matches_optimistic (st : App.AppState)
  (env : App.SaleEnv) (items : list SaleItem.t) (j : nat) (line : SaleItem.t)
  (k : nat) (p : InventoryItem.t) :
  NoDup (SaleItem.itemId <$> items) ->
  items !! j = Some line ->
  App.findIndex_id (SaleItem.itemId line) (App.inventory st) = Some (k, p) ->
  let sent := (InventoryItem.quantity p - SaleItem.quantity line)%Q in
  (exists p',
     App.inventory (App.optimistic_state st env items) !! k = Some p'
     /\ (InventoryItem.quantity p' == sent)%Q)
  /\ (App.thrown (App.insert_resp env) = None ->
      (forall n, App.rejected (App.update_resp env n) = None) ->
      App.UpdateInventory (SaleItem.itemId line)
        (InventoryPatch.mk None None None (Some sent) None None None
           (Some (App.update_time env j)))
      ∈ snd (App.handleCompleteSale st env items)).
Proof.
  intros Hnd Hj Hfind. cbn zeta.
  pose proof (proj1 (findIndex_id_Some _ _ _ _) Hfind) as (Hk & _ & _).
  assert (Hres : resolves_to (App.inventory st) line k = true)
    by (apply resolves_to_true; eauto).
  assert (Hin : line ∈ items) by (eapply list_elem_of_lookup_2; exact Hj).
  split.
  - destruct (forEach_decrement_at env (App.inventory st) k items 0
                (App.inventory st) p eq_refl Hk)
      as (p' & Hp' & _ & _ & _ & _ & _ & _ & Hq & _).
    exists p'. split; [exact Hp'|].
    rewrite Hq, (sold_at_single _ _ _ _ Hnd Hin Hres). reflexivity.
  - intros Hins Hupd.
    rewrite (handleCompleteSale_update_errors_ignored st env items Hins Hupd).
    simpl. apply list_elem_of_further.
    exact (matching_updates_mem env (App.inventory st) items 0 j line k p Hj Hfind).
Qed.

Lemma X12_remote_quantity_matches_optimistic_witness :
  exists p',
    App.inventory
      (App.optimistic_state (app_state [soap; bread])
         (sale_env ok_resp (fun _ => ok_resp) []) [bread_line 1; soap_line 2])
      !! 0%nat = Some p'
    /\ (InventoryItem.quantity p' == 5 - 2)%Q.
Proof.
  assert (Hnd : NoDup (SaleItem.itemId <$> [bread_line 1; soap_line 2]))
    by (apply (bool_decide_unpack _); vm_compute; exact I).
  exact (proj1 (X12_remote_quantity_matches_optimistic
                  (app_state [soap; bread])
                  (sale_env ok_resp (fun _ => ok_resp) [])
                  [bread_line 1; soap_line 2] 1 (soap_line 2) 0 soap
                  Hnd eq_refl eq_refl)).
Defined.

Lemma reduce_sum_cons {A : Type} (f : A -> Q) (x : A) (l : list A) :
  (reduce_sum f (x :: l) == f x + reduce_sum f l)%Q.
Proof. rewrite !reduce_sum_Qsum. reflexivity. Qed.

(** X13. A completed sale shows in the report: with the sale at the head
    of the sales, [metrics] reports a total revenue higher by
    Σ quantity × priceAtSale, a gross profit and a net income higher by
    that amount minus Σ quantity × costAtSale, and the same total
    expenses. *)
Theorem X13_sale_raises_reported_revenue (app : App.AppState) (env : App.SaleEnv)
  (items : list SaleItem.t) (expenses : list ExpenseRecord.t)
  (inventory : list InventoryItem.t) :
  let before := FinancialReport.metrics (App.sales app) expenses inventory in
  let after :=
    FinancialReport.metrics (App.sales (App.optimistic_state app env items))
      expenses inventory in
  let amount :=
    Qsum (fun i => (SaleItem.quantity i * SaleItem.priceAtSale i)%Q) items in
  let cost :=
    Qsum (fun i => (SaleItem.quantity i * SaleItem.costAtSale i)%Q) items in
  (FinancialReport.totalRevenue after
   == FinancialReport.totalRevenue before + amount)%Q
  /\ (FinancialReport.totalGrossProfit after
      == FinancialReport.totalGrossProfit before + (amount - cost))%Q
  /\ (FinancialReport.netIncome after
      == FinancialReport.netIncome before + (amount - cost))%Q
  /\ (FinancialReport.totalExpenses after == FinancialReport.totalExpenses before)%Q.
Proof.
  cbn zeta. simpl.
  pose proof (reduce_sum_cons SaleRecord.totalAmount (App.newSale_of env items)
                (App.sales app)) as Hr.
  pose proof (reduce_sum_cons SaleRecord.totalProfit (App.newSale_of env items)
                (App.sales app)) as Hg.
  simpl in Hr, Hg.
  pose proof (reduce_sum_Qsum
                (fun i => (SaleItem.quantity i * SaleItem.priceAtSale i)%Q) items) as Ha.
  pose proof (reduce_sum_Qsum
                (fun i => (SaleItem.quantity i * SaleItem.costAtSale i)%Q) items) as Hc.
  unfold App.totalAmount_of, App.totalCost_of in Hr, Hg.
  split; [rewrite Hr, Ha; ring|].
  split; [rewrite Hg, Ha, Hc; ring|].
  split; [rewrite Hg, Ha, Hc; ring|reflexivity].
Qed.

(** ** The financial report, continued *)

Lemma ascii_compare_N (a b : ascii) :
  Ascii.compare a b = N.compare (N_of_ascii a) (N_of_ascii b).
Proof. reflexivity. Qed.

Lemma ascii_compare_trans (c : comparison) (x y z : ascii) :
  Ascii.compare x y = c -> Ascii.compare y z = c -> Ascii.compare x z = c.
Proof.
  rewrite !ascii_compare_N. intros H1 H2.
  destruct c.
  - apply N.compare_eq_iff in H1, H2. apply N.compare_eq_iff. congruence.
  - exact (N.lt_trans _ _ _ H1 H2).
  - rewrite N.compare_gt_iff in H1, H2 |- *. exact (N.lt_trans _ _ _ H2 H1).
Qed.

Lemma ascii_compare_eq (x y : ascii) : Ascii.compare x y = Eq -> x = y.
Proof.
  rewrite ascii_compare_N. intros H. apply N.compare_eq_iff in H.
  rewrite <- (ascii_N_embedding x), <- (ascii_N_embedding y), H. reflexivity.
Qed.

Lemma string_compare_lt_trans (a : string) :
  forall b c, String.compare a b = Lt -> String.compare b c = Lt ->
              String.compare a c = Lt.
Proof.
  induction a as [|x a IH]; intros [|y b] [|z c]; simpl; try congruence.
  destruct (Ascii.compare x y) eqn:Exy; try discriminate;
    destruct (Ascii.compare y z) eqn:Eyz; try discriminate; intros H1 H2.
  - rewrite (ascii_compare_trans Eq x y z Exy Eyz). eapply IH; eassumption.
  - apply ascii_compare_eq in Exy. subst y. rewrite Eyz. reflexivity.
  - apply ascii_compare_eq in Eyz. subst z. rewrite Exy. reflexivity.
  - rewrite (ascii_compare_trans Lt x y z Exy Eyz). reflexivity.
Qed.

Lemma string_le_trans (a b c : string) :
  string_le a b -> string_le b c -> string_le a c.
Proof.
  unfold string_le. intros H1 H2.
  destruct (String.compare a b) eqn:Eab; [|clear H1|congruence].
  - apply String.compare_eq_iff in Eab. subst b. exact H2.
  - destruct (String.compare b c) eqn:Ebc; [|clear H2|congruence].
    + apply String.compare_eq_iff in Ebc. subst c. rewrite Eab. discriminate.
    + rewrite (string_compare_lt_trans a b c Eab Ebc). discriminate.
Qed.

Lemma string_le_total (a b : string) : ~ string_le a b -> string_le b a.
Proof.
  unfold string_le. intros H.
  rewrite String.compare_antisym.
  destruct (String.compare a b); simpl; try discriminate.
  exfalso. apply H. discriminate.
Qed.

Lemma localeCompare_le (a b : string) :
  (JS.localeCompare a b <=? 0)%Z = true <-> string_le a b.
Proof.
  unfold JS.localeCompare, string_le.
  destruct (String.compare a b); split; intros H;
    first [reflexivity | discriminate | (exfalso; apply H; reflexivity)
          | (intros E; discriminate)].
Qed.

Lemma sort_insert_sorted_le {A : Type} (key : A -> string) (x : A) (l : list A) :
  StronglySorted (fun a b => string_le (key a) (key b)) l ->
  StronglySorted (fun a b => string_le (key a) (key b))
    (JS.sort_insert (fun a b => JS.localeCompare (key a) (key b)) x l).
Proof.
  induction 1 as [|y r Hr IH Hy]; simpl.
  - constructor; constructor.
  - destruct (JS.localeCompare (key x) (key y) <=? 0)%Z eqn:E.
    + apply localeCompare_le in E. constructor; [constructor; assumption|].
      constructor; [exact E|].
      eapply Forall_impl; [exact Hy|]. simpl. intros z Hz.
      eapply string_le_trans; eassumption.
    + assert (Hyx : string_le (key y) (key x)).
      { apply string_le_total. intros Hle. apply localeCompare_le in Hle. congruence. }
      constructor; [exact IH|].
      rewrite (sort_insert_perm _ x r). constructor; [exact Hyx|exact Hy].
Qed.

Lemma sort_sorted_le {A : Type} (key : A -> string) (l : list A) :
  StronglySorted (fun a b => string_le (key a) (key b))
    (JS.sort (fun a b => JS.localeCompare (key a) (key b)) l).
Proof.
  induction l as [|x r IH]; simpl; [constructor|].
  apply sort_insert_sorted_le. exact IH.
Qed.

Lemma chartData_dates_NoDup (fs : list SaleRecord.t) (fe : list ExpenseRecord.t) :
  NoDup (Bucket.date <$> FinancialReport.chartData fs fe).
Proof.
  destruct (map_ok_dataMap fs fe) as (Hnd & Hall & _).
  rewrite (chartData_perm fs fe), (bucket_dates _ _ _ Hall). exact Hnd.
Qed.

(** X14. The buckets of [chartData] come in strictly increasing order of
    their date (in the order of the code units, which is the calendar
    order on YYYY-MM-DD keys): an earlier bucket always has a smaller
    date than a later one. *)
Theorem X14_chartData_sorted_by_date (filteredSales : list SaleRecord.t)
  (filteredExpenses : list ExpenseRecord.t) (i j : nat) (a b : Bucket.t) :
  (i < j)%nat ->
  FinancialReport.chartData filteredSales filteredExpenses !! i = Some a ->
  FinancialReport.chartData filteredSales filteredExpenses !! j = Some b ->
  String.compare (Bucket.date a) (Bucket.date b) = Lt.
Proof.
  intros Hij Hi Hj.
  pose proof (StronglySorted_lookup _ _
                (sort_sorted_le Bucket.date
                   (JS.Map_values
                      (FinancialReport.dataMap_of filteredSales filteredExpenses)))
                i j a b Hij Hi Hj) as Hle.
  unfold string_le in Hle.
  destruct (String.compare (Bucket.date a) (Bucket.date b)) eqn:E;
    [|reflexivity|congruence].
  apply String.compare_eq_iff in E. exfalso.
  pose proof (chartData_dates_NoDup filteredSales filteredExpenses) as Hnd.
  assert (Hfi : (Bucket.date <$> FinancialReport.chartData filteredSales filteredExpenses)
                  !! i = Some (Bucket.date a))
    by (rewrite list_lookup_fmap, Hi; reflexivity).
  assert (Hfj : (Bucket.date <$> FinancialReport.chartData filteredSales filteredExpenses)
                  !! j = Some (Bucket.date a))
    by (rewrite list_lookup_fmap, Hj, E; reflexivity).
  pose proof (NoDup_lookup _ _ _ _ Hnd Hfi Hfj). lia.
Qed.

Lemma X14_chartData_sorted_by_date_witness :
  exists a b,
    FinancialReport.chartData [tuesday_sale; monday_sale] [monday_rent] !! 0%nat = Some a
    /\ FinancialReport.chartData [tuesday_sale; monday_sale] [monday_rent] !! 1%nat = Some b
    /\ Bucket.date a = "2024-03-04" /\ Bucket.date b = "2024-03-05"
    /\ String.compare (Bucket.date a) (Bucket.date b) = Lt.
Proof.
  eexists _, _. split; [reflexivity|]. split; [reflexivity|].
  split; [reflexivity|]. split; [reflexivity|].
  eapply (X14_chartData_sorted_by_date [tuesday_sale; monday_sale] [monday_rent]
            0 1); [lia|reflexivity|reflexivity].
Defined.

Lemma Map_alter_Forall_keep {V : Type} (P : string * V -> Prop) (f : V -> V)
  (k : string) (m : JS.Map V) :
  Forall P m -> (forall k' v, P (k', v) -> P (k', f v)) ->
  Forall P (JS.Map_alter f k m).
Proof.
  intros Hall Hf. induction Hall as [|[k' v] r Hv Hr IH]; simpl; [constructor|].
  destruct (decide (k' = k)); constructor; auto.
Qed.

Lemma ensure_has (key : string) (m : JS.Map Bucket.t) :
  key ∈ (FinancialReport.ensure key m).*1.
Proof.
  destruct (ensure_cases key m) as [[Hin ->]|[_ ->]]; [exact Hin|].
  rewrite fmap_app. apply elem_of_app. right. csimpl. apply list_elem_of_here.
Qed.

Lemma ledger_ok_ensure (key : string) (m : JS.Map Bucket.t)
  (ss : list SaleRecord.t) (es : list ExpenseRecord.t) :
  ledger_ok m ss es ->
  Forall (fun kv : string * Bucket.t =>
            (Bucket.netIncome kv.2
             == Bucket.grossProfit kv.2 - Bucket.expense kv.2)%Q)
    (FinancialReport.ensure key m)
  /\ (Qsum Bucket.discount (FinancialReport.ensure key m).*2
      == Qsum sale_discount ss)%Q
  /\ (forall k, k ∈ (FinancialReport.ensure key m).*1 ->
                k = key \/ k ∈ (sale_key <$> ss) \/ k ∈ (expense_key <$> es)).
Proof.
  intros (Hnet & Hdisc & Hkeys).
  destruct (ensure_cases key m) as [[Hin ->]|[_ ->]].
  - split; [exact Hnet|]. split; [exact Hdisc|]. intros k Hk. right. auto.
  - split; [|split].
    + apply Forall_app. split; [exact Hnet|]. constructor; [|constructor].
      simpl. ring.
    + rewrite fmap_app, Qsum_app. csimpl. rewrite Hdisc. simpl. ring.
    + intros k Hk. rewrite fmap_app in Hk. apply elem_of_app in Hk as [Hk|Hk].
      * right. auto.
      * left. csimpl in Hk. apply list_elem_of_singleton in Hk. exact Hk.
Qed.

Lemma ledger_ok_add_sale (m : JS.Map Bucket.t) (ss : list SaleRecord.t)
  (es : list ExpenseRecord.t) (s : SaleRecord.t) :
  ledger_ok m ss es -> ledger_ok (FinancialReport.add_sale m s) (ss ++ [s]) es.
Proof.
  intros Hok. unfold FinancialReport.add_sale. fold (sale_key s). fold (sale_discount s).
  destruct (ledger_ok_ensure (sale_key s) m ss es Hok) as (Hnet & Hdisc & Hkeys).
  split; [|split].
  - apply Map_alter_Forall_keep; [exact Hnet|].
    intros k' v Hv. simpl in *. rewrite Hv. ring.
  - rewrite (Map_alter_sum Bucket.discount _ (sale_discount s))
      by (first [apply ensure_has | intros; simpl; reflexivity]).
    rewrite Hdisc, Qsum_app. simpl. ring.
  - intros k Hk. rewrite Map_alter_keys in Hk. rewrite fmap_app, elem_of_app.
    destruct (Hkeys k Hk) as [->|[H|H]]; auto.
    left. right. csimpl. apply list_elem_of_here.
Qed.

Lemma ledger_ok_add_expense (m : JS.Map Bucket.t) (ss : list SaleRecord.t)
  (es : list ExpenseRecord.t) (e : ExpenseRecord.t) :
  ledger_ok m ss es -> ledger_ok (FinancialReport.add_expense m e) ss (es ++ [e]).
Proof.
  intros Hok. unfold FinancialReport.add_expense. fold (expense_key e).
  destruct (ledger_ok_ensure (expense_key e) m ss es Hok) as (Hnet & Hdisc & Hkeys).
  split; [|split].
  - apply Map_alter_Forall_keep; [exact Hnet|].
    intros k' v Hv. simpl in *. rewrite Hv. ring.
  - rewrite (Map_alter_sum_other Bucket.discount) by (intros; simpl; reflexivity).
    exact Hdisc.
  - intros k Hk. rewrite Map_alter_keys in Hk. rewrite fmap_app, elem_of_app.
    destruct (Hkeys k Hk) as [->|[H|H]]; auto.
    right. right. csimpl. apply list_elem_of_here.
Qed.

Lemma ledger_ok_dataMap (fs : list SaleRecord.t) (fe : list ExpenseRecord.t) :
  ledger_ok (FinancialReport.dataMap_of fs fe) fs fe.
Proof.
  unfold FinancialReport.dataMap_of.
  assert (Hs : forall l m ss es,
             ledger_ok m ss es ->
             ledger_ok (fold_left FinancialReport.add_sale l m) (ss ++ l) es).
  { induction l as [|s r IH]; intros m ss es Hok; simpl.
    - rewrite app_nil_r. exact Hok.
    - rewrite (cons_middle s ss r), app_assoc. apply IH.
      apply ledger_ok_add_sale. exact Hok. }
  assert (He : forall l m ss es,
             ledger_ok m ss es ->
             ledger_ok (fold_left FinancialReport.add_expense l m) ss (es ++ l)).
  { induction l as [|e r IH]; intros m ss es Hok; simpl.
    - rewrite app_nil_r. exact Hok.
    - rewrite (cons_middle e es r), app_assoc. apply IH.
      apply ledger_ok_add_expense. exact Hok. }
  apply (He fe _ fs []). apply (Hs fs [] [] []).
  split; [constructor|]. split; [reflexivity|].
  intros k Hk. apply elem_of_nil in Hk. destruct Hk.
Qed.

Lemma Qsum_minus {A : Type} (f g h : A -> Q) (l : list A) :
  Forall (fun x => (f x == g x - h x)%Q) l ->
  (Qsum f l == Qsum g l - Qsum h l)%Q.
Proof.
  induction 1 as [|x r Hx _ IH]; simpl; [ring|]. rewrite Hx, IH. ring.
Qed.

(** X15. In every bucket of [chartData] the net income is the gross profit
    minus the expense; over all buckets the net incomes add up to the
    [netIncome] of [metrics] and the discounts to its [totalDiscount]. *)
Theorem X15_net_income_and_discount_totals (filteredSales : list SaleRecord.t)
  (filteredExpenses : list ExpenseRecord.t) (inventory : list InventoryItem.t) :
  let buckets := FinancialReport.chartData filteredSales filteredExpenses in
  let m := FinancialReport.metrics filteredSales filteredExpenses inventory in
  Forall (fun b => (Bucket.netIncome b == Bucket.grossProfit b - Bucket.expense b)%Q)
    buckets
  /\ (Qsum Bucket.netIncome buckets == FinancialReport.netIncome m)%Q
  /\ (Qsum Bucket.discount buckets == FinancialReport.totalDiscount m)%Q.
Proof.
  cbn zeta.
  destruct (ledger_ok_dataMap filteredSales filteredExpenses) as (Hnet & Hdisc & _).
  destruct (map_ok_dataMap filteredSales filteredExpenses)
    as (_ & _ & _ & _ & _ & Hg & Hx).
  pose proof (chartData_perm filteredSales filteredExpenses) as Hperm.
  assert (Hnet' : Forall (fun b => (Bucket.netIncome b
                                    == Bucket.grossProfit b - Bucket.expense b)%Q)
                    (FinancialReport.dataMap_of filteredSales filteredExpenses).*2).
  { apply Forall_fmap. exact Hnet. }
  split; [rewrite Hperm; exact Hnet'|]. split.
  - rewrite (Qsum_perm _ _ _ Hperm), (Qsum_minus _ _ _ _ Hnet'), Hg, Hx. simpl.
    rewrite !reduce_sum_Qsum. reflexivity.
  - rewrite (Qsum_perm _ _ _ Hperm), Hdisc. simpl.
    symmetry. apply reduce_sum_Qsum.
Qed.

(** X16. The chart is sparse: [chartData] of no records is empty, and
    every bucket stands for a day on which at least one of the sales or
    expenses falls. *)
Theorem X16_no_bucket_without_a_record (filteredSales : list SaleRecord.t)
  (filteredExpenses : list ExpenseRecord.t) :
  FinancialReport.chartData [] [] = []
  /\ forall b,
       b ∈ FinancialReport.chartData filteredSales filteredExpenses ->
       (exists s, s ∈ filteredSales
                  /\ FinancialReport.getDateKey (SaleRecord.timestamp s) = Bucket.date b)
       \/ (exists e, e ∈ filteredExpenses
                     /\ FinancialReport.getDateKey (ExpenseRecord.date e) = Bucket.date b).
Proof.
  split; [reflexivity|]. intros b Hb.
  destruct (ledger_ok_dataMap filteredSales filteredExpenses) as (_ & _ & Hkeys).
  destruct (map_ok_dataMap filteredSales filteredExpenses) as (_ & Hall & _).
  rewrite (chartData_perm filteredSales filteredExpenses) in Hb.
  apply list_elem_of_fmap in Hb as ([k b'] & -> & Hin). simpl.
  pose proof (proj1 (Forall_forall _ _) Hall _ Hin) as (Hd & _). simpl in Hd.
  assert (Hk : k ∈ (FinancialReport.dataMap_of filteredSales filteredExpenses).*1)
    by (apply list_elem_of_fmap; exists (k, b'); auto).
  rewrite Hd.
  destruct (Hkeys k Hk) as [H|H]; apply list_elem_of_fmap in H as (r & -> & Hr);
    [left|right]; exists r; auto.
Qed.

Lemma X16_no_bucket_without_a_record_witness :
  exists b,
    b ∈ FinancialReport.chartData [tuesday_sale] [monday_rent]
    /\ Bucket.date b = "2024-03-04"
    /\ ((exists s, s ∈ [tuesday_sale]
                   /\ FinancialReport.getDateKey (SaleRecord.timestamp s) = Bucket.date b)
        \/ (exists e, e ∈ [monday_rent]
                      /\ FinancialReport.getDateKey (ExpenseRecord.date e) = Bucket.date b)).
Proof.
  eexists. split; [apply list_elem_of_here|]. split; [reflexivity|].
  apply (X16_no_bucket_without_a_record [tuesday_sale] [monday_rent]).
  apply list_elem_of_here.
Defined.

(** X17. With a positive total revenue the three margins are consistent:
    the net margin is the gross margin minus the expense ratio, and the
    cost of goods sold plus the gross profit is the revenue. *)
Theorem X17_margins_are_consistent (filteredSales : list SaleRecord.t)
  (filteredExpenses : list ExpenseRecord.t) (inventory : list InventoryItem.t) :
  let m := FinancialReport.metrics filteredSales filteredExpenses inventory in
  (0 < FinancialReport.totalRevenue m)%Q ->
  (exists g n e,
     FinancialReport.grossMargin m = Some g
     /\ FinancialReport.netMargin m = Some n
     /\ FinancialReport.expenseRatio m = Some e
     /\ (n == g - e)%Q)
  /\ (FinancialReport.totalCOGS m + FinancialReport.totalGrossProfit m
      == FinancialReport.totalRevenue m)%Q.
Proof.
  cbn zeta. simpl. intros Hpos. split.
  - rewrite !(percent_of_pos _ _ Hpos).
    eexists _, _, _. repeat (split; [reflexivity|]).
    field. intros Hz. rewrite Hz in Hpos. exact (Qlt_irrefl 0 Hpos).
  - ring.
Qed.

Lemma X17_margins_are_consistent_witness :
  exists g n e,
    FinancialReport.grossMargin (FinancialReport.metrics [march_sale] [march_rent] [])
    = Some g
    /\ FinancialReport.netMargin (FinancialReport.metrics [march_sale] [march_rent] [])
       = Some n
    /\ FinancialReport.expenseRatio (FinancialReport.metrics [march_sale] [march_rent] [])
       = Some e
    /\ (n == g - e)%Q.
Proof.
  apply (X17_margins_are_consistent [march_sale] [march_rent] []). reflexivity.
Defined.

(** ** The expenses view, continued *)

Lemma includes_empty (s : string) : ExpensesManager.includes s EmptyString = true.
Proof. destruct s; reflexivity. Qed.

Lemma elem_of_sort {A : Type} (cmp : A -> A -> Z) (l : list A) (x : A) :
  x ∈ JS.sort cmp l <-> x ∈ l.
Proof. rewrite (sort_perm cmp l). reflexivity. Qed.

Lemma elem_of_List_filter {A : Type} (f : A -> bool) (l : list A) (x : A) :
  x ∈ List.filter f l <-> x ∈ l /\ f x = true.
Proof. rewrite !list_elem_of_In. apply List.filter_In. Qed.

Lemma List_filter_all {A : Type} (f : A -> bool) (l : list A) :
  (forall x, f x = true) -> List.filter f l = l.
Proof.
  intros Hf. induction l as [|x r IH]; simpl; [reflexivity|].
  rewrite Hf, IH. reflexivity.
Qed.

Lemma truthy_true (s : string) : ExpensesManager.truthy s = true <-> s <> EmptyString.
Proof. destruct s; simpl; split; intros H; congruence. Qed.

(** X18. The expense list shows exactly the expenses that pass the
    filters: an expense is listed if and only if it is among the expenses
    and matches; a listed expense has the selected category (unless All is
    selected) and a date between the start and end dates that are set;
    and with no filter set the list is a rearrangement of all
    expenses. *)
Theorem X18_filteredExpenses_exact (getTime : string -> Z)
  (f : ExpensesManager.Filters) (expenses : list ExpenseRecord.t) :
  let filtered := ExpensesManager.filteredExpenses getTime f expenses in
  (forall e, e ∈ filtered <-> e ∈ expenses /\ ExpensesManager.matches getTime f e = true)
  /\ (forall e, e ∈ filtered ->
        (ExpensesManager.selectedCategory f = "All"
         \/ ExpenseRecord.category e = ExpensesManager.selectedCategory f)
        /\ (ExpensesManager.startDate f <> EmptyString ->
            (getTime (ExpensesManager.startDate f) <= getTime (ExpenseRecord.date e))%Z)
        /\ (ExpensesManager.endDate f <> EmptyString ->
            (getTime (ExpenseRecord.date e) <= getTime (ExpensesManager.endDate f))%Z))
  /\ (ExpensesManager.searchTerm f = EmptyString ->
      ExpensesManager.selectedCategory f = "All" ->
      ExpensesManager.startDate f = EmptyString ->
      ExpensesManager.endDate f = EmptyString ->
      filtered ≡ₚ expenses).
Proof.
  cbn zeta. unfold ExpensesManager.filteredExpenses.
  split; [|split].
  - intros e. rewrite elem_of_sort, elem_of_List_filter. reflexivity.
  - intros e He. rewrite elem_of_sort, elem_of_List_filter in He.
    destruct He as [_ Hm]. unfold ExpensesManager.matches in Hm.
    apply andb_prop in Hm as [Hm Hdate]. apply andb_prop in Hm as [_ Hcat].
    split; [|split].
    + apply orb_prop in Hcat as [H|H]; apply String.eqb_eq in H; auto.
    + intros Hs. apply truthy_true in Hs. rewrite Hs in Hdate.
      destruct (ExpensesManager.truthy (ExpensesManager.endDate f));
        [apply andb_prop in Hdate as [Hdate _]|];
        simpl in Hdate; apply Z.leb_le in Hdate; exact Hdate.
    + intros He'. apply truthy_true in He'. rewrite He' in Hdate.
      apply andb_prop in Hdate as [_ Hdate]. apply Z.leb_le in Hdate. exact Hdate.
  - intros Hs Hc Hsd Hed. rewrite sort_perm.
    rewrite List_filter_all; [reflexivity|].
    intros e. unfold ExpensesManager.matches. rewrite Hs, Hc, Hsd, Hed. simpl.
    rewrite includes_empty. reflexivity.
Qed.

Lemma X18_filteredExpenses_exact_witness :
  tuesday_bulbs
    ∈ ExpensesManager.filteredExpenses day_of_month
        (ExpensesManager.mkFilters EmptyString "2024-03-05" EmptyString "Supplies")
        [monday_rent; tuesday_bulbs]
  /\ ExpensesManager.filteredExpenses day_of_month no_filter [monday_rent; tuesday_bulbs]
     ≡ₚ [monday_rent; tuesday_bulbs].
Proof.
  split.
  - apply (X18_filteredExpenses_exact day_of_month
             (ExpensesManager.mkFilters EmptyString "2024-03-05" EmptyString "Supplies")
             [monday_rent; tuesday_bulbs]).
    split; [apply list_elem_of_further, list_elem_of_here|reflexivity].
  - apply (X18_filteredExpenses_exact day_of_month no_filter
             [monday_rent; tuesday_bulbs]); reflexivity.
Defined.

Lemma Map_get_alter_const {V : Type} (k k' : string) (v : V) (m : JS.Map V) :
  k ∈ m.*1 ->
  JS.Map_get k' (JS.Map_alter (fun _ => v) k m)
  = if decide (k = k') then Some v else JS.Map_get k' m.
Proof.
  induction m as [|[k0 v0] r IH]; intros Hin.
  - apply elem_of_nil in Hin. destruct Hin.
  - simpl. destruct (decide (k0 = k)) as [->|Hne]; simpl.
    + destruct (decide (k = k')); reflexivity.
    + rewrite fmap_cons in Hin. apply elem_of_cons in Hin as [Heq|Hin];
        [simpl in Heq; congruence|].
      rewrite (IH Hin).
      destruct (decide (k0 = k')) as [->|]; [|reflexivity].
      destruct (decide (k = k')); [congruence|reflexivity].
Qed.

Lemma Map_get_app_new {V : Type} (k k' : string) (v : V) (m : JS.Map V) :
  k ∉ m.*1 ->
  JS.Map_get k' (m ++ [(k, v)])
  = if decide (k = k') then Some v else JS.Map_get k' m.
Proof.
  induction m as [|[k0 v0] r IH]; intros Hout; simpl.
  - destruct (decide (k = k')); reflexivity.
  - rewrite fmap_cons in Hout. apply not_elem_of_cons in Hout as [Hne Hout].
    simpl in Hne. rewrite (IH Hout).
    destruct (decide (k0 = k')) as [->|]; [|reflexivity].
    destruct (decide (k = k')); [congruence|reflexivity].
Qed.

Lemma Map_set_cases {V : Type} (k : string) (v : V) (m : JS.Map V) :
  (k ∈ m.*1 /\ JS.Map_set k v m = JS.Map_alter (fun _ => v) k m)
  \/ ((k ∉ m.*1) /\ JS.Map_set k v m = m ++ [(k, v)]).
Proof.
  unfold JS.Map_set, JS.Map_has.
  destruct (bool_decide (k ∈ m.*1)) eqn:E.
  - left. apply bool_decide_eq_true in E. auto.
  - right. apply bool_decide_eq_false in E. auto.
Qed.

Lemma Map_get_set {V : Type} (k k' : string) (v : V) (m : JS.Map V) :
  JS.Map_get k' (JS.Map_set k v m)
  = if decide (k = k') then Some v else JS.Map_get k' m.
Proof.
  destruct (Map_set_cases k v m) as [[Hin ->]|[Hout ->]].
  - apply Map_get_alter_const. exact Hin.
  - apply Map_get_app_new. exact Hout.
Qed.

Lemma expenses_of_category_app (c : string) (l1 l2 : list ExpenseRecord.t) :
  expenses_of_category c (l1 ++ l2)
  = expenses_of_category c l1 ++ expenses_of_category c l2.
Proof. unfold expenses_of_category. apply List.filter_app. Qed.

Lemma totals_ok_add (data : JS.Map Q) (l : list ExpenseRecord.t)
  (e : ExpenseRecord.t) :
  totals_ok data l -> totals_ok (ExpensesManager.add_to_category data e) (l ++ [e]).
Proof.
  intros (Hnd & Hkeys & Hval). unfold ExpensesManager.add_to_category.
  set (c := ExpenseRecord.category e).
  set (v := (default 0%Q (JS.Map_get c data) + ExpenseRecord.amount e)%Q).
  split; [|split].
  - destruct (Map_set_cases c v data) as [[Hin ->]|[Hout ->]].
    + rewrite Map_alter_keys. exact Hnd.
    + rewrite fmap_app. apply NoDup_app. split; [exact Hnd|]. split.
      * intros x Hx Hx'. csimpl in Hx'. apply list_elem_of_singleton in Hx'.
        subst x. exact (Hout Hx).
      * apply NoDup_singleton.
  - intros k. rewrite fmap_app, elem_of_app. csimpl.
    rewrite list_elem_of_singleton. fold c.
    destruct (Map_set_cases c v data) as [[Hin ->]|[Hout ->]].
    + rewrite Map_alter_keys, Hkeys. split; [auto|].
      intros [H | ->]; [exact H|]. apply Hkeys. exact Hin.
    + rewrite fmap_app, elem_of_app. csimpl. rewrite list_elem_of_singleton, Hkeys.
      reflexivity.
  - intros k. rewrite Map_get_set, expenses_of_category_app, Qsum_app.
    unfold expenses_of_category at 2. simpl. fold c.
    destruct (decide (c = k)) as [->|Hne].
    + rewrite bool_decide_eq_true_2 by reflexivity. simpl. unfold v.
      rewrite Hval. ring.
    + rewrite bool_decide_eq_false_2 by exact Hne. simpl. rewrite Hval. ring.
Qed.

Lemma totals_ok_fold (l : list ExpenseRecord.t) :
  totals_ok (fold_left ExpensesManager.add_to_category l []) l.
Proof.
  assert (H : forall r data done,
             totals_ok data done ->
             totals_ok (fold_left ExpensesManager.add_to_category r data) (done ++ r)).
  { induction r as [|e r IH]; intros data done Hok; simpl.
    - rewrite app_nil_r. exact Hok.
    - rewrite (cons_middle e done r), app_assoc. apply IH.
      apply totals_ok_add. exact Hok. }
  apply (H l [] []).
  split; [constructor|]. split; [reflexivity|]. intros k. reflexivity.
Qed.

Lemma Qsum_indicator (c : string) (a : Q) (keys : list string) :
  NoDup keys -> c ∈ keys ->
  (Qsum (fun k => if bool_decide (c = k) then a else 0) keys == a)%Q.
Proof.
  induction keys as [|k r IH]; intros Hnd Hin.
  - apply elem_of_nil in Hin. destruct Hin.
  - apply NoDup_cons in Hnd as [Hk Hr]. simpl.
    destruct (decide (c = k)) as [->|Hne].
    + rewrite bool_decide_eq_true_2 by reflexivity.
      assert (Hz : (Qsum (fun k' => if bool_decide (k = k') then a else 0) r == 0)%Q).
      { clear IH Hin Hr. induction r as [|k' r IHr]; simpl; [reflexivity|].
        apply not_elem_of_cons in Hk as [Hne Hk].
        rewrite bool_decide_eq_false_2 by exact Hne. rewrite (IHr Hk). ring. }
      rewrite Hz. ring.
    + rewrite bool_decide_eq_false_2 by exact Hne.
      apply elem_of_cons in Hin as [Heq|Hin]; [congruence|].
      rewrite (IH Hr Hin). ring.
Qed.

Lemma Qsum_by_category (keys : list string) (l : list ExpenseRecord.t) :
  NoDup keys ->
  (forall e, e ∈ l -> ExpenseRecord.category e ∈ keys) ->
  (Qsum (fun k => Qsum ExpenseRecord.amount (expenses_of_category k l)) keys
   == Qsum ExpenseRecord.amount l)%Q.
Proof.
  intros Hnd. induction l as [|e r IH]; intros Hcov.
  - simpl. clear Hnd Hcov. induction keys as [|k ks IHk]; simpl; [reflexivity|].
    rewrite IHk. reflexivity.
  - assert (Hsplit : forall ks,
              (Qsum (fun k => Qsum ExpenseRecord.amount (expenses_of_category k (e :: r))) ks
               == Qsum (fun k => if bool_decide (ExpenseRecord.category e = k)
                                 then ExpenseRecord.amount e else 0) ks
                  + Qsum (fun k => Qsum ExpenseRecord.amount (expenses_of_category k r)) ks)%Q).
    { induction ks as [|k ks IHk]; simpl; [ring|].
      rewrite IHk. unfold expenses_of_category at 1. simpl.
      destruct (bool_decide (ExpenseRecord.category e = k)); simpl;
        unfold expenses_of_category; ring. }
    rewrite Hsplit.
    rewrite (Qsum_indicator _ _ _ Hnd (Hcov e (list_elem_of_here _ _))).
    rewrite IH by (intros e' He'; apply Hcov, list_elem_of_further, He').
    simpl. ring.
Qed.

(** X19. The category chart adds up.  Whatever order the platform lists
    the keys in (any rearrangement), [categoryData] has one entry per
    category of the filtered expenses and no other, no category twice,
    each entry's value is the sum of the amounts of its category, and the
    values add up to [totalExpenses]. *)
Theorem X19_categoryData_partitions_expenses
  (propertyOrder : list string -> list string)
  (filtered : list ExpenseRecord.t) :
  (forall keys, propertyOrder keys ≡ₚ keys) ->
  let entries := ExpensesManager.categoryData propertyOrder filtered in
  NoDup (ExpensesManager.name <$> entries)
  /\ (forall c, c ∈ (ExpensesManager.name <$> entries)
                <-> c ∈ (ExpenseRecord.category <$> filtered))
  /\ (forall entry, entry ∈ entries ->
        (ExpensesManager.value entry
         == Qsum ExpenseRecord.amount
              (expenses_of_category (ExpensesManager.name entry) filtered))%Q)
  /\ (Qsum ExpensesManager.value entries == ExpensesManager.totalExpenses filtered)%Q.
Proof.
  intros Hperm. cbn zeta. unfold ExpensesManager.categoryData.
  destruct (totals_ok_fold filtered) as (Hnd & Hkeys & Hval).
  set (data := fold_left ExpensesManager.add_to_category filtered []) in *.
  change (map ?g (propertyOrder data.*1)) with (g <$> propertyOrder data.*1).
  assert (Hnames : ExpensesManager.name
                     <$> ((fun key =>
                             ExpensesManager.mkEntry key
                               (default 0%Q (JS.Map_get key data)))
                            <$> propertyOrder data.*1)
                   = propertyOrder data.*1).
  { rewrite <- list_fmap_compose. apply list_fmap_id. }
  rewrite Hnames.
  split; [rewrite Hperm; exact Hnd|].
  split; [intros c; rewrite Hperm; apply Hkeys|].
  split.
  - intros entry Hin. apply list_elem_of_fmap in Hin as (k & -> & _). simpl.
    apply Hval.
  - unfold ExpensesManager.totalExpenses. rewrite reduce_sum_Qsum.
    rewrite <- (Qsum_by_category data.*1 filtered Hnd).
    + rewrite <- (Qsum_perm _ _ _ (Hperm data.*1)).
      generalize (propertyOrder data.*1). intros ks.
      induction ks as [|k ks IH]; csimpl; [reflexivity|].
      rewrite IH, Hval. reflexivity.
    + intros e He. apply Hkeys. apply list_elem_of_fmap. exists e. auto.
Qed.

Lemma X19_categoryData_partitions_expenses_witness :
  (Qsum ExpensesManager.value
     (ExpensesManager.categoryData (fun keys => keys) [monday_rent; tuesday_bulbs; march_rent])
   == ExpensesManager.totalExpenses [monday_rent; tuesday_bulbs; march_rent])%Q
  /\ NoDup (ExpensesManager.name
              <$> ExpensesManager.categoryData (fun keys => keys)
                    [monday_rent; tuesday_bulbs; march_rent]).
Proof.
  destruct (X19_categoryData_partitions_expenses (fun keys => keys)
              [monday_rent; tuesday_bulbs; march_rent])
    as (H1 & _ & _ & H4).
  - intros keys. reflexivity.
  - split; [exact H4|exact H1].
Defined.

Lemma top_fold (rest : list ExpensesManager.CategoryEntry) :
  forall first,
    let top :=
      fold_left
        (fun prev current =>
           if Qgtb (ExpensesManager.value prev) (ExpensesManager.value current)
           then prev else current)
        rest first in
    top ∈ first :: rest
    /\ (ExpensesManager.value first <= ExpensesManager.value top)%Q
    /\ forall x, x ∈ rest ->
                 (ExpensesManager.value x <= ExpensesManager.value top)%Q.
Proof.
  induction rest as [|cur rest IH]; intros first; cbn zeta; simpl.
  - split; [apply list_elem_of_here|]. split; [apply Qle_refl|].
    intros x Hx. apply elem_of_nil in Hx. destruct Hx.
  - destruct (Qgtb (ExpensesManager.value first) (ExpensesManager.value cur)) eqn:E.
    + apply Qgtb_true in E. destruct (IH first) as (Hin & Hfirst & Hrest).
      split.
      { apply elem_of_cons in Hin as [->|Hin]; [apply list_elem_of_here|].
        do 2 apply list_elem_of_further. exact Hin. }
      split; [exact Hfirst|].
      intros x Hx. apply elem_of_cons in Hx as [->|Hx]; [|apply Hrest, Hx]. lra.
    + apply Qgtb_false in E. destruct (IH cur) as (Hin & Hcur & Hrest).
      split; [apply list_elem_of_further; exact Hin|].
      split; [lra|].
      intros x Hx. apply elem_of_cons in Hx as [->|Hx]; [exact Hcur|apply Hrest, Hx].
Qed.

(** X20. [topCategory] is N/A for an empty chart; otherwise it is the name
    of an entry of the chart whose value no other entry exceeds. *)
Theorem X20_topCategory_is_a_maximum (entries : list ExpensesManager.CategoryEntry) :
  ExpensesManager.topCategory [] = "N/A"
  /\ (entries <> [] ->
      exists top,
        top ∈ entries
        /\ ExpensesManager.topCategory entries = ExpensesManager.name top
        /\ forall x, x ∈ entries ->
                     (ExpensesManager.value x <= ExpensesManager.value top)%Q).
Proof.
  split; [reflexivity|]. intros Hne.
  destruct entries as [|first rest]; [congruence|].
  destruct (top_fold rest first) as (Hin & Hfirst & Hrest).
  eexists. split; [exact Hin|]. split; [reflexivity|].
  intros x Hx. apply elem_of_cons in Hx as [->|Hx]; [exact Hfirst|apply Hrest, Hx].
Qed.

Lemma X20_topCategory_is_a_maximum_witness :
  exists top,
    top ∈ ExpensesManager.categoryData (fun keys => keys)
            [monday_rent; tuesday_bulbs; march_rent]
    /\ ExpensesManager.topCategory
         (ExpensesManager.categoryData (fun keys => keys)
            [monday_rent; tuesday_bulbs; march_rent])
       = ExpensesManager.name top
    /\ ExpensesManager.name top = "Rent".
Proof.
  destruct (X20_topCategory_is_a_maximum
              (ExpensesManager.categoryData (fun keys => keys)
                 [monday_rent; tuesday_bulbs; march_rent])) as [_ H].
  destruct H as (top & Hin & Htop & _); [discriminate|].
  exists top. split; [exact Hin|]. split; [exact Htop|].
  rewrite <- Htop. reflexivity.
Defined.

(** X21. The average expense never divides by zero: it is 0 for an empty
    list, and for a list that is not empty it is a number that, times
    the number of expenses, gives [totalExpenses]. *)
Theorem X21_avgExpense_guarded (filtered : list ExpenseRecord.t) :
  ExpensesManager.avgExpense [] = Some 0%Q
  /\ ExpensesManager.avgExpense filtered <> None
  /\ (filtered <> [] ->
      exists avg,
        ExpensesManager.avgExpense filtered = Some avg
        /\ (avg * inject_Z (Z.of_nat (length filtered))
            == ExpensesManager.totalExpenses filtered)%Q).
Proof.
  split; [reflexivity|].
  assert (Hne : filtered <> [] ->
                exists avg,
                  ExpensesManager.avgExpense filtered = Some avg
                  /\ (avg * inject_Z (Z.of_nat (length filtered))
                      == ExpensesManager.totalExpenses filtered)%Q).
  { intros Hne. destruct filtered as [|e r]; [congruence|].
    unfold ExpensesManager.avgExpense, Number.div.
    assert (Hpos : (0 < inject_Z (Z.of_nat (length (e :: r))))%Q).
    { change 0%Q with (inject_Z 0). rewrite <- Zlt_Qlt. simpl length. lia. }
    destruct (Qeq_bool (inject_Z (Z.of_nat (length (e :: r)))) 0) eqn:E.
    - apply Qeq_bool_eq in E. rewrite E in Hpos. exfalso. exact (Qlt_irrefl 0 Hpos).
    - simpl Nat.ltb. cbv iota. eexists. split; [reflexivity|].
      field. intros Hz. rewrite Hz in Hpos. exact (Qlt_irrefl 0 Hpos). }
  split; [|exact Hne].
  destruct filtered as [|e r]; [discriminate|].
  destruct Hne as (avg & -> & _); discriminate.
Qed.

Lemma X21_avgExpense_guarded_witness :
  exists avg,
    ExpensesManager.avgExpense [monday_rent; march_rent] = Some avg
    /\ (avg * inject_Z (Z.of_nat (length [monday_rent; march_rent]))
        == ExpensesManager.totalExpenses [monday_rent; march_rent])%Q.
Proof.
  apply (X21_avgExpense_guarded [monday_rent; march_rent]). discriminate.
Defined.

(** ** Reading numbers back *)

Lemma parse_digits_acc (d : Decimal.uint) :
  forall acc : positive,
    Number.parse_digits 10 (NilEmpty.string_of_uint d) (Some (Z.pos acc))
    = Some (Z.pos (Pos.of_uint_acc d acc)).
Proof.
  induction d as [|d IH|d IH|d IH|d IH|d IH|d IH|d IH|d IH|d IH|d IH];
    intros acc; [reflexivity|..];
    cbn [NilEmpty.string_of_uint Number.parse_digits Pos.of_uint_acc];
    match goal with
    | |- context [Number.digit_value ?c] =>
        let v := eval vm_compute in (Number.digit_value c) in
        change (Number.digit_value c) with v
    end;
    cbv iota beta;
    match goal with
    | |- context [(?k <? 10)%Z] => change (k <? 10)%Z with true
    end;
    cbv iota; cbn [default];
    rewrite <- IH; f_equal; f_equal; unfold id; lia.
Qed.

Lemma parse_digits_zero (d : Decimal.uint) :
  Number.parse_digits 10 (NilEmpty.string_of_uint d) (Some 0%Z)
  = Some (Z.of_N (Pos.of_uint d)).
Proof.
  induction d as [|d IH|d|d|d|d|d|d|d|d|d]; [reflexivity|exact IH|..];
    cbn [NilEmpty.string_of_uint Number.parse_digits Pos.of_uint];
    match goal with
    | |- context [Number.digit_value ?c] =>
        let v := eval vm_compute in (Number.digit_value c) in
        change (Number.digit_value c) with v
    end;
    cbv iota beta;
    match goal with
    | |- context [(?k <? 10)%Z] => change (k <? 10)%Z with true
    end;
    cbv iota; cbn [default Z.of_N];
    rewrite <- parse_digits_acc; reflexivity.
Qed.

Lemma parse_digits_start (d : Decimal.uint) :
  d <> Decimal.Nil ->
  Number.parse_digits 10 (NilEmpty.string_of_uint d) None
  = Number.parse_digits 10 (NilEmpty.string_of_uint d) (Some 0%Z).
Proof. destruct d; [congruence|..]; intros _; reflexivity. Qed.

Lemma parseInt_digits (d : Decimal.uint) :
  d <> Decimal.Nil ->
  Number.parseInt (NilEmpty.string_of_uint d)
  = Number.parse_digits 10 (NilEmpty.string_of_uint d) None.
Proof.
  destruct d as [|l|l|l|l|l|l|l|l|l|l]; [congruence|..]; intros _;
    try reflexivity.
  destruct l; reflexivity.
Qed.

(** [parseInt] reads the decimal numeral of a non-negative integer back. *)
Lemma parseInt_decimal (n : Z) :
  (0 <= n)%Z -> Number.parseInt (ExpensesManager.decimal n) = Some n.
Proof.
  intros Hn. unfold ExpensesManager.decimal, NilZero.string_of_uint.
  pose proof (DecimalN.Unsigned.of_to (Z.to_N n)) as Hback.
  destruct (N.to_uint (Z.to_N n)) as [|l|l|l|l|l|l|l|l|l|l] eqn:E.
  1: { simpl in Hback. assert (n = 0%Z) by lia. subst n. reflexivity. }
  all: rewrite parseInt_digits by discriminate;
       rewrite parse_digits_start by discriminate;
       rewrite parse_digits_zero;
       unfold N.of_uint in Hback; rewrite Hback; f_equal; lia.
Qed.

(** X22. Opening the stock modal on a quantity and submitting it unchanged
    asks for that same quantity: for a non-negative integer [n], the
    modal opened with the decimal numeral of [n] submits one update of
    the item with quantity [n] and closes; and typing that numeral into
    the terminal's quantity box sets the entered quantity to [n]. *)
Theorem X22_numeral_round_trip (item : InventoryItem.t) (n : Z)
  (st : SalesTerminal.State) :
  (0 <= n)%Z ->
  Number.parseInt (ExpensesManager.decimal n) = Some n
  /\ InventoryManager.handleStockAdjustment
       (InventoryManager.openAdjustModal item (ExpensesManager.decimal n))
     = (InventoryManager.closeAdjustModal,
        [InventoryManager.OnUpdate (InventoryItem.id item)
           (InventoryManager.quantity_patch n)])
  /\ SalesTerminal.qtyInput
       (SalesTerminalView.changeQty st (ExpensesManager.decimal n))
     = inject_Z n.
Proof.
  intros Hn. pose proof (parseInt_decimal n Hn) as Hp.
  split; [exact Hp|]. split.
  - unfold InventoryManager.handleStockAdjustment. simpl. rewrite Hp.
    rewrite (proj2 (Z.leb_le 0 n) Hn). reflexivity.
  - unfold SalesTerminalView.changeQty. simpl. rewrite Hp. reflexivity.
Qed.

Lemma X22_numeral_round_trip_witness :
  Number.parseInt (ExpensesManager.decimal 1204) = Some 1204%Z
  /\ InventoryManager.handleStockAdjustment
       (InventoryManager.openAdjustModal soap (ExpensesManager.decimal 1204))
     = (InventoryManager.closeAdjustModal,
        [InventoryManager.OnUpdate "a" (InventoryManager.quantity_patch 1204)]).
Proof.
  destruct (X22_numeral_round_trip soap 1204 terminal_init ltac:(lia))
    as (H1 & H2 & _).
  split; [exact H1|exact H2].
Defined.

(** ** The quantity controls of the terminal *)

(** X23. The quantity controls: the minus button never takes the entered
    quantity below 1 and the plus button keeps it at least 1 once it is;
    text that [parseInt] cannot read sets the quantity to 0, and
    [addToCart] then refuses with the alert that the quantity must be
    greater than 0 and changes nothing. *)
Theorem X23_quantity_controls (st : SalesTerminal.State) :
  (1 <= SalesTerminal.qtyInput (SalesTerminal.decrementQty st))%Q
  /\ ((1 <= SalesTerminal.qtyInput st)%Q ->
      (1 <= SalesTerminal.qtyInput (SalesTerminal.incrementQty st))%Q)
  /\ (forall text p,
        Number.parseInt text = None ->
        SalesTerminal.selectedProduct st = Some p ->
        SalesTerminal.qtyInput (SalesTerminalView.changeQty st text) = 0%Q
        /\ SalesTerminal.addToCart (SalesTerminalView.changeQty st text)
           = (SalesTerminalView.changeQty st text,
              [SalesTerminal.Alert SalesTerminal.QuantityMustBePositive])).
Proof.
  split; [|split].
  - unfold SalesTerminal.decrementQty. simpl.
    destruct (Qleb 1 (SalesTerminal.qtyInput st - 1)) eqn:E.
    + apply Qleb_true in E. exact E.
    + apply Qle_refl.
  - intros H. unfold SalesTerminal.incrementQty. simpl. lra.
  - intros text p Hparse Hsel. unfold SalesTerminalView.changeQty. rewrite Hparse.
    split; [reflexivity|].
    unfold SalesTerminal.addToCart. simpl. rewrite Hsel. reflexivity.
Qed.

Lemma X23_quantity_controls_witness :
  SalesTerminal.addToCart
    (SalesTerminalView.changeQty (terminal [] (Some soap) 1) "two")
  = (SalesTerminalView.changeQty (terminal [] (Some soap) 1) "two",
     [SalesTerminal.Alert SalesTerminal.QuantityMustBePositive])
  /\ (1 <= SalesTerminal.qtyInput
             (SalesTerminal.incrementQty (terminal [] (Some soap) 1)))%Q.
Proof.
  destruct (X23_quantity_controls (terminal [] (Some soap) 1)) as (_ & H2 & H3).
  split.
  - exact (proj2 (H3 "two" soap eq_refl eq_refl)).
  - apply H2. q_decide.
Defined.

(** ** The sales history *)

(** X24. The sales history lists exactly the sales that pass its filters,
    newest first, and its revenue and profit figures are the sums over
    these sales; with no filter set every sale is listed, one without
    items included, while a search term keeps only sales with at least
    one item. *)
Theorem X24_sales_history_filter (getTime : string -> Z)
  (startOfDay endOfDay : Z -> Z) (f : SalesHistory.Filters)
  (sales : list SaleRecord.t) :
  let listed := SalesHistory.filteredSales getTime startOfDay endOfDay f sales in
  let passing := List.filter (SalesHistory.matches getTime startOfDay endOfDay f) sales in
  (forall s, s ∈ listed
             <-> s ∈ sales /\ SalesHistory.matches getTime startOfDay endOfDay f s = true)
  /\ (forall i j a b,
        (i < j)%nat -> listed !! i = Some a -> listed !! j = Some b ->
        (getTime (SaleRecord.timestamp b) <= getTime (SaleRecord.timestamp a))%Z)
  /\ (SalesHistory.totalRevenue listed == Qsum SaleRecord.totalAmount passing)%Q
  /\ (SalesHistory.totalProfit listed == Qsum SaleRecord.totalProfit passing)%Q
  /\ (SalesHistory.searchTerm f = EmptyString ->
      SalesHistory.startDate f = EmptyString ->
      SalesHistory.endDate f = EmptyString ->
      listed ≡ₚ sales)
  /\ (SalesHistory.searchTerm f <> EmptyString ->
      forall s, s ∈ listed -> SaleRecord.items s <> []).
Proof.
  cbn zeta. unfold SalesHistory.filteredSales.
  split; [|split; [|split; [|split; [|split]]]].
  - intros s. rewrite elem_of_sort, elem_of_List_filter. reflexivity.
  - unfold SalesHistory.newest_first. intros i j a b Hij Hi Hj.
    exact (StronglySorted_lookup _ _
             (sort_sorted (fun s => getTime (SaleRecord.timestamp s)) _)
             i j a b Hij Hi Hj).
  - unfold SalesHistory.totalRevenue. rewrite reduce_sum_Qsum.
    apply Qsum_perm, sort_perm.
  - unfold SalesHistory.totalProfit. rewrite reduce_sum_Qsum.
    apply Qsum_perm, sort_perm.
  - intros Hs Hsd Hed. rewrite sort_perm.
    rewrite List_filter_all; [reflexivity|].
    intros s. unfold SalesHistory.matches. rewrite Hs, Hsd, Hed. reflexivity.
  - intros Hterm s Hs. rewrite elem_of_sort, elem_of_List_filter in Hs.
    destruct Hs as [_ Hm]. unfold SalesHistory.matches in Hm.
    apply andb_prop in Hm as [Hm _]. apply orb_prop in Hm as [Hm|Hm].
    + apply String.eqb_eq in Hm. congruence.
    + intros Hnil. rewrite Hnil in Hm. discriminate.
Qed.

Lemma X24_sales_history_filter_witness :
  SalesHistory.filteredSales day_of_month same_instant same_instant no_sales_filter
    [monday_sale; empty_sale; tuesday_sale]
  ≡ₚ [monday_sale; empty_sale; tuesday_sale]
  /\ forall s,
       s ∈ SalesHistory.filteredSales day_of_month same_instant same_instant
             (SalesHistory.mkFilters "soap" EmptyString EmptyString)
             [monday_sale; empty_sale; tuesday_sale] ->
       SaleRecord.items s <> [].
Proof.
  destruct (X24_sales_history_filter day_of_month same_instant same_instant
              no_sales_filter [monday_sale; empty_sale; tuesday_sale])
    as (_ & _ & _ & _ & H5 & _).
  destruct (X24_sales_history_filter day_of_month same_instant same_instant
              (SalesHistory.mkFilters "soap" EmptyString EmptyString)
              [monday_sale; empty_sale; tuesday_sale])
    as (_ & _ & _ & _ & _ & H6).
  split.
  - apply H5; reflexivity.
  - apply H6. discriminate.
Defined.

(** ** The inventory view *)

Lemma Set_from_fold (l : list string) :
  forall seen,
    NoDup seen ->
    let out :=
      fold_left (fun seen x => if decide (x ∈ seen) then seen else seen ++ [x])
        l seen in
    NoDup out /\ forall x, x ∈ out <-> x ∈ seen \/ x ∈ l.
Proof.
  induction l as [|y r IH]; intros seen Hnd; cbn zeta; simpl.
  - split; [exact Hnd|]. intros x. rewrite elem_of_nil. tauto.
  - destruct (decide (y ∈ seen)) as [Hin|Hout].
    + destruct (IH seen Hnd) as [H1 H2]. split; [exact H1|].
      intros x. rewrite H2, elem_of_cons. split; [tauto|].
      intros [H|[->|H]]; auto.
    + assert (Hnd' : NoDup (seen ++ [y])).
      { apply NoDup_app. split; [exact Hnd|]. split; [|apply NoDup_singleton].
        intros x Hx Hx'. apply list_elem_of_singleton in Hx'. subst x. exact (Hout Hx). }
      destruct (IH (seen ++ [y]) Hnd') as [H1 H2]. split; [exact H1|].
      intros x. rewrite H2, elem_of_app, list_elem_of_singleton, elem_of_cons. tauto.
Qed.

(** X25. The category list of the inventory form has every category of
    the inventory and nothing else, each once, in strictly increasing
    order of the code units. *)
Theorem X25_categories_sorted_and_unique (inventory : list InventoryItem.t) :
  let cats := InventoryManagerView.categories inventory in
  NoDup cats
  /\ (forall c, c ∈ cats
                <-> exists item, item ∈ inventory /\ InventoryItem.category item = c)
  /\ (forall i j a b,
        (i < j)%nat -> cats !! i = Some a -> cats !! j = Some b ->
        String.compare a b = Lt).
Proof.
  cbn zeta. unfold InventoryManagerView.categories, JS.Set_from.
  destruct (Set_from_fold (map InventoryItem.category inventory) [] (NoDup_nil_2))
    as [Hnd Hmem].
  set (set := fold_left _ _ _) in *.
  assert (Hnd' : NoDup (JS.sort JS.defaultCompare set))
    by (rewrite sort_perm; exact Hnd).
  split; [exact Hnd'|]. split.
  - intros c. rewrite elem_of_sort, Hmem, elem_of_nil.
    change (map InventoryItem.category inventory)
      with (InventoryItem.category <$> inventory).
    rewrite list_elem_of_fmap. split.
    + intros [[]|(item & -> & Hin)]. exists item. auto.
    + intros (item & Hin & <-). right. exists item. auto.
  - intros i j a b Hij Hi Hj.
    pose proof (StronglySorted_lookup _ _ (sort_sorted_le (fun s : string => s) set)
                  i j a b Hij Hi Hj) as Hle.
    unfold string_le in Hle.
    destruct (String.compare a b) eqn:E; [|reflexivity|congruence].
    apply String.compare_eq_iff in E. subst b. exfalso.
    pose proof (NoDup_lookup _ _ _ _ Hnd' Hi Hj). lia.
Qed.

Lemma X25_categories_sorted_and_unique_witness :
  InventoryManagerView.categories [bread; soap; soap_twin] = ["Care"; "Food"]
  /\ String.compare "Care" "Food" = Lt.
Proof.
  split; [reflexivity|].
  destruct (X25_categories_sorted_and_unique [bread; soap; soap_twin])
    as (_ & _ & H).
  apply (H 0%nat 1%nat); [lia|reflexivity|reflexivity].
Defined.

Lemma lower_ascii_idem (c : ascii) :
  ExpensesManager.lower_ascii (ExpensesManager.lower_ascii c)
  = ExpensesManager.lower_ascii c.
Proof. destruct c as [[] [] [] [] [] [] [] []]; reflexivity. Qed.

Lemma toLowerCase_idem (s : string) :
  ExpensesManager.toLowerCase (ExpensesManager.toLowerCase s)
  = ExpensesManager.toLowerCase s.
Proof.
  induction s as [|c r IH]; simpl; [reflexivity|].
  rewrite lower_ascii_idem, IH. reflexivity.
Qed.

Lemma List_filter_sublist {A : Type} (f : A -> bool) (l : list A) :
  List.filter f l `sublist_of` l.
Proof.
  induction l as [|x r IH]; simpl; [constructor|].
  destruct (f x); [apply sublist_skip|apply sublist_cons]; exact IH.
Qed.

(** X26. The product search.  In the terminal and in the inventory view
    an empty search box lists the whole inventory; the listed products
    are always products of the inventory, in their order; the search does
    not depend on the case of the letters typed (lower-casing the term
    gives the same list); and every product the terminal's search lists,
    the inventory view's search lists too. *)
Theorem X26_product_search (inventory : list InventoryItem.t) (term : string) :
  SalesTerminalView.filteredInventory inventory EmptyString = inventory
  /\ InventoryManagerView.filteredInventory inventory EmptyString = inventory
  /\ SalesTerminalView.filteredInventory inventory term `sublist_of` inventory
  /\ InventoryManagerView.filteredInventory inventory term `sublist_of` inventory
  /\ SalesTerminalView.filteredInventory inventory (ExpensesManager.toLowerCase term)
     = SalesTerminalView.filteredInventory inventory term
  /\ (forall item,
        item ∈ SalesTerminalView.filteredInventory inventory term ->
        item ∈ InventoryManagerView.filteredInventory inventory term).
Proof.
  split; [|split; [|split; [|split; [|split]]]].
  - apply List_filter_all. intros item. apply includes_empty.
  - apply List_filter_all. intros item. simpl. rewrite includes_empty. reflexivity.
  - apply List_filter_sublist.
  - apply List_filter_sublist.
  - unfold SalesTerminalView.filteredInventory. rewrite toLowerCase_idem. reflexivity.
  - intros item. unfold SalesTerminalView.filteredInventory,
      InventoryManagerView.filteredInventory.
    rewrite !elem_of_List_filter. intros [Hin Hm]. split; [exact Hin|].
    rewrite Hm. reflexivity.
Qed.

Lemma X26_product_search_witness :
  soap ∈ InventoryManagerView.filteredInventory [bread; soap] "SOA".
Proof.
  destruct (X26_product_search [bread; soap] "SOA") as (_ & _ & _ & _ & _ & H).
  apply H. apply list_elem_of_here.
Defined.

(** X27. Editing without changes changes nothing but the timestamp.  For
    an item with a non-empty id, opening the edit form and submitting it
    asks for an update of that id and resets the form; when the remote
    update succeeds the item keeps every field except lastUpdated, which
    becomes the current time, and items with another id are untouched.
    For an item whose id is empty the same submit asks for an add
    instead. *)
Theorem X27_edit_round_trip (app : App.AppState) (env : App.WriteEnv)
  (item : InventoryItem.t) (k : nat) :
  (InventoryItem.id item <> EmptyString ->
   InventoryManagerView.handleSubmit (InventoryManagerView.handleEdit item)
   = (InventoryManagerView.resetForm,
      [InventoryManagerView.OnUpdate (InventoryItem.id item)
         (InventoryManagerView.patch_of
            (InventoryManagerView.formData (InventoryManagerView.handleEdit item)))]))
  /\ (InventoryItem.id item = EmptyString ->
      snd (InventoryManagerView.handleSubmit (InventoryManagerView.handleEdit item))
      = [InventoryManagerView.OnAdd
           (InventoryManagerView.formData (InventoryManagerView.handleEdit item))])
  /\ (App.thrown (App.write_resp env) = None ->
      let inv' :=
        App.inventory
          (fst (App.handleUpdateItem app env (InventoryItem.id item)
                  (InventoryManagerView.patch_of
                     (InventoryManagerView.formData
                        (InventoryManagerView.handleEdit item))))) in
      (App.inventory app !! k = Some item ->
       inv' !! k
       = Some (InventoryItem.mk (InventoryItem.id item) (InventoryItem.name item)
                 (InventoryItem.category item) (InventoryItem.quantity item)
                 (InventoryItem.costPrice item) (InventoryItem.salesPrice item)
                 (InventoryItem.lowStockThreshold item) (App.now env)))
      /\ (forall q, App.inventory app !! k = Some q ->
                    InventoryItem.id q <> InventoryItem.id item ->
                    inv' !! k = Some q)).
Proof.
  split; [|split].
  - intros Hid. unfold InventoryManagerView.handleSubmit. simpl.
    destruct (InventoryItem.id item); [congruence|reflexivity].
  - intros Hid. unfold InventoryManagerView.handleSubmit. simpl.
    rewrite Hid. reflexivity.
  - intros Hok. cbn zeta. unfold App.handleUpdateItem. rewrite Hok. simpl.
    split.
    + intros Hk.
      change (map ?g (App.inventory app)) with (g <$> App.inventory app).
      rewrite list_lookup_fmap, Hk. simpl.
      rewrite decide_True by reflexivity. reflexivity.
    + intros q Hk Hne.
      change (map ?g (App.inventory app)) with (g <$> App.inventory app).
      rewrite list_lookup_fmap, Hk. simpl.
      rewrite decide_False by exact Hne. reflexivity.
Qed.

Lemma X27_edit_round_trip_witness :
  snd (InventoryManagerView.handleSubmit (InventoryManagerView.handleEdit soap))
  = [InventoryManagerView.OnUpdate "a"
       (InventoryManagerView.patch_of
          (InventoryManagerView.formData (InventoryManagerView.handleEdit soap)))]
  /\ App.inventory
       (fst (App.handleUpdateItem (app_state [bread; soap])
               (App.mkWriteEnv "u" "2024-03-02T08:00:00.000Z" true ok_resp
                  (fetch_ok [] []))
               "a"
               (InventoryManagerView.patch_of
                  (InventoryManagerView.formData (InventoryManagerView.handleEdit soap)))))
       !! 0%nat = Some bread.
Proof.
  destruct (X27_edit_round_trip (app_state [bread; soap])
              (App.mkWriteEnv "u" "2024-03-02T08:00:00.000Z" true ok_resp
                 (fetch_ok [] []))
              soap 0) as (H1 & _ & H3).
  split.
  - rewrite H1 by discriminate. reflexivity.
  - apply (H3 eq_refl); [reflexivity|discriminate].
Defined.
